(** * Housing Market Intelligence Platform: deployment tooling

    A shallow embedding of the three command-line utilities of the
    repository (cost_estimator.py, cleanup.py, deploy.py) and the
    properties their specification states about them.

    Conventions of the embedding:
    - Python [int] is [Z]; Python [float] is modelled twice: as an exact
      rational [Q] in module [CostEstimator], for the properties of the
      formulas in exact arithmetic, and as IEEE 754 binary64 (the kernel's
      primitive floats) in module [CostEstimator64], with the rendering of
      [format], for the properties of the figures the report prints;
    - a [dict] whose iteration order is observable is an association
      list in insertion order;
    - in [CostEstimator] an f-string that formats a number keeps the
      number and its format specification ([fpart]); in [CostEstimator64]
      it is the text Python produces;
    - a raised exception is a value ([exn]) carrying its class and the
      text [str(e)] yields. *)

From Stdlib Require Import String Ascii List ZArith QArith Bool Arith Lia.
From Stdlib Require Import DecimalString RelationClasses Qabs.
From Stdlib Require Floats.
Import ListNotations.

Open Scope string_scope.

(* ================================================================== *)
(** * Python runtime pieces shared by the three scripts *)
(* ================================================================== *)

Module Py.

(** Exception classes as the scripts' [except] clauses tell them apart.
    botocore maps the error code of a failed API call to a subclass of
    [ClientError] ([NoSuchBucket], [EntityNotFoundException], ...), so a
    [ClientError] carries its code. [WaiterError] is a [BotoCoreError],
    not a [ClientError]. [BaseOnly] stands for [KeyboardInterrupt] and
    [SystemExit], which [except Exception] lets through. *)
Inductive exn_class : Type :=
| ClientError (code : string)
| WaiterError
| OtherException (name : string)
| BaseOnly (name : string).

Record exn : Type := mkExn {
  exn_cls : exn_class;
  exn_str : string          (* str(e) *)
}.

(** [except Exception] *)
Definition is_Exception (e : exn) : bool :=
  match exn_cls e with
  | BaseOnly _ => false
  | _ => true
  end.

(** [except client.exceptions.ClientError] *)
Definition is_ClientError (e : exn) : bool :=
  match exn_cls e with
  | ClientError _ => true
  | _ => false
  end.

(** [except client.exceptions.<Code>]: the modeled subclass of that code. *)
Definition is_code (code : string) (e : exn) : bool :=
  match exn_cls e with
  | ClientError c => String.eqb c code
  | _ => false
  end.

Definition KeyError (key : string) : exn :=
  mkExn (OtherException "KeyError") ("'" ++ key ++ "'").

(** A computation that returns or raises. *)
Inductive result (A : Type) : Type :=
| Ok (a : A)
| Raise (e : exn).
Arguments Ok {A} a.
Arguments Raise {A} e.

Definition rbind {A B : Type} (r : result A) (k : A -> result B) : result B :=
  match r with
  | Ok a => k a
  | Raise e => Raise e
  end.

(** ** Strings *)

(** [needle in hay] *)
Fixpoint contains (needle hay : string) : bool :=
  String.prefix needle hay ||
  match hay with
  | EmptyString => false
  | String _ rest => contains needle rest
  end.

(** [s.startswith(p)] *)
Definition startswith (s p : string) : bool := String.prefix p s.

Definition upper_ascii (c : ascii) : ascii :=
  let n := nat_of_ascii c in
  if (97 <=? n)%nat && (n <=? 122)%nat then ascii_of_nat (n - 32) else c.

(** [s.upper()] on ASCII text *)
Fixpoint upper (s : string) : string :=
  match s with
  | EmptyString => EmptyString
  | String c rest => String (upper_ascii c) (upper rest)
  end.

Definition lower_ascii (c : ascii) : ascii :=
  let n := nat_of_ascii c in
  if (65 <=? n)%nat && (n <=? 90)%nat then ascii_of_nat (n + 32) else c.

(** [s.lower()] on ASCII text *)
Fixpoint lower (s : string) : string :=
  match s with
  | EmptyString => EmptyString
  | String c rest => String (lower_ascii c) (lower rest)
  end.

(** [s.replace(old, new)] for a non-empty [old]: [skip] counts the
    characters of a replaced occurrence still to pass over. *)
Fixpoint replace_from (old new : string) (skip : nat) (s : string) : string :=
  match s with
  | EmptyString => EmptyString
  | String c rest =>
      match skip with
      | S k => replace_from old new k rest
      | O =>
          if String.prefix old s
          then new ++ replace_from old new (String.length old - 1) rest
          else String c (replace_from old new 0 rest)
      end
  end.

Definition replace (old new s : string) : string := replace_from old new 0 s.

(** [s.split('/')[-1]]: the text after the last slash. *)
Fixpoint after_last_slash (s : string) : string :=
  match s with
  | EmptyString => EmptyString
  | String c rest =>
      if Ascii.eqb c "/" && negb (contains "/" rest)
      then rest
      else if contains "/" s then after_last_slash rest else s
  end.

(** [s * n] *)
Fixpoint str_mul (s : string) (n : nat) : string :=
  match n with
  | O => EmptyString
  | S k => s ++ str_mul s k
  end.

(** [f"{s:<w}"] *)
Definition ljust (w : nat) (s : string) : string :=
  s ++ str_mul " " (w - String.length s).

(** [f"{s:>w}"] *)
Definition rjust (w : nat) (s : string) : string :=
  str_mul " " (w - String.length s) ++ s.

(** ** Dictionaries with string keys, in insertion order *)

Definition dict (V : Type) : Type := list (string * V).

Fixpoint dict_find {V : Type} (d : dict V) (k : string) : option V :=
  match d with
  | [] => None
  | (k', v) :: rest => if String.eqb k' k then Some v else dict_find rest k
  end.

(** [d[k]] *)
Definition dict_get {V : Type} (d : dict V) (k : string) : result V :=
  match dict_find d k with
  | Some v => Ok v
  | None => Raise (KeyError k)
  end.

(** [d.get(k, default)] *)
Definition dict_get_default {V : Type} (d : dict V) (k : string) (default : V) : V :=
  match dict_find d k with
  | Some v => v
  | None => default
  end.

(** [d[k] = v]: an existing key keeps its place. *)
Fixpoint dict_set {V : Type} (d : dict V) (k : string) (v : V) : dict V :=
  match d with
  | [] => [(k, v)]
  | (k', v') :: rest =>
      if String.eqb k' k then (k, v) :: rest else (k', v') :: dict_set rest k v
  end.

Definition dict_values {V : Type} (d : dict V) : list V := map snd d.

(** ** f-strings over numbers *)

Inductive fpart : Type :=
| Lit (s : string)                  (* literal text and interpolated strings *)
| FInt (z : Z)                      (* {n} *)
| FIntSep (z : Z)                   (* {n:,} *)
| FFloat (q : Q)                    (* {x} of a float *)
| FFixed (width decimals : nat) (q : Q).   (* {x:>width.decimalsf} *)

Definition fstring : Type := list fpart.

(** [sum(...)] of floats *)
Definition qsum (l : list Q) : Q := fold_left Qplus l 0%Q.

(** [a < b] on floats *)
Definition qlt (a b : Q) : bool :=
  match (a ?= b)%Q with
  | Lt => true
  | _ => false
  end.

(** The newline character. *)
Definition nl : string := String (ascii_of_nat 10) EmptyString.

End Py.

(* ================================================================== *)
(** * cost_estimator.py *)
(* ================================================================== *)

Module CostEstimator.
Import Py.

Inductive DataVolume : Type := LOW | MEDIUM | HIGH.

(** [DataVolume.value] *)
Definition DataVolume_value (v : DataVolume) : string :=
  match v with
  | LOW => "low"
  | MEDIUM => "medium"
  | HIGH => "high"
  end.

Record ServiceCost : Type := mkServiceCost {
  service_name : string;
  description : string;
  hourly_cost : Q;
  daily_cost : Q;
  monthly_cost : Q;
  cost_components : dict Q;
  notes : fstring
}.

(** One entry of [volume_config]: the five integers of a tier. *)
Record VolumeConfig : Type := mkVolumeConfig {
  records_per_month : Z;
  glue_dpu_hours : Z;
  embedding_requests : Z;
  rag_queries_per_day : Z;
  storage_gb : Z
}.

Record t : Type := mkCostEstimator {
  environment : string;
  data_volume : DataVolume;
  env_multipliers : dict Q;
  volume_config : DataVolume -> VolumeConfig
}.

(** [CostEstimator.__init__] *)
Definition init (environment : string) (data_volume : DataVolume) : t :=
  {| environment := environment;
     data_volume := data_volume;
     env_multipliers := [("dev", 1.0%Q); ("staging", 1.5%Q); ("prod", 3.0%Q)];
     volume_config := fun v =>
       match v with
       | LOW => {| records_per_month := 100000;
                   glue_dpu_hours := 10;
                   embedding_requests := 100000;
                   rag_queries_per_day := 100;
                   storage_gb := 10 |}
       | MEDIUM => {| records_per_month := 1000000;
                      glue_dpu_hours := 50;
                      embedding_requests := 1000000;
                      rag_queries_per_day := 1000;
                      storage_gb := 100 |}
       | HIGH => {| records_per_month := 10000000;
                    glue_dpu_hours := 200;
                    embedding_requests := 10000000;
                    rag_queries_per_day := 10000;
                    storage_gb := 1000 |}
       end |}%Z.

Section Formulas.
Open Scope Q_scope.

Variable self : t.

Let config : VolumeConfig := volume_config self (data_volume self).

Definition _calculate_vpc_costs : ServiceCost :=
  {| service_name := "Amazon VPC";
     description := "Virtual Private Cloud networking";
     hourly_cost := 0.0;
     daily_cost := 0.0;
     monthly_cost := 0.0;
     cost_components :=
       [("vpc", 0.0); ("subnets", 0.0); ("route_tables", 0.0); ("security_groups", 0.0)];
     notes := [Lit "VPC, subnets, route tables, and security groups are free"] |}.

Definition _calculate_nat_gateway_costs : result ServiceCost :=
  let hourly_rate := 0.045 in
  let data_processed_per_hour_gb := 0.5 in
  let data_rate := 0.045 in
  let hourly := hourly_rate + (data_processed_per_hour_gb * data_rate) in
  let daily := hourly * 24 in
  let monthly := daily * 30 in
  rbind (dict_get (env_multipliers self) (environment self)) (fun multiplier =>
  let multiplier :=
    if String.eqb (environment self) "prod" then 2.0 else multiplier in
  Ok {| service_name := "NAT Gateway";
        description := "Network Address Translation for private subnets";
        hourly_cost := hourly * multiplier;
        daily_cost := daily * multiplier;
        monthly_cost := monthly * multiplier;
        cost_components :=
          [("hourly_charge", 0.045 * multiplier);
           ("data_processing", data_processed_per_hour_gb * data_rate * multiplier)];
        notes := [Lit "NAT Gateway is a significant cost; consider NAT instances for dev"] |}).

Definition _calculate_s3_costs : ServiceCost :=
  let storage_gb := storage_gb config in
  let storage_cost_per_gb := 0.023 in
  let put_requests := (records_per_month config * 2)%Z in
  let get_requests := (records_per_month config * 5)%Z in
  let put_cost := (inject_Z put_requests / 1000) * 0.005 in
  let get_cost := (inject_Z get_requests / 1000) * 0.0004 in
  let monthly := (inject_Z storage_gb * storage_cost_per_gb) + put_cost + get_cost in
  {| service_name := "Amazon S3";
     description := "Object storage for raw and processed data";
     hourly_cost := monthly / 720;
     daily_cost := monthly / 30;
     monthly_cost := monthly;
     cost_components :=
       [("storage", inject_Z storage_gb * storage_cost_per_gb);
        ("put_requests", put_cost);
        ("get_requests", get_cost)];
     notes := [Lit "Based on "; FInt storage_gb; Lit "GB storage, ";
               FIntSep put_requests; Lit " PUT, ";
               FIntSep get_requests; Lit " GET requests"] |}.

Definition _calculate_kms_costs : ServiceCost :=
  let key_cost := 1.0 in
  let num_keys := 1%Z in
  let requests := (records_per_month config * 3)%Z in
  let request_cost := (inject_Z requests / 10000) * 0.03 in
  let monthly := (key_cost * inject_Z num_keys) + request_cost in
  {| service_name := "AWS KMS";
     description := "Key Management Service for encryption";
     hourly_cost := monthly / 720;
     daily_cost := monthly / 30;
     monthly_cost := monthly;
     cost_components :=
       [("key_storage", key_cost * inject_Z num_keys); ("requests", request_cost)];
     notes := [Lit "Based on "; FIntSep requests; Lit " cryptographic requests/month"] |}.

Definition _calculate_glue_costs : ServiceCost :=
  let dpu_hour_cost := 0.44 in
  let dpu_hours := glue_dpu_hours config in
  let crawler_dpu_hour_cost := 0.44 in
  let crawler_hours := 2%Z in
  let catalog_storage := 0.0 in
  let monthly_etl := inject_Z dpu_hours * dpu_hour_cost in
  let monthly_crawler := inject_Z (crawler_hours * 30)%Z * crawler_dpu_hour_cost in
  let monthly := monthly_etl + monthly_crawler in
  {| service_name := "AWS Glue";
     description := "ETL jobs and data catalog";
     hourly_cost := monthly / 720;
     daily_cost := monthly / 30;
     monthly_cost := monthly;
     cost_components :=
       [("etl_jobs", monthly_etl); ("crawlers", monthly_crawler);
        ("data_catalog", catalog_storage)];
     notes := [Lit "Based on "; FInt dpu_hours; Lit " DPU-hours/month for ETL"] |}.

Definition _calculate_appflow_costs : ServiceCost :=
  let flow_run_cost := 0.001 in
  let runs_per_month := (30 * 24)%Z in
  let gb_processed := inject_Z (storage_gb config) / 10 in
  let processing_cost := gb_processed * 0.02 in
  let monthly := (flow_run_cost * inject_Z runs_per_month) + processing_cost in
  {| service_name := "Amazon AppFlow";
     description := "SaaS data integration";
     hourly_cost := monthly / 720;
     daily_cost := monthly / 30;
     monthly_cost := monthly;
     cost_components :=
       [("flow_runs", flow_run_cost * inject_Z runs_per_month);
        ("data_processing", processing_cost)];
     notes := [Lit "Based on "; FInt runs_per_month; Lit " flow runs and ";
               FFloat gb_processed; Lit "GB processed"] |}.

(** One entry of the local table [instance_configs]. *)
Record InstanceConfig : Type := mkInstanceConfig {
  instance_type : string;
  instance_hourly : Q;
  instance_count : Z
}.

Definition _calculate_opensearch_costs : result ServiceCost :=
  let instance_configs : dict InstanceConfig :=
    [("dev", mkInstanceConfig "t3.small.search" 0.036 1);
     ("staging", mkInstanceConfig "t3.medium.search" 0.073 2);
     ("prod", mkInstanceConfig "r6g.large.search" 0.167 3)] in
  rbind (dict_get instance_configs (environment self)) (fun config' =>
  let instance_monthly :=
    instance_hourly config' * 720 * inject_Z (instance_count config') in
  let storage_gb := storage_gb (volume_config self (data_volume self)) in
  let ebs_cost := inject_Z storage_gb * 0.135 in
  let monthly := instance_monthly + ebs_cost in
  Ok {| service_name := "Amazon OpenSearch";
        description := "Vector database for semantic search";
        hourly_cost := monthly / 720;
        daily_cost := monthly / 30;
        monthly_cost := monthly;
        cost_components := [("instances", instance_monthly); ("ebs_storage", ebs_cost)];
        notes := [Lit "Using "; FInt (instance_count config'); Lit "x ";
                  Lit (instance_type config'); Lit " instances"] |}).

Definition _calculate_lambda_costs : ServiceCost :=
  let requests_per_month := (rag_queries_per_day config * 30)%Z in
  let avg_duration_ms := 2000%Z in
  let memory_mb := 1024%Z in
  let gb_seconds :=
    (inject_Z (requests_per_month * avg_duration_ms)%Z / 1000)
    * (inject_Z memory_mb / 1024) in
  let compute_cost := gb_seconds * 0.0000166667 in
  let request_cost := (inject_Z requests_per_month / 1000000) * 0.20 in
  let monthly := compute_cost + request_cost in
  {| service_name := "AWS Lambda";
     description := "Serverless compute for RAG queries";
     hourly_cost := monthly / 720;
     daily_cost := monthly / 30;
     monthly_cost := monthly;
     cost_components := [("compute", compute_cost); ("requests", request_cost)];
     notes := [Lit "Based on "; FIntSep requests_per_month; Lit " requests at ";
               FInt avg_duration_ms; Lit "ms average"] |}.

Definition _calculate_api_gateway_costs : ServiceCost :=
  let requests_per_month := (rag_queries_per_day config * 30)%Z in
  let api_cost := (inject_Z requests_per_month / 1000000) * 3.50 in
  {| service_name := "Amazon API Gateway";
     description := "REST API endpoint";
     hourly_cost := api_cost / 720;
     daily_cost := api_cost / 30;
     monthly_cost := api_cost;
     cost_components := [("api_calls", api_cost)];
     notes := [Lit "Based on "; FIntSep requests_per_month; Lit " API calls"] |}.

Definition _calculate_bedrock_costs : ServiceCost :=
  let embedding_requests := embedding_requests config in
  let embedding_tokens := (embedding_requests * 500)%Z in
  let embedding_cost := (inject_Z embedding_tokens / 1000) * 0.0001 in
  let queries_per_month := (rag_queries_per_day config * 30)%Z in
  let input_tokens := (queries_per_month * 3000)%Z in
  let output_tokens := (queries_per_month * 500)%Z in
  let input_cost := (inject_Z input_tokens / 1000) * 0.003 in
  let output_cost := (inject_Z output_tokens / 1000) * 0.015 in
  let monthly := embedding_cost + input_cost + output_cost in
  {| service_name := "Amazon Bedrock";
     description := "GenAI embeddings and text generation";
     hourly_cost := monthly / 720;
     daily_cost := monthly / 30;
     monthly_cost := monthly;
     cost_components :=
       [("embeddings", embedding_cost); ("claude_input", input_cost);
        ("claude_output", output_cost)];
     notes := [Lit "Bedrock is typically the largest cost component for RAG systems"] |}.

Definition _calculate_cloudwatch_costs : ServiceCost :=
  let log_ingestion_gb := 5%Z in
  let log_storage_gb := 20%Z in
  let ingestion_cost := inject_Z log_ingestion_gb * 0.50 in
  let storage_cost := inject_Z log_storage_gb * 0.03 in
  let custom_metrics := 20%Z in
  let metrics_cost := inject_Z custom_metrics * 0.30 in
  let alarms := 5%Z in
  let alarm_cost := inject_Z alarms * 0.10 in
  let monthly := ingestion_cost + storage_cost + metrics_cost + alarm_cost in
  {| service_name := "Amazon CloudWatch";
     description := "Monitoring and logging";
     hourly_cost := monthly / 720;
     daily_cost := monthly / 30;
     monthly_cost := monthly;
     cost_components :=
       [("log_ingestion", ingestion_cost); ("log_storage", storage_cost);
        ("metrics", metrics_cost); ("alarms", alarm_cost)];
     notes := [Lit "Costs scale with log volume and retention"] |}.

Definition _calculate_secrets_manager_costs : ServiceCost :=
  let num_secrets := 5%Z in
  let api_calls := 10000%Z in
  let secret_cost := inject_Z num_secrets * 0.40 in
  let api_cost := (inject_Z api_calls / 10000) * 0.05 in
  let monthly := secret_cost + api_cost in
  {| service_name := "AWS Secrets Manager";
     description := "Secure credential storage";
     hourly_cost := monthly / 720;
     daily_cost := monthly / 30;
     monthly_cost := monthly;
     cost_components := [("secrets", secret_cost); ("api_calls", api_cost)];
     notes := [Lit "Based on "; FInt num_secrets; Lit " secrets"] |}.

(** The dict literal is evaluated entry by entry, in this order. *)
Definition calculate_all_costs : result (dict ServiceCost) :=
  let vpc := _calculate_vpc_costs in
  rbind _calculate_nat_gateway_costs (fun nat_gateway =>
  let s3 := _calculate_s3_costs in
  let kms := _calculate_kms_costs in
  let glue := _calculate_glue_costs in
  let appflow := _calculate_appflow_costs in
  rbind _calculate_opensearch_costs (fun opensearch =>
  Ok [("vpc", vpc);
      ("nat_gateway", nat_gateway);
      ("s3", s3);
      ("kms", kms);
      ("glue", glue);
      ("appflow", appflow);
      ("opensearch", opensearch);
      ("lambda", _calculate_lambda_costs);
      ("api_gateway", _calculate_api_gateway_costs);
      ("bedrock", _calculate_bedrock_costs);
      ("cloudwatch", _calculate_cloudwatch_costs);
      ("secrets_manager", _calculate_secrets_manager_costs)])).

(** The local table [categories] of [generate_report]. *)
Definition categories : dict (list string) :=
  [("Compute", ["glue"; "lambda"; "opensearch"]);
   ("AI/ML", ["bedrock"]);
   ("Storage", ["s3"]);
   ("Networking", ["nat_gateway"; "vpc"]);
   ("Integration", ["appflow"; "api_gateway"]);
   ("Security", ["kms"; "secrets_manager"]);
   ("Monitoring", ["cloudwatch"])].

(** [sum(costs[s].monthly_cost for s in services if s in costs)] *)
Definition category_cost (costs : dict ServiceCost) (services : list string) : Q :=
  qsum (flat_map (fun s =>
                    match dict_find costs s with
                    | Some c => [monthly_cost c]
                    | None => []
                    end) services).

(** [(category_cost / total_monthly * 100) if total_monthly > 0 else 0] *)
Definition percentage (category_cost total_monthly : Q) : Q :=
  if qlt 0 total_monthly then category_cost / total_monthly * 100 else 0.

(** The report is the list [report] before ["\n".join]: one f-string per
    element. *)
Definition generate_report : result (list fstring) :=
  rbind calculate_all_costs (fun costs =>
  let total_hourly := qsum (map hourly_cost (dict_values costs)) in
  let total_daily := qsum (map daily_cost (dict_values costs)) in
  let total_monthly := qsum (map monthly_cost (dict_values costs)) in
  let report := (
    [ [Lit (str_mul "=" 80)];
      [Lit "HOUSING MARKET INTELLIGENCE PLATFORM - AWS COST ESTIMATE"];
      [Lit (str_mul "=" 80)];
      [Lit (nl ++ "Environment: " ++ upper (environment self))];
      [Lit ("Data Volume: " ++ upper (DataVolume_value (data_volume self)))];
      [Lit "Region: us-east-1"];
      [Lit ""];
      [Lit (str_mul "-" 80)];
      [Lit (ljust 25 "Service" ++ " " ++ rjust 12 "Hourly" ++ " "
            ++ rjust 12 "Daily" ++ " " ++ rjust 12 "Monthly")];
      [Lit (str_mul "-" 80)] ]
    ++ map (fun service_cost =>
              [Lit (ljust 25 (service_name service_cost) ++ " $");
               FFixed 10 4 (hourly_cost service_cost); Lit " $";
               FFixed 10 2 (daily_cost service_cost); Lit " $";
               FFixed 10 2 (monthly_cost service_cost)])
           (dict_values costs)
    ++ [ [Lit (str_mul "-" 80)];
         [Lit (ljust 25 "TOTAL" ++ " $");
          FFixed 10 4 total_hourly; Lit " $";
          FFixed 10 2 total_daily; Lit " $";
          FFixed 10 2 total_monthly];
         [Lit (str_mul "=" 80)];
         [Lit (nl ++ nl ++ "COST BREAKDOWN BY CATEGORY")];
         [Lit (str_mul "-" 40)] ]
    ++ map (fun '(category, services) =>
              let category_cost := category_cost costs services in
              let percentage := percentage category_cost total_monthly in
              [Lit (ljust 20 category ++ " $");
               FFixed 10 2 category_cost; Lit " (";
               FFixed 5 1 percentage; Lit "%)"])
           categories
    ++ [ [Lit (nl ++ nl ++ "COST OPTIMIZATION RECOMMENDATIONS")];
         [Lit (str_mul "-" 40)] ]
    ++ (if String.eqb (environment self) "dev"
        then [ [Lit "• Consider using NAT instances instead of NAT Gateway ($0.04/hr vs $0.045/hr)"];
               [Lit "• Use t3.small OpenSearch for development"];
               [Lit "• Reduce Glue DPU hours by optimizing job efficiency"] ]
        else []))%list in
  rbind (dict_get costs "bedrock") (fun bedrock =>
  let report := (report ++
    if qlt (total_monthly * 0.3) (monthly_cost bedrock)
     then [ [Lit "• Bedrock costs are high - consider caching frequent queries"];
            [Lit "• Evaluate batch processing for embeddings vs real-time"] ]
     else [])%list in
  rbind (dict_get costs "opensearch") (fun opensearch =>
  let report := (report ++
    if qlt (total_monthly * 0.2) (monthly_cost opensearch)
     then [ [Lit "• Consider OpenSearch Serverless for variable workloads"];
            [Lit "• Optimize index mapping to reduce storage"] ]
     else [])%list in
  Ok (report ++
      [ [Lit (nl ++ nl ++ "NOTES")];
        [Lit (str_mul "-" 40)];
        [Lit "• Costs are estimates based on January 2025 pricing"];
        [Lit "• Actual costs may vary based on usage patterns"];
        [Lit "• Free tier benefits not included in calculations"];
        [Lit "• Data transfer costs not included (typically < 5% of total)"] ])%list))).

End Formulas.

(** The three values of [--environment]. *)
Definition environments : list string := ["dev"; "staging"; "prod"].

(** [hourly] of [_calculate_nat_gateway_costs] before the multiplier. *)
Definition nat_gateway_hourly_base : Q := (0.045 + 0.5 * 0.045)%Q.

(** The three totals of a service are in proportion. *)
Definition proportional (c : ServiceCost) : Prop :=
  (daily_cost c == 24 * hourly_cost c /\ monthly_cost c == 30 * daily_cost c)%Q.

(** ** The command line *)

(** [DataVolume(value)], as [main] builds the tier from [--data-volume]. *)
Definition DataVolume_of_value (value : string) : result DataVolume :=
  if String.eqb value "low" then Ok LOW
  else if String.eqb value "medium" then Ok MEDIUM
  else if String.eqb value "high" then Ok HIGH
  else Raise (mkExn (OtherException "ValueError")
                    ("'" ++ value ++ "' is not a valid DataVolume")).

(** The three values of [--data-volume]. *)
Definition data_volumes : list string := ["low"; "medium"; "high"].

End CostEstimator.

Set Warnings "-inexact-float".

(* ================================================================== *)
(** * cost_estimator.py over binary64 *)
(* ================================================================== *)

(** The arithmetic of CPython's [float]: IEEE 754 binary64 with rounding to
    nearest, ties to even, which is what the kernel's primitive floats
    compute; a decimal literal denotes the nearest binary64 number. *)
Module Binary64.
Import Py.
Import Floats.

(** [float(n)] of an [int]; the integers of the estimator are far below
    2^53 and convert exactly. *)
Definition float_of_int (n : Z) : float :=
  SF2Prim (binary_normalize prec emax n 0 false).

(** [a / b] of two [int]s: the quotient rounded once. Both convert exactly
    here, so this is the binary64 division. *)
Definition int_truediv (a b : Z) : float := float_of_int a / float_of_int b.

(** The number a float is, as a rational; [None] for nan and the
    infinities. *)
Definition exact (x : float) : option Q :=
  match Prim2SF x with
  | S754_zero _ => Some 0%Q
  | S754_finite s m e =>
      Some ((if s then -1 else 1) * inject_Z (Zpos m) * (2 # 1) ^ e)%Q
  | _ => None
  end.

(** [sum] of the exact values of floats. *)
Fixpoint exact_sum (l : list float) : option Q :=
  match l with
  | [] => Some 0%Q
  | x :: rest =>
      match exact x, exact_sum rest with
      | Some q, Some r => Some (q + r)%Q
      | _, _ => None
      end
  end.

(** ** The builtin [sum] *)

(** Up to CPython 3.11, [sum] of floats adds from left to right, starting
    from the [int] 0. *)
Definition sum_left_to_right (l : list float) : float := fold_left add l 0%float.

(** From CPython 3.12 on, once the running total is a float, [sum] adds
    with Neumaier's compensation: [c] collects the rounding errors and is
    added at the end. *)
Fixpoint neumaier (l : list float) (f_result c : float) : float :=
  match l with
  | [] =>
      if negb (c =? 0)%float && is_finite c then (f_result + c)%float else f_result
  | x :: rest =>
      let t := (f_result + x)%float in
      let c := if (abs x <=? abs f_result)%float
               then (c + ((f_result - t) + x))%float
               else (c + ((x - t) + f_result))%float in
      neumaier rest t c
  end.

Definition sum_compensated (l : list float) : float :=
  match l with
  | [] => 0%float
  | x :: rest => neumaier rest (0 + x)%float 0%float
  end.

(** The two interpreters. *)
Inductive Summation : Type := LeftToRight | Compensated.

Definition py_sum (how : Summation) : list float -> float :=
  match how with
  | LeftToRight => sum_left_to_right
  | Compensated => sum_compensated
  end.

(** ** [format(x, '>w.df')] *)

(** [n / d] rounded to the nearest integer, ties to even ([d] positive). *)
Definition round_half_even (n d : Z) : Z :=
  let q := (n / d)%Z in
  match (2 * (n mod d) ?= d)%Z with
  | Lt => q
  | Gt => (q + 1)%Z
  | Eq => if Z.even q then q else (q + 1)%Z
  end.

(** The digits the format prints: the sign, and the absolute value in units
    of [10^-decimals], correctly rounded from the exact binary value. *)
Definition fixed_units (decimals : nat) (x : float) : option (bool * Z) :=
  match Prim2SF x with
  | S754_zero s => Some (s, 0%Z)
  | S754_finite s m e =>
      let n := (Zpos m * 10 ^ Z.of_nat decimals)%Z in
      Some (s, if (0 <=? e)%Z then (n * 2 ^ e)%Z else round_half_even n (2 ^ (- e))%Z)
  | _ => None
  end.

Definition str_of_Z (n : Z) : string := NilZero.string_of_uint (N.to_uint (Z.to_N n)).

Definition fixed_text (decimals : nat) (sign : bool) (units : Z) : string :=
  let scale := (10 ^ Z.of_nat decimals)%Z in
  let fraction := str_of_Z (units mod scale) in
  (if sign then "-" else "")
  ++ str_of_Z (units / scale)
  ++ match decimals with
     | O => ""
     | _ => "." ++ str_mul "0" (decimals - String.length fraction) ++ fraction
     end.

(** [f"{x:>width.decimalsf}"] *)
Definition format_f (width decimals : nat) (x : float) : string :=
  rjust width
    match Prim2SF x with
    | S754_nan => "nan"
    | S754_infinity s => if s then "-inf" else "inf"
    | _ =>
        match fixed_units decimals x with
        | Some (sign, units) => fixed_text decimals sign units
        | None => ""
        end
    end.

(** ** Reading a printed figure *)

Definition digit_of (c : ascii) : option Z :=
  let n := Z.of_nat (nat_of_ascii c) in
  if ((48 <=? n) && (n <=? 57))%Z then Some (n - 48)%Z else None.

(** The number a run of digits denotes, after [acc]; [None] when a character
    is not a digit. *)
Fixpoint read_digits (l : list ascii) (acc : Z) : option Z :=
  match l with
  | [] => Some acc
  | c :: rest =>
      match digit_of c with
      | Some d => read_digits rest (10 * acc + d)%Z
      | None => None
      end
  end.

Fixpoint split_at_point (l : list ascii) : list ascii * option (list ascii) :=
  match l with
  | [] => ([], None)
  | c :: rest =>
      if Ascii.eqb c "." then ([], Some rest)
      else let (a, b) := split_at_point rest in (c :: a, b)
  end.

Fixpoint drop_spaces (l : list ascii) : list ascii :=
  match l with
  | c :: rest => if Ascii.eqb c " " then drop_spaces rest else l
  | [] => []
  end.

(** [text.strip()] *)
Definition strip (l : list ascii) : list ascii :=
  rev (drop_spaces (rev (drop_spaces l))).

(** The number a printed decimal figure denotes: an optional minus sign,
    digits, and optionally a point and digits, within padding. The figure
    with [k] decimals is read as an integer over [10^k]. *)
Definition read_fixed (text : string) : option Q :=
  let l := strip (list_ascii_of_string text) in
  let (negative, l) :=
    match l with
    | c :: rest => if Ascii.eqb c "-" then (true, rest) else (false, l)
    | [] => (false, l)
    end in
  match split_at_point l with
  | ([], _) => None
  | (whole, fraction) =>
      let fraction := match fraction with Some f => f | None => [] end in
      match read_digits whole 0, read_digits fraction 0 with
      | Some w, Some f =>
          let scale := (10 ^ Z.of_nat (List.length fraction))%Z in
          let n := (w * scale + f)%Z in
          Some (Qmake (if negative then - n else n) (Z.to_pos scale))
      | _, _ => None
      end
  end.

End Binary64.

(** The script once more, its floats now binary64 and its report the text
    Python produces. The tiers and their integers are those of
    [CostEstimator]. *)
Module CostEstimator64.
Import Py Binary64 CostEstimator.
Import Floats.

(** A number of an f-string that the report never renders. *)
Inductive npart : Type :=
| NLit (s : string)
| NInt (z : Z)                      (* {n} *)
| NIntSep (z : Z)                   (* {n:,} *)
| NFloat (x : float).               (* {x} of a float *)

Record ServiceCost : Type := mkServiceCost {
  service_name : string;
  description : string;
  hourly_cost : float;
  daily_cost : float;
  monthly_cost : float;
  cost_components : dict float;
  notes : list npart
}.

Record t : Type := mkCostEstimator {
  environment : string;
  data_volume : DataVolume;
  env_multipliers : dict float;
  volume_config : DataVolume -> VolumeConfig
}.

(** [CostEstimator.__init__] *)
Definition init (environment : string) (data_volume : DataVolume) : t :=
  {| environment := environment;
     data_volume := data_volume;
     env_multipliers := [("dev", 1.0%float); ("staging", 1.5%float); ("prod", 3.0%float)];
     volume_config := fun v =>
       match v with
       | LOW => {| records_per_month := 100000;
                   glue_dpu_hours := 10;
                   embedding_requests := 100000;
                   rag_queries_per_day := 100;
                   storage_gb := 10 |}
       | MEDIUM => {| records_per_month := 1000000;
                      glue_dpu_hours := 50;
                      embedding_requests := 1000000;
                      rag_queries_per_day := 1000;
                      storage_gb := 100 |}
       | HIGH => {| records_per_month := 10000000;
                    glue_dpu_hours := 200;
                    embedding_requests := 10000000;
                    rag_queries_per_day := 10000;
                    storage_gb := 1000 |}
       end |}%Z.

Section Formulas.
Open Scope float_scope.

(** The [sum] of the interpreter that runs the script. *)
Variable how : Summation.

Variable self : t.

Let config : VolumeConfig := volume_config self (data_volume self).

Definition _calculate_vpc_costs : ServiceCost :=
  {| service_name := "Amazon VPC";
     description := "Virtual Private Cloud networking";
     hourly_cost := 0.0;
     daily_cost := 0.0;
     monthly_cost := 0.0;
     cost_components :=
       [("vpc", 0.0); ("subnets", 0.0); ("route_tables", 0.0); ("security_groups", 0.0)];
     notes := [NLit "VPC, subnets, route tables, and security groups are free"] |}.

Definition _calculate_nat_gateway_costs : result ServiceCost :=
  let hourly_rate := 0.045 in
  let data_processed_per_hour_gb := 0.5 in
  let data_rate := 0.045 in
  let hourly := hourly_rate + (data_processed_per_hour_gb * data_rate) in
  let daily := hourly * float_of_int 24 in
  let monthly := daily * float_of_int 30 in
  rbind (dict_get (env_multipliers self) (environment self)) (fun multiplier =>
  let multiplier :=
    if String.eqb (environment self) "prod" then 2.0 else multiplier in
  Ok {| service_name := "NAT Gateway";
        description := "Network Address Translation for private subnets";
        hourly_cost := hourly * multiplier;
        daily_cost := daily * multiplier;
        monthly_cost := monthly * multiplier;
        cost_components :=
          [("hourly_charge", 0.045 * multiplier);
           ("data_processing", data_processed_per_hour_gb * data_rate * multiplier)];
        notes := [NLit "NAT Gateway is a significant cost; consider NAT instances for dev"] |}).

Definition _calculate_s3_costs : ServiceCost :=
  let storage_gb := storage_gb config in
  let storage_cost_per_gb := 0.023 in
  let put_requests := (records_per_month config * 2)%Z in
  let get_requests := (records_per_month config * 5)%Z in
  let put_cost := int_truediv put_requests 1000 * 0.005 in
  let get_cost := int_truediv get_requests 1000 * 0.0004 in
  let monthly := (float_of_int storage_gb * storage_cost_per_gb) + put_cost + get_cost in
  {| service_name := "Amazon S3";
     description := "Object storage for raw and processed data";
     hourly_cost := monthly / float_of_int 720;
     daily_cost := monthly / float_of_int 30;
     monthly_cost := monthly;
     cost_components :=
       [("storage", float_of_int storage_gb * storage_cost_per_gb);
        ("put_requests", put_cost);
        ("get_requests", get_cost)];
     notes := [NLit "Based on "; NInt storage_gb; NLit "GB storage, ";
               NIntSep put_requests; NLit " PUT, ";
               NIntSep get_requests; NLit " GET requests"] |}.

Definition _calculate_kms_costs : ServiceCost :=
  let key_cost := 1.0 in
  let num_keys := 1%Z in
  let requests := (records_per_month config * 3)%Z in
  let request_cost := int_truediv requests 10000 * 0.03 in
  let monthly := (key_cost * float_of_int num_keys) + request_cost in
  {| service_name := "AWS KMS";
     description := "Key Management Service for encryption";
     hourly_cost := monthly / float_of_int 720;
     daily_cost := monthly / float_of_int 30;
     monthly_cost := monthly;
     cost_components :=
       [("key_storage", key_cost * float_of_int num_keys); ("requests", request_cost)];
     notes := [NLit "Based on "; NIntSep requests; NLit " cryptographic requests/month"] |}.

Definition _calculate_glue_costs : ServiceCost :=
  let dpu_hour_cost := 0.44 in
  let dpu_hours := glue_dpu_hours config in
  let crawler_dpu_hour_cost := 0.44 in
  let crawler_hours := 2%Z in
  let catalog_storage := 0.0 in
  let monthly_etl := float_of_int dpu_hours * dpu_hour_cost in
  let monthly_crawler := float_of_int (crawler_hours * 30)%Z * crawler_dpu_hour_cost in
  let monthly := monthly_etl + monthly_crawler in
  {| service_name := "AWS Glue";
     description := "ETL jobs and data catalog";
     hourly_cost := monthly / float_of_int 720;
     daily_cost := monthly / float_of_int 30;
     monthly_cost := monthly;
     cost_components :=
       [("etl_jobs", monthly_etl); ("crawlers", monthly_crawler);
        ("data_catalog", catalog_storage)];
     notes := [NLit "Based on "; NInt dpu_hours; NLit " DPU-hours/month for ETL"] |}.

Definition _calculate_appflow_costs : ServiceCost :=
  let flow_run_cost := 0.001 in
  let runs_per_month := (30 * 24)%Z in
  let gb_processed := int_truediv (storage_gb config) 10 in
  let processing_cost := gb_processed * 0.02 in
  let monthly := (flow_run_cost * float_of_int runs_per_month) + processing_cost in
  {| service_name := "Amazon AppFlow";
     description := "SaaS data integration";
     hourly_cost := monthly / float_of_int 720;
     daily_cost := monthly / float_of_int 30;
     monthly_cost := monthly;
     cost_components :=
       [("flow_runs", flow_run_cost * float_of_int runs_per_month);
        ("data_processing", processing_cost)];
     notes := [NLit "Based on "; NInt runs_per_month; NLit " flow runs and ";
               NFloat gb_processed; NLit "GB processed"] |}.

(** One entry of the local table [instance_configs]. *)
Record InstanceConfig : Type := mkInstanceConfig {
  instance_type : string;
  instance_hourly : float;
  instance_count : Z
}.

Definition _calculate_opensearch_costs : result ServiceCost :=
  let instance_configs : dict InstanceConfig :=
    [("dev", mkInstanceConfig "t3.small.search" 0.036 1);
     ("staging", mkInstanceConfig "t3.medium.search" 0.073 2);
     ("prod", mkInstanceConfig "r6g.large.search" 0.167 3)] in
  rbind (dict_get instance_configs (environment self)) (fun config' =>
  let instance_monthly :=
    instance_hourly config' * float_of_int 720 * float_of_int (instance_count config') in
  let storage_gb := storage_gb (volume_config self (data_volume self)) in
  let ebs_cost := float_of_int storage_gb * 0.135 in
  let monthly := instance_monthly + ebs_cost in
  Ok {| service_name := "Amazon OpenSearch";
        description := "Vector database for semantic search";
        hourly_cost := monthly / float_of_int 720;
        daily_cost := monthly / float_of_int 30;
        monthly_cost := monthly;
        cost_components := [("instances", instance_monthly); ("ebs_storage", ebs_cost)];
        notes := [NLit "Using "; NInt (instance_count config'); NLit "x ";
                  NLit (instance_type config'); NLit " instances"] |}).

Definition _calculate_lambda_costs : ServiceCost :=
  let requests_per_month := (rag_queries_per_day config * 30)%Z in
  let avg_duration_ms := 2000%Z in
  let memory_mb := 1024%Z in
  let gb_seconds :=
    int_truediv (requests_per_month * avg_duration_ms)%Z 1000
    * int_truediv memory_mb 1024 in
  let compute_cost := gb_seconds * 0.0000166667 in
  let request_cost := int_truediv requests_per_month 1000000 * 0.20 in
  let monthly := compute_cost + request_cost in
  {| service_name := "AWS Lambda";
     description := "Serverless compute for RAG queries";
     hourly_cost := monthly / float_of_int 720;
     daily_cost := monthly / float_of_int 30;
     monthly_cost := monthly;
     cost_components := [("compute", compute_cost); ("requests", request_cost)];
     notes := [NLit "Based on "; NIntSep requests_per_month; NLit " requests at ";
               NInt avg_duration_ms; NLit "ms average"] |}.

Definition _calculate_api_gateway_costs : ServiceCost :=
  let requests_per_month := (rag_queries_per_day config * 30)%Z in
  let api_cost := int_truediv requests_per_month 1000000 * 3.50 in
  {| service_name := "Amazon API Gateway";
     description := "REST API endpoint";
     hourly_cost := api_cost / float_of_int 720;
     daily_cost := api_cost / float_of_int 30;
     monthly_cost := api_cost;
     cost_components := [("api_calls", api_cost)];
     notes := [NLit "Based on "; NIntSep requests_per_month; NLit " API calls"] |}.

Definition _calculate_bedrock_costs : ServiceCost :=
  let embedding_requests := embedding_requests config in
  let embedding_tokens := (embedding_requests * 500)%Z in
  let embedding_cost := int_truediv embedding_tokens 1000 * 0.0001 in
  let queries_per_month := (rag_queries_per_day config * 30)%Z in
  let input_tokens := (queries_per_month * 3000)%Z in
  let output_tokens := (queries_per_month * 500)%Z in
  let input_cost := int_truediv input_tokens 1000 * 0.003 in
  let output_cost := int_truediv output_tokens 1000 * 0.015 in
  let monthly := embedding_cost + input_cost + output_cost in
  {| service_name := "Amazon Bedrock";
     description := "GenAI embeddings and text generation";
     hourly_cost := monthly / float_of_int 720;
     daily_cost := monthly / float_of_int 30;
     monthly_cost := monthly;
     cost_components :=
       [("embeddings", embedding_cost); ("claude_input", input_cost);
        ("claude_output", output_cost)];
     notes := [NLit "Bedrock is typically the largest cost component for RAG systems"] |}.

Definition _calculate_cloudwatch_costs : ServiceCost :=
  let log_ingestion_gb := 5%Z in
  let log_storage_gb := 20%Z in
  let ingestion_cost := float_of_int log_ingestion_gb * 0.50 in
  let storage_cost := float_of_int log_storage_gb * 0.03 in
  let custom_metrics := 20%Z in
  let metrics_cost := float_of_int custom_metrics * 0.30 in
  let alarms := 5%Z in
  let alarm_cost := float_of_int alarms * 0.10 in
  let monthly := ingestion_cost + storage_cost + metrics_cost + alarm_cost in
  {| service_name := "Amazon CloudWatch";
     description := "Monitoring and logging";
     hourly_cost := monthly / float_of_int 720;
     daily_cost := monthly / float_of_int 30;
     monthly_cost := monthly;
     cost_components :=
       [("log_ingestion", ingestion_cost); ("log_storage", storage_cost);
        ("metrics", metrics_cost); ("alarms", alarm_cost)];
     notes := [NLit "Costs scale with log volume and retention"] |}.

Definition _calculate_secrets_manager_costs : ServiceCost :=
  let num_secrets := 5%Z in
  let api_calls := 10000%Z in
  let secret_cost := float_of_int num_secrets * 0.40 in
  let api_cost := int_truediv api_calls 10000 * 0.05 in
  let monthly := secret_cost + api_cost in
  {| service_name := "AWS Secrets Manager";
     description := "Secure credential storage";
     hourly_cost := monthly / float_of_int 720;
     daily_cost := monthly / float_of_int 30;
     monthly_cost := monthly;
     cost_components := [("secrets", secret_cost); ("api_calls", api_cost)];
     notes := [NLit "Based on "; NInt num_secrets; NLit " secrets"] |}.

(** The dict literal is evaluated entry by entry, in this order. *)
Definition calculate_all_costs : result (dict ServiceCost) :=
  let vpc := _calculate_vpc_costs in
  rbind _calculate_nat_gateway_costs (fun nat_gateway =>
  let s3 := _calculate_s3_costs in
  let kms := _calculate_kms_costs in
  let glue := _calculate_glue_costs in
  let appflow := _calculate_appflow_costs in
  rbind _calculate_opensearch_costs (fun opensearch =>
  Ok [("vpc", vpc);
      ("nat_gateway", nat_gateway);
      ("s3", s3);
      ("kms", kms);
      ("glue", glue);
      ("appflow", appflow);
      ("opensearch", opensearch);
      ("lambda", _calculate_lambda_costs);
      ("api_gateway", _calculate_api_gateway_costs);
      ("bedrock", _calculate_bedrock_costs);
      ("cloudwatch", _calculate_cloudwatch_costs);
      ("secrets_manager", _calculate_secrets_manager_costs)])).

(** [sum(costs[s].monthly_cost for s in services if s in costs)] *)
Definition category_cost (costs : dict ServiceCost) (services : list string) : float :=
  py_sum how (flat_map (fun s =>
                          match dict_find costs s with
                          | Some c => [monthly_cost c]
                          | None => []
                          end) services).

(** [(category_cost / total_monthly * 100) if total_monthly > 0 else 0]; the
    [int] 0 of the other branch prints as the float does. *)
Definition percentage (category_cost total_monthly : float) : float :=
  if 0 <? total_monthly then category_cost / total_monthly * float_of_int 100 else 0.

(** The line of a category. *)
Definition category_line (category : string) (category_cost percentage : float) : string :=
  ljust 20 category ++ " $" ++ format_f 10 2 category_cost
  ++ " (" ++ format_f 5 1 percentage ++ "%)".

(** The line of a service, and the TOTAL line. *)
Definition cost_line (name : string) (hourly daily monthly : float) : string :=
  ljust 25 name ++ " " ++ "$" ++ format_f 10 4 hourly ++ " "
  ++ "$" ++ format_f 10 2 daily ++ " " ++ "$" ++ format_f 10 2 monthly.

(** The report is the list [report] before ["\n".join]: one string per
    element. *)
Definition generate_report : result (list string) :=
  rbind calculate_all_costs (fun costs =>
  let total_hourly := py_sum how (map hourly_cost (dict_values costs)) in
  let total_daily := py_sum how (map daily_cost (dict_values costs)) in
  let total_monthly := py_sum how (map monthly_cost (dict_values costs)) in
  let report := (
    [ str_mul "=" 80;
      "HOUSING MARKET INTELLIGENCE PLATFORM - AWS COST ESTIMATE";
      str_mul "=" 80;
      (nl ++ "Environment: " ++ upper (environment self))%string;
      ("Data Volume: " ++ upper (DataVolume_value (data_volume self)))%string;
      "Region: us-east-1";
      "";
      str_mul "-" 80;
      (ljust 25 "Service" ++ " " ++ rjust 12 "Hourly" ++ " "
         ++ rjust 12 "Daily" ++ " " ++ rjust 12 "Monthly")%string;
      str_mul "-" 80 ]
    ++ map (fun service_cost =>
              cost_line (service_name service_cost) (hourly_cost service_cost)
                        (daily_cost service_cost) (monthly_cost service_cost))
           (dict_values costs)
    ++ [ str_mul "-" 80;
         cost_line "TOTAL" total_hourly total_daily total_monthly;
         str_mul "=" 80;
         (nl ++ nl ++ "COST BREAKDOWN BY CATEGORY")%string;
         str_mul "-" 40 ]
    ++ map (fun '(category, services) =>
              let category_cost := category_cost costs services in
              let percentage := percentage category_cost total_monthly in
              category_line category category_cost percentage)
           categories
    ++ [ (nl ++ nl ++ "COST OPTIMIZATION RECOMMENDATIONS")%string;
         str_mul "-" 40 ]
    ++ (if String.eqb (environment self) "dev"
        then [ "• Consider using NAT instances instead of NAT Gateway ($0.04/hr vs $0.045/hr)";
               "• Use t3.small OpenSearch for development";
               "• Reduce Glue DPU hours by optimizing job efficiency" ]
        else []))%list in
  rbind (dict_get costs "bedrock") (fun bedrock =>
  let report := (report ++
    if total_monthly * 0.3 <? monthly_cost bedrock
     then [ "• Bedrock costs are high - consider caching frequent queries";
            "• Evaluate batch processing for embeddings vs real-time" ]
     else [])%list in
  rbind (dict_get costs "opensearch") (fun opensearch =>
  let report := (report ++
    if total_monthly * 0.2 <? monthly_cost opensearch
     then [ "• Consider OpenSearch Serverless for variable workloads";
            "• Optimize index mapping to reduce storage" ]
     else [])%list in
  Ok (report ++
      [ (nl ++ nl ++ "NOTES")%string;
        str_mul "-" 40;
        "• Costs are estimates based on January 2025 pricing";
        "• Actual costs may vary based on usage patterns";
        "• Free tier benefits not included in calculations";
        "• Data transfer costs not included (typically < 5% of total)" ])%list))).

End Formulas.

(** ** What a reader of the report sees *)

(** The text between the last opening parenthesis of a line and the ["%)"]
    that ends it; [None] on a line that does not end so. *)
Fixpoint up_to_paren (reversed : list ascii) (acc : list ascii) : option (list ascii) :=
  match reversed with
  | [] => None
  | c :: rest => if Ascii.eqb c "(" then Some acc else up_to_paren rest (c :: acc)
  end.

Definition share_text (line : string) : option string :=
  match rev (list_ascii_of_string line) with
  | c1 :: c2 :: rest =>
      if Ascii.eqb c1 ")" && Ascii.eqb c2 "%"
      then option_map string_of_list_ascii (up_to_paren rest [])
      else None
  | _ => None
  end.

(** The share a line of the report shows, as the number its digits
    denote. *)
Definition printed_share (line : string) : option Q :=
  match share_text line with
  | Some text => read_fixed text
  | None => None
  end.

Fixpoint printed_shares (report : list string) : list Q :=
  match report with
  | [] => []
  | line :: rest =>
      match printed_share line with
      | Some p => p :: printed_shares rest
      | None => printed_shares rest
      end
  end.

(** The fields of a line that follow a dollar sign. *)
Fixpoint split_on (c : ascii) (l : list ascii) : list (list ascii) :=
  match l with
  | [] => [[]]
  | x :: rest =>
      match split_on c rest with
      | field :: fields => if Ascii.eqb x c then [] :: field :: fields
                           else (x :: field) :: fields
      | [] => [[]]
      end
  end.

Definition amounts (line : string) : list (option Q) :=
  map (fun field => read_fixed (string_of_list_ascii field))
      (tl (split_on "$" (list_ascii_of_string line))).

(** The three amounts the TOTAL line of the report shows. *)
Fixpoint printed_totals (report : list string) : option (Q * Q * Q) :=
  match report with
  | [] => None
  | line :: rest =>
      if String.prefix "TOTAL" line then
        match amounts line with
        | [Some h; Some d; Some m] => Some (h, d, m)
        | _ => None
        end
      else printed_totals rest
  end.

(** The shares [generate_report] computes and hands to the format. *)
Definition computed_shares (how : Summation) (costs : dict ServiceCost) : list float :=
  let total_monthly := py_sum how (map monthly_cost (dict_values costs)) in
  map (fun '(_, services) => percentage (category_cost how costs services) total_monthly)
      categories.

(** The grand total the report divides by. *)
Definition total_monthly_cost (how : Summation) (costs : dict ServiceCost) : float :=
  py_sum how (map monthly_cost (dict_values costs)).

End CostEstimator64.

(* ================================================================== *)
(** * The outside world of cleanup.py and deploy.py *)
(* ================================================================== *)

Module Sys.
Import Py.

(** One element of [response['Stacks']]. *)
Record StackDesc : Type := mkStackDesc {
  StackStatus : string;
  Outputs : list (string * string)     (* OutputKey, OutputValue *)
}.

(** Every operation the two scripts ask of the cloud provider (through
    boto3) or of the local machine (file system, pip, zip archives). *)
Inductive Call : Type :=
(* sts *)
| GetCallerIdentity
(* cloudformation *)
| DescribeStacks (StackName : string)
| CreateStack (StackName TemplateBody : string) (Parameters : list (string * string))
              (Capabilities : list string) (OnFailure : string)
| UpdateStack (StackName TemplateBody : string) (Parameters : list (string * string))
              (Capabilities : list string)
| DeleteStack (StackName : string)
| WaiterWait (waiter StackName : string) (Delay MaxAttempts : nat)
(* s3 *)
| ListBuckets
| CreateBucket (Bucket : string) (LocationConstraint : option string)
| UploadFile (Filename Bucket Key : string)
| DeleteBucket (Bucket : string)
| DeleteObjectVersions (Bucket : string)
(* glue *)
| GetJobs
| DeleteJob (JobName : string)
| GetCrawlers
| StopCrawler (Name : string)
| DeleteCrawler (Name : string)
| GetTables (DatabaseName : string)
| DeleteTable (DatabaseName Name : string)
| DeleteDatabase (Name : string)
(* logs *)
| DescribeLogGroups (logGroupNamePrefix : string)
| DeleteLogGroup (logGroupName : string)
(* local machine *)
| PathExists (path : string)
| IsFile (path : string)
| Rmtree (path : string)
| Mkdir (path : string)
| PipInstall (target : string) (requirements : list string)
| CopyFile (src dst : string)
| Rglob (dir : string)
| Glob (dir pattern : string)
| ReadFile (path : string)
| ZipOpen (path : string)
| ZipWrite (zip file arcname : string)
| ZipClose (path : string).

(** What an operation hands back, as far as the scripts look at it. *)
Inductive Response : Type :=
| RNone
| RBool (b : bool)
| RStr (s : string)
| RNames (l : list string)
| RPages (l : list (list string))
| RStacks (l : list StackDesc).

(** The provider and the machine behind the calls: any state, any answers.
    The two functions render a clock reading as [isoformat()] and
    [strftime(fmt)] do. *)
Class Platform : Type := {
  pstate : Type;
  respond : Call -> pstate -> result Response * pstate;
  isoformat : nat -> string;
  strftime : string -> nat -> string
}.

(** What the scripts write to the terminal: a line per [print], and the
    prompt of [input]. *)
Inductive Out : Type :=
| Line (s : string)
| Prompt (s : string).

(** [class Colors] *)
Module Colors.
Definition esc : string := String (ascii_of_nat 27) EmptyString.
Definition HEADER : string := esc ++ "[95m".
Definition BLUE : string := esc ++ "[94m".
Definition CYAN : string := esc ++ "[96m".
Definition GREEN : string := esc ++ "[92m".
Definition WARNING : string := esc ++ "[93m".
Definition FAIL : string := esc ++ "[91m".
Definition ENDC : string := esc ++ "[0m".
Definition BOLD : string := esc ++ "[1m".
End Colors.

(** The text each coloured helper prints. *)
Definition success_text (message : string) : string :=
  Colors.GREEN ++ "✓ " ++ message ++ Colors.ENDC.
Definition warning_text (message : string) : string :=
  Colors.WARNING ++ "⚠ " ++ message ++ Colors.ENDC.
Definition error_text (message : string) : string :=
  Colors.FAIL ++ "✗ " ++ message ++ Colors.ENDC.
Definition info_text (message : string) : string :=
  Colors.CYAN ++ "ℹ " ++ message ++ Colors.ENDC.
Definition header_rule : string :=
  Colors.HEADER ++ Colors.BOLD ++ str_mul "=" 60 ++ Colors.ENDC.
Definition header_text (message : string) : string :=
  Colors.HEADER ++ Colors.BOLD ++ message ++ Colors.ENDC.

Section World.
Context {P : Platform}.

Record World : Type := mkWorld {
  cloud : pstate;
  trace : list (Call * result Response);   (* calls made so far, oldest first *)
  stdout : list Out;                       (* oldest first *)
  stdin : list string;                     (* lines the operator will type *)
  now : nat                                (* the clock *)
}.

(** A method of an object with mutable attributes [S]: it runs in a state,
    returns or raises, and leaves a state; effects before a raise stay. *)
Definition M (S A : Type) : Type := S * World -> result A * (S * World).

Definition ret {S A : Type} (a : A) : M S A := fun s => (Ok a, s).

Definition raise {S A : Type} (e : exn) : M S A := fun s => (Raise e, s).

Definition bind {S A B : Type} (m : M S A) (k : A -> M S B) : M S B :=
  fun s =>
    match m s with
    | (Ok a, s') => k a s'
    | (Raise e, s') => (Raise e, s')
    end.

(** [try: m / except ...]: [handler e] is the body of the first clause that
    matches [e], [None] when none does. *)
Definition try_except {S A : Type} (m : M S A) (handler : exn -> option (M S A)) : M S A :=
  fun s =>
    match m s with
    | (Ok a, s') => (Ok a, s')
    | (Raise e, s') =>
        match handler e with
        | Some k => k s'
        | None => (Raise e, s')
        end
    end.

(** One [except] clause, and clauses in order. *)
Definition except {S A : Type} (matches : exn -> bool) (body : exn -> M S A)
  : exn -> option (M S A) :=
  fun e => if matches e then Some (body e) else None.

Definition orelse {S A : Type} (h1 h2 : exn -> option (M S A)) : exn -> option (M S A) :=
  fun e => match h1 e with
           | Some k => Some k
           | None => h2 e
           end.

(** [try: m / finally: cleanup] *)
Definition try_finally {S A : Type} (m : M S A) (cleanup : M S unit) : M S A :=
  fun s =>
    match m s with
    | (r, s') =>
        match cleanup s' with
        | (Ok _, s'') => (r, s'')
        | (Raise e, s'') => (Raise e, s'')
        end
    end.

(** [for x in l: body] *)
Fixpoint for_each {S A : Type} (l : list A) (body : A -> M S unit) : M S unit :=
  match l with
  | [] => ret tt
  | x :: rest => bind (body x) (fun _ => for_each rest body)
  end.

(** Attributes of [self]. *)
Definition get_attr {S A : Type} (f : S -> A) : M S A := fun s => (Ok (f (fst s)), s).

Definition set_attr {S : Type} (f : S -> S) : M S unit :=
  fun s => (Ok tt, (f (fst s), snd s)).

Definition on_world {S : Type} (f : World -> World) : M S unit :=
  fun s => (Ok tt, (fst s, f (snd s))).

Definition emit {S : Type} (o : Out) : M S unit :=
  on_world (fun w => mkWorld (cloud w) (trace w) (stdout w ++ [o]) (stdin w) (now w)).

Definition print {S : Type} (s : string) : M S unit := emit (Line s).

Definition print_header {S : Type} (message : string) : M S unit :=
  bind (print (nl ++ header_rule)) (fun _ =>
  bind (print (header_text message)) (fun _ =>
  print (header_rule ++ nl))).

Definition print_success {S : Type} (message : string) : M S unit :=
  print (success_text message).

Definition print_warning {S : Type} (message : string) : M S unit :=
  print (warning_text message).

Definition print_error {S : Type} (message : string) : M S unit :=
  print (error_text message).

Definition print_info {S : Type} (message : string) : M S unit :=
  print (info_text message).

Definition EOFError : exn :=
  mkExn (OtherException "EOFError") "EOF when reading a line".

(** [input(prompt)] *)
Definition input {S : Type} (prompt : string) : M S string :=
  bind (emit (Prompt prompt)) (fun _ s =>
    let w := snd s in
    match stdin w with
    | [] => (Raise EOFError, s)
    | line :: rest =>
        (Ok line, (fst s, mkWorld (cloud w) (trace w) (stdout w) rest (now w)))
    end).

(** [datetime.utcnow()] *)
Definition utcnow {S : Type} : M S nat := fun s => (Ok (now (snd s)), s).

(** [time.sleep(seconds)] *)
Definition sleep {S : Type} (seconds : nat) : M S unit :=
  on_world (fun w => mkWorld (cloud w) (trace w) (stdout w) (stdin w) (now w + seconds)).

(** One operation: the platform answers, the call and its outcome are
    recorded. *)
Definition call {S : Type} (c : Call) : M S Response :=
  fun s =>
    let w := snd s in
    let (r, p') := respond c (cloud w) in
    (r, (fst s, mkWorld p' (trace w ++ [(c, r)]) (stdout w) (stdin w) (now w))).

Definition TypeError (what : string) : exn :=
  mkExn (OtherException "TypeError") what.

(** Reading a field of a response: [r[key]] raises when the response has no
    such field, [r.get(key, [])] falls back to the empty list. *)
Definition field_names {S : Type} (key : string) (r : Response) : M S (list string) :=
  match r with
  | RNames l => ret l
  | _ => raise (KeyError key)
  end.

Definition field_names_or_empty (r : Response) : list string :=
  match r with
  | RNames l => l
  | _ => []
  end.

Definition field_pages {S : Type} (r : Response) : M S (list (list string)) :=
  match r with
  | RPages l => ret l
  | _ => raise (TypeError "page iterator")
  end.

Definition field_stacks {S : Type} (r : Response) : M S (list StackDesc) :=
  match r with
  | RStacks l => ret l
  | _ => raise (KeyError "Stacks")
  end.

Definition field_str {S : Type} (key : string) (r : Response) : M S string :=
  match r with
  | RStr v => ret v
  | _ => raise (KeyError key)
  end.

Definition field_bool {S : Type} (r : Response) : M S bool :=
  match r with
  | RBool b => ret b
  | _ => raise (TypeError "bool")
  end.

Definition IndexError : exn :=
  mkExn (OtherException "IndexError") "list index out of range".

(** [l[0]] *)
Definition first {S A : Type} (l : list A) : M S A :=
  match l with
  | [] => raise IndexError
  | x :: _ => ret x
  end.

End World.

Declare Scope py_scope.
Delimit Scope py_scope with py.
Notation "x <- m ;; k" := (bind m (fun x => k))
  (at level 61, m at next level, right associativity) : py_scope.
Notation "m ;; k" := (bind m (fun _ => k))
  (at level 61, right associativity) : py_scope.

(** [str(n)] of a length. *)
Definition str_of_nat (n : nat) : string :=
  NilEmpty.string_of_uint (Nat.to_uint n).

(** ** Observing a run *)

Section Observations.
Context {P : Platform} {S : Type}.

(** Every run of [m] relates the state it starts in to the state it leaves,
    whether it returns or raises. *)
Definition respects (R : S * World -> S * World -> Prop) {A : Type} (m : M S A) : Prop :=
  forall s, R s (snd (m s)).

Definition handler_respects (R : S * World -> S * World -> Prop) {A : Type}
           (h : exn -> option (M S A)) : Prop :=
  forall e k, h e = Some k -> respects R k.

(** The calls made from [s] to [s'] all satisfy [ok]. *)
Definition calls_within (ok : Call -> bool) (s s' : S * World) : Prop :=
  exists l, trace (snd s') = (trace (snd s) ++ l)%list /\
            forallb (fun x => ok (fst x)) l = true.

(** The attributes of [self] are what they were. *)
Definition attrs_kept (s s' : S * World) : Prop := fst s' = fst s.

(** What was printed stays printed. *)
Definition stdout_grows (s s' : S * World) : Prop :=
  exists l, stdout (snd s') = (stdout (snd s) ++ l)%list.

(** The world after further calls and further output, the provider being
    left in state [p]. *)
Definition advance (w : World) (p : pstate) (calls : list (Call * result Response))
           (out : list Out) : World :=
  mkWorld p (trace w ++ calls) (stdout w ++ out) (stdin w) (now w).

End Observations.

Definition is_failure (x : Call * result Response) : bool :=
  match snd x with
  | Raise _ => true
  | Ok _ => false
  end.

(** A failed call selected by [sel] is the last call of the list. *)
Definition stops_at_failure (sel : Call -> bool) (l : list (Call * result Response)) : Prop :=
  forall pre c e post,
    l = (pre ++ (c, Raise e) :: post)%list -> sel c = true -> post = [].

(** No call selected by [sel] failed. *)
Definition no_failed (sel : Call -> bool) (l : list (Call * result Response)) : Prop :=
  forallb (fun x => negb (sel (fst x) && is_failure x)) l = true.

(** Either no selected call failed, or exactly the last call did, it is a
    selected one, and its exception is the one propagating. *)
Definition failed_last (sel : Call -> bool) (propagating : option exn)
           (l : list (Call * result Response)) : Prop :=
  no_failed sel l \/
  exists l0 c e,
    propagating = Some e /\ sel c = true /\
    l = (l0 ++ [(c, Raise e)])%list /\ no_failed sel l0.

Definition raised {A : Type} (r : result A) : option exn :=
  match r with
  | Ok _ => None
  | Raise e => Some e
  end.

(** A run of [m] makes no call after a selected call fails: the failure
    propagates out of [m]. *)
Definition aborts_at_failure {P : Platform} {S A : Type} (sel : Call -> bool)
           (m : M S A) : Prop :=
  forall s, exists l,
    trace (snd (snd (m s))) = (trace (snd s) ++ l)%list /\
    failed_last sel (raised (fst (m s))) l.

(** Whether the operator was prompted. *)
Definition prompted (out : list Out) : bool :=
  existsb (fun o => match o with Prompt _ => true | Line _ => false end) out.

(** Whether a line was printed. *)
Definition printed (text : string) (out : list Out) : bool :=
  existsb (fun o => match o with Line s => String.eqb s text | Prompt _ => false end) out.

(** ** Invariants of a run *)

Section Invariants.
Context {P : Platform} {S : Type}.

(** A property of the attributes that, once it holds, still holds after the
    run. *)
Definition preserves (Q : S -> Prop) (s s' : S * World) : Prop :=
  Q (fst s) -> Q (fst s').

(** Whenever [m] returns, the attributes it leaves satisfy [Q]. *)
Definition establishes (Q : S -> Prop) {A : Type} (m : M S A) : Prop :=
  forall s x, fst (m s) = Ok x -> Q (fst (snd (m s))).

(** From attributes that satisfy [I], a run of [m] leaves attributes that
    satisfy [I], and an exception it raises satisfies [X]. *)
Definition keeps (I : S -> Prop) (X : exn -> Prop) {A : Type} (m : M S A) : Prop :=
  forall s, I (fst s) ->
            I (fst (snd (m s))) /\ forall e, fst (m s) = Raise e -> X e.

(** What a handler does with the exceptions that satisfy [X1]: a clause
    catches them and its body keeps [I] and raises within [X], or none does
    and they are within [X] themselves. *)
Definition handles (I : S -> Prop) (X1 X : exn -> Prop) {A : Type}
           (h : exn -> option (M S A)) : Prop :=
  forall e, X1 e ->
            match h e with
            | Some k => keeps I X k
            | None => X e
            end.

End Invariants.

(** Classes of exceptions: what [except Exception] catches, and nothing. *)
Definition an_Exception (e : exn) : Prop := is_Exception e = true.
Definition no_exception (e : exn) : Prop := False.

(** The call [c] is in the list and was answered. *)
Definition succeeded (c : Call) (l : list (Call * result Response)) : Prop :=
  exists r, In (c, Ok r) l.

(** A provider that raises nothing but [Exception]s (no [KeyboardInterrupt]
    on the way), and one whose describe_stacks fails with a [ClientError]
    only and answers with at least one stack. *)
Definition raises_exceptions_only (P : Platform) : Prop :=
  forall c p e p', respond c p = (Raise e, p') -> is_Exception e = true.

Definition describes_stacks (P : Platform) : Prop :=
  forall n p,
    match fst (respond (DescribeStacks n) p) with
    | Ok r => exists d l, r = RStacks (d :: l)
    | Raise e => is_ClientError e = true
    end.

End Sys.

(* ================================================================== *)
(** * cleanup.py *)
(* ================================================================== *)

Module Cleanup.
Import Py Sys.
Open Scope py_scope.

(** [self.cleanup_summary] *)
Record Summary : Type := mkSummary {
  stacks_deleted : list string;
  buckets_emptied : list string;
  log_groups_deleted : list string;
  errors : list string
}.

(** The attributes [__init__] sets once and for all. *)
Record Config : Type := mkConfig {
  environment : string;
  region : string;
  dry_run : bool;
  project_name : string;
  account_id : string;
  stack_names : list string
}.

(** The attributes assigned or mutated while cleaning; the two lists do not
    exist before discovery assigns them. *)
Record Attrs : Type := mkAttrs {
  buckets_to_delete : option (list string);
  log_groups_to_delete : option (list string);
  cleanup_summary : Summary
}.

Definition set_buckets_to_delete (v : list string) (a : Attrs) : Attrs :=
  mkAttrs (Some v) (log_groups_to_delete a) (cleanup_summary a).

Definition set_log_groups_to_delete (v : list string) (a : Attrs) : Attrs :=
  mkAttrs (buckets_to_delete a) (Some v) (cleanup_summary a).

Definition set_cleanup_summary (f : Summary -> Summary) (a : Attrs) : Attrs :=
  mkAttrs (buckets_to_delete a) (log_groups_to_delete a) (f (cleanup_summary a)).

(** [self.cleanup_summary[key].append(x)] for each of the four keys *)
Definition append_stacks_deleted (x : string) (m : Summary) : Summary :=
  mkSummary (stacks_deleted m ++ [x]) (buckets_emptied m) (log_groups_deleted m) (errors m).
Definition append_buckets_emptied (x : string) (m : Summary) : Summary :=
  mkSummary (stacks_deleted m) (buckets_emptied m ++ [x]) (log_groups_deleted m) (errors m).
Definition append_log_groups_deleted (x : string) (m : Summary) : Summary :=
  mkSummary (stacks_deleted m) (buckets_emptied m) (log_groups_deleted m ++ [x]) (errors m).
Definition append_errors (x : string) (m : Summary) : Summary :=
  mkSummary (stacks_deleted m) (buckets_emptied m) (log_groups_deleted m) (errors m ++ [x]).

Definition AttributeError (name : string) : exn :=
  mkExn (OtherException "AttributeError")
        ("'ResourceCleaner' object has no attribute '" ++ name ++ "'").

Section Methods.
Context {P : Platform}.

(** Reading an attribute that discovery assigns. *)
Definition attr {A : Type} (name : string) (f : Attrs -> option A) : M Attrs A :=
  fun s =>
    match f (fst s) with
    | Some v => (Ok v, s)
    | None => (Raise (AttributeError name), s)
    end.

(** [ResourceCleaner.__init__] *)
Definition init (environment region : string) (dry_run : bool)
  : M unit (Config * Attrs) :=
  let project_name := "housing-market-intel" in
  response <- call GetCallerIdentity ;;
  account_id <- field_str "Account" response ;;
  ret ({| environment := environment;
          region := region;
          dry_run := dry_run;
          project_name := project_name;
          account_id := account_id;
          stack_names := [project_name ++ "-" ++ environment ++ "-appflow";
                          project_name ++ "-" ++ environment ++ "-main"] |},
       {| buckets_to_delete := None;
          log_groups_to_delete := None;
          cleanup_summary := mkSummary [] [] [] [] |}).

Variable self : Config.

Definition _discover_resources : M Attrs unit :=
  (* Find S3 buckets *)
  print_info "Discovering S3 buckets..." ;;
  try_except
    (response <- call ListBuckets ;;
     buckets <- field_names "Buckets" response ;;
     let prefix := project_name self ++ "-" ++ environment self in
     set_attr (set_buckets_to_delete
                 (filter (fun name => startswith name prefix) buckets)) ;;
     found <- attr "buckets_to_delete" buckets_to_delete ;;
     print ("  Found " ++ str_of_nat (length found) ++ " buckets to delete") ;;
     for_each found (fun bucket => print ("    - " ++ bucket)))
    (except is_Exception (fun e =>
       print_warning ("Could not list buckets: " ++ exn_str e) ;;
       set_attr (set_buckets_to_delete []))) ;;
  (* Find CloudWatch log groups *)
  print_info "Discovering CloudWatch log groups..." ;;
  try_except
    (set_attr (set_log_groups_to_delete []) ;;
     let prefixes := ["/aws/glue/" ++ project_name self;
                      "/aws/lambda/" ++ project_name self;
                      "/aws/opensearch/" ++ project_name self] in
     for_each prefixes (fun prefix =>
       response <- call (DescribeLogGroups prefix) ;;
       pages <- field_pages response ;;
       for_each pages (fun page =>
         for_each page (fun lg =>
           if contains (environment self) lg
           then found <- attr "log_groups_to_delete" log_groups_to_delete ;;
                set_attr (set_log_groups_to_delete (found ++ [lg]))
           else ret tt))) ;;
     found <- attr "log_groups_to_delete" log_groups_to_delete ;;
     print ("  Found " ++ str_of_nat (length found) ++ " log groups to delete"))
    (except is_Exception (fun e =>
       print_warning ("Could not list log groups: " ++ exn_str e) ;;
       set_attr (set_log_groups_to_delete []))) ;;
  (* Check stack status *)
  print_info "Checking CloudFormation stacks..." ;;
  for_each (stack_names self) (fun stack_name =>
    try_except
      (response <- call (DescribeStacks stack_name) ;;
       stacks <- field_stacks response ;;
       stack <- first stacks ;;
       print ("  " ++ stack_name ++ ": " ++ StackStatus stack))
      (except is_ClientError (fun _ =>
         print ("  " ++ stack_name ++ ": NOT FOUND")))).

(** The body of the loop of [_empty_s3_buckets]. *)
Definition empty_s3_bucket (bucket_name : string) : M Attrs unit :=
  print_info ("Emptying bucket: " ++ bucket_name) ;;
  if dry_run self then
    print ("  [DRY RUN] Would empty bucket: " ++ bucket_name)
  else
    try_except
      (call (DeleteObjectVersions bucket_name) ;;
       print_success ("  Emptied bucket: " ++ bucket_name) ;;
       set_attr (set_cleanup_summary (append_buckets_emptied bucket_name)))
      (except is_Exception (fun e =>
         let error_msg :=
           "Could not empty bucket " ++ bucket_name ++ ": " ++ exn_str e in
         print_error ("  " ++ error_msg) ;;
         set_attr (set_cleanup_summary (append_errors error_msg)))).

Definition _empty_s3_buckets : M Attrs unit :=
  buckets <- attr "buckets_to_delete" buckets_to_delete ;;
  for_each buckets empty_s3_bucket.

(** The bodies of the job loop and of the crawler loop. *)
Definition delete_glue_job (job_prefix job : string) : M Attrs unit :=
  if startswith job job_prefix then
    if dry_run self then
      print ("  [DRY RUN] Would delete job: " ++ job)
    else
      call (DeleteJob job) ;;
      print_success ("  Deleted job: " ++ job)
  else ret tt.

Definition delete_glue_crawler (job_prefix crawler : string) : M Attrs unit :=
  if startswith crawler job_prefix then
    if dry_run self then
      print ("  [DRY RUN] Would delete crawler: " ++ crawler)
    else
      (* Stop crawler if running *)
      try_except
        (call (StopCrawler crawler) ;;
         sleep 5)
        (except (fun _ => true) (fun _ => ret tt)) ;;
      call (DeleteCrawler crawler) ;;
      print_success ("  Deleted crawler: " ++ crawler)
  else ret tt.

(** The three [try] blocks of [_cleanup_glue_resources], in order. *)
Definition _cleanup_glue_jobs (job_prefix : string) : M Attrs unit :=
  print_info "Deleting Glue jobs..." ;;
  try_except
    (response <- call GetJobs ;;
     for_each (field_names_or_empty response) (delete_glue_job job_prefix))
    (except is_Exception (fun e =>
       print_warning ("Could not clean Glue jobs: " ++ exn_str e))).

Definition _cleanup_glue_crawlers (job_prefix : string) : M Attrs unit :=
  print_info "Deleting Glue crawlers..." ;;
  try_except
    (response <- call GetCrawlers ;;
     for_each (field_names_or_empty response) (delete_glue_crawler job_prefix))
    (except is_Exception (fun e =>
       print_warning ("Could not clean Glue crawlers: " ++ exn_str e))).

Definition _cleanup_glue_database (db_name : string) : M Attrs unit :=
  print_info ("Deleting Glue database: " ++ db_name) ;;
  try_except
    (if dry_run self then
       print ("  [DRY RUN] Would delete database: " ++ db_name)
     else
       (* First delete all tables *)
       try_except
         (tables <- call (GetTables db_name) ;;
          for_each (field_names_or_empty tables) (fun table =>
            call (DeleteTable db_name table) ;;
            ret tt))
         (except (fun _ => true) (fun _ => ret tt)) ;;
       call (DeleteDatabase db_name) ;;
       print_success ("  Deleted database: " ++ db_name))
    (orelse
       (except (is_code "EntityNotFoundException") (fun _ =>
          print_info ("  Database not found: " ++ db_name)))
       (except is_Exception (fun e =>
          print_warning ("Could not delete database: " ++ exn_str e)))).

(** The two names [_cleanup_glue_resources] derives. *)
Definition db_name : string := project_name self ++ "_" ++ environment self ++ "_db".
Definition job_prefix : string := project_name self ++ "-" ++ environment self.

Definition _cleanup_glue_resources : M Attrs unit :=
  _cleanup_glue_jobs job_prefix ;;
  _cleanup_glue_crawlers job_prefix ;;
  _cleanup_glue_database db_name.

(** The body of the loop of [_delete_stacks]; [continue] after "Stack not
    found" skips the rest of the body. *)
Definition delete_stack (stack_name : string) : M Attrs unit :=
  print_info ("Deleting stack: " ++ stack_name) ;;
  if dry_run self then
    print ("  [DRY RUN] Would delete stack: " ++ stack_name)
  else
    try_except
      ((* Check if stack exists *)
       found <- try_except
                  (call (DescribeStacks stack_name) ;;
                   ret true)
                  (except is_ClientError (fun _ =>
                     print_info ("  Stack not found: " ++ stack_name) ;;
                     ret false)) ;;
       if found : bool then
         (* Delete stack *)
         call (DeleteStack stack_name) ;;
         (* Wait for deletion *)
         print_info ("  Waiting for stack deletion: " ++ stack_name) ;;
         call (WaiterWait "stack_delete_complete" stack_name 30 60) ;;
         print_success ("  Deleted stack: " ++ stack_name) ;;
         set_attr (set_cleanup_summary (append_stacks_deleted stack_name))
       else ret tt)
      (except is_Exception (fun e =>
         let error_msg :=
           "Could not delete stack " ++ stack_name ++ ": " ++ exn_str e in
         print_error ("  " ++ error_msg) ;;
         set_attr (set_cleanup_summary (append_errors error_msg)))).

Definition _delete_stacks : M Attrs unit :=
  for_each (stack_names self) delete_stack.

(** The bodies of the two loops of [_cleanup_orphaned_resources]. *)
Definition delete_log_group (log_group : string) : M Attrs unit :=
  if dry_run self then
    print ("  [DRY RUN] Would delete log group: " ++ log_group)
  else
    try_except
      (call (DeleteLogGroup log_group) ;;
       print_success ("  Deleted log group: " ++ log_group) ;;
       set_attr (set_cleanup_summary (append_log_groups_deleted log_group)))
      (except is_Exception (fun e =>
         print_warning ("  Could not delete log group " ++ log_group ++ ": "
                        ++ exn_str e))).

Definition delete_orphaned_bucket (bucket_name : string) : M Attrs unit :=
  if dry_run self then
    print ("  [DRY RUN] Would delete bucket: " ++ bucket_name)
  else
    try_except
      (call (DeleteBucket bucket_name) ;;
       print_success ("  Deleted bucket: " ++ bucket_name))
      (orelse
         (except (is_code "NoSuchBucket") (fun _ =>
            print_info ("  Bucket already deleted: " ++ bucket_name)))
         (except is_Exception (fun e =>
            print_warning ("  Could not delete bucket " ++ bucket_name ++ ": "
                           ++ exn_str e)))).

(** The two loops of [_cleanup_orphaned_resources]. *)
Definition _cleanup_orphaned_log_groups : M Attrs unit :=
  print_info "Deleting CloudWatch log groups..." ;;
  log_groups <- attr "log_groups_to_delete" log_groups_to_delete ;;
  for_each log_groups delete_log_group.

Definition _cleanup_orphaned_buckets : M Attrs unit :=
  print_info "Cleaning orphaned S3 buckets..." ;;
  buckets <- attr "buckets_to_delete" buckets_to_delete ;;
  for_each buckets delete_orphaned_bucket.

Definition _cleanup_orphaned_resources : M Attrs unit :=
  _cleanup_orphaned_log_groups ;;
  _cleanup_orphaned_buckets.

Definition _print_summary : M Attrs unit :=
  summary <- get_attr cleanup_summary ;;
  print (nl ++ Colors.BOLD ++ "Cleanup Results:" ++ Colors.ENDC) ;;
  print (str_mul "-" 40) ;;
  print (nl ++ "Stacks Deleted (" ++ str_of_nat (length (stacks_deleted summary)) ++ "):") ;;
  for_each (stacks_deleted summary) (fun stack => print ("  ✓ " ++ stack)) ;;
  print (nl ++ "Buckets Emptied (" ++ str_of_nat (length (buckets_emptied summary)) ++ "):") ;;
  for_each (buckets_emptied summary) (fun bucket => print ("  ✓ " ++ bucket)) ;;
  print (nl ++ "Log Groups Deleted ("
         ++ str_of_nat (length (log_groups_deleted summary)) ++ "):") ;;
  for_each (log_groups_deleted summary) (fun lg => print ("  ✓ " ++ lg)) ;;
  match errors summary with
  | [] => ret tt
  | _ :: _ =>
      print (nl ++ Colors.FAIL ++ "Errors (" ++ str_of_nat (length (errors summary))
             ++ "):" ++ Colors.ENDC) ;;
      for_each (errors summary) (fun error => print ("  ✗ " ++ error))
  end ;;
  if dry_run self then
    print (nl ++ Colors.WARNING
           ++ "This was a DRY RUN - no resources were actually deleted" ++ Colors.ENDC)
  else
    print (nl ++ Colors.GREEN ++ "Cleanup complete!" ++ Colors.ENDC).

(** The [try] block of [cleanup]: the five phases and the summary. *)
Definition cleanup_phases : M Attrs unit :=
  try_except
    ((* Phase 1: List resources to be deleted *)
     print_header "PHASE 1: Resource Discovery" ;;
     _discover_resources ;;
     (* Phase 2: Empty S3 buckets (required before stack deletion) *)
     print_header "PHASE 2: Empty S3 Buckets" ;;
     _empty_s3_buckets ;;
     (* Phase 3: Delete Glue resources (may need manual cleanup) *)
     print_header "PHASE 3: Clean Glue Resources" ;;
     _cleanup_glue_resources ;;
     (* Phase 4: Delete CloudFormation stacks *)
     print_header "PHASE 4: Delete CloudFormation Stacks" ;;
     _delete_stacks ;;
     (* Phase 5: Cleanup orphaned resources *)
     print_header "PHASE 5: Cleanup Orphaned Resources" ;;
     _cleanup_orphaned_resources ;;
     (* Print summary *)
     print_header "CLEANUP SUMMARY" ;;
     _print_summary)
    (except is_Exception (fun e =>
       print_error ("Cleanup failed: " ++ exn_str e) ;;
       raise e)).

(** The prompt of the confirmation. *)
Definition confirmation_prompt : string :=
  nl ++ "Type '" ++ environment self ++ "' to confirm deletion: ".

(** [cleanup]; [return] after "Cleanup cancelled" skips the phases. *)
Definition cleanup (force : bool) : M Attrs unit :=
  print_header "HOUSING MARKET INTELLIGENCE PLATFORM CLEANUP" ;;
  print ("Environment: " ++ environment self) ;;
  print ("Region: " ++ region self) ;;
  print ("Account: " ++ account_id self) ;;
  print ("Mode: " ++ (if dry_run self then "DRY RUN" else "LIVE")) ;;
  timestamp <- utcnow ;;
  print ("Timestamp: " ++ isoformat timestamp) ;;
  if negb force && negb (dry_run self) then
    print (nl ++ Colors.WARNING ++ "WARNING: This will DELETE all resources in "
           ++ environment self ++ "!" ++ Colors.ENDC) ;;
    print "This includes:" ;;
    print "  - CloudFormation stacks and all resources" ;;
    print "  - S3 buckets and all data" ;;
    print "  - OpenSearch domain and indexes" ;;
    print "  - Glue jobs, databases, and crawlers" ;;
    print "  - CloudWatch log groups" ;;
    confirm <- input confirmation_prompt ;;
    if negb (String.eqb confirm (environment self)) then
      print_warning "Cleanup cancelled"
    else
      cleanup_phases
  else
    cleanup_phases.

End Methods.

(** The parsed command line of cleanup.py. *)
Record Args : Type := mkArgs {
  arg_environment : string;
  arg_region : string;
  arg_force : bool;
  arg_dry_run : bool
}.

(** [main], after [parser.parse_args()]. *)
Definition main {P : Platform} (args : Args) : M unit unit :=
  fun s =>
    match init (arg_environment args) (arg_region args) (arg_dry_run args) s with
    | (Raise e, s') => (Raise e, s')
    | (Ok (cleaner, attrs), (_, w)) =>
        match cleanup cleaner (arg_force args) (attrs, w) with
        | (r, (_, w')) => (r, (tt, w'))
        end
    end.

(** The same cleaner with another [dry_run]. *)
Definition with_dry_run (b : bool) (c : Config) : Config :=
  mkConfig (environment c) (region c) b (project_name c) (account_id c)
           (stack_names c).

(** What [cleanup] prints first, and the warning before the prompt. *)
Definition banner_lines {P : Platform} (self : Config) (timestamp : nat) : list Out :=
  [Line (nl ++ header_rule);
   Line (header_text "HOUSING MARKET INTELLIGENCE PLATFORM CLEANUP");
   Line (header_rule ++ nl);
   Line ("Environment: " ++ environment self);
   Line ("Region: " ++ region self);
   Line ("Account: " ++ account_id self);
   Line ("Mode: " ++ (if dry_run self then "DRY RUN" else "LIVE"));
   Line ("Timestamp: " ++ isoformat timestamp)].

Definition warning_lines (self : Config) : list Out :=
  [Line (nl ++ Colors.WARNING ++ "WARNING: This will DELETE all resources in "
         ++ environment self ++ "!" ++ Colors.ENDC);
   Line "This includes:";
   Line "  - CloudFormation stacks and all resources";
   Line "  - S3 buckets and all data";
   Line "  - OpenSearch domain and indexes";
   Line "  - Glue jobs, databases, and crawlers";
   Line "  - CloudWatch log groups"].

Definition is_delete_job (c : Call) : bool :=
  match c with
  | DeleteJob _ => true
  | _ => false
  end.

Definition is_delete_crawler (c : Call) : bool :=
  match c with
  | DeleteCrawler _ => true
  | _ => false
  end.

(** The operations that change what the provider holds. *)
Definition mutating (c : Call) : bool :=
  match c with
  | DeleteObjectVersions _
  | DeleteJob _
  | StopCrawler _
  | DeleteCrawler _
  | DeleteTable _ _
  | DeleteDatabase _
  | DeleteStack _
  | DeleteLogGroup _
  | DeleteBucket _
  | CreateStack _ _ _ _ _
  | UpdateStack _ _ _ _
  | CreateBucket _ _
  | UploadFile _ _ _ => true
  | _ => false
  end.

(** The listing and describing operations of teardown. *)
Definition listing (c : Call) : bool :=
  match c with
  | ListBuckets
  | DescribeLogGroups _
  | DescribeStacks _
  | GetJobs
  | GetCrawlers => true
  | _ => false
  end.

(** ** What a teardown may touch, and what its summary says *)

(** The operations a teardown of [self] may ask for: listing and describing,
    and deleting what carries the names of the project and the environment. *)
Definition in_scope (self : Config) (c : Call) : bool :=
  match c with
  | ListBuckets | GetJobs | GetCrawlers | DescribeLogGroups _ | DescribeStacks _ => true
  | DeleteObjectVersions b | DeleteBucket b => startswith b (job_prefix self)
  | DeleteJob n | StopCrawler n | DeleteCrawler n => startswith n (job_prefix self)
  | GetTables d | DeleteTable d _ | DeleteDatabase d => String.eqb d (db_name self)
  | DeleteStack n => existsb (String.eqb n) (stack_names self)
  | WaiterWait w n _ _ =>
      String.eqb w "stack_delete_complete" && existsb (String.eqb n) (stack_names self)
  | DeleteLogGroup g => contains (environment self) g
  | _ => false
  end.

(** The discovered lists are assigned, and name buckets of the project and
    environment and log groups of the environment. *)
Definition buckets_in_scope (self : Config) (a : Attrs) : Prop :=
  exists l, buckets_to_delete a = Some l /\
            forallb (fun b => startswith b (job_prefix self)) l = true.

Definition log_groups_in_scope (self : Config) (a : Attrs) : Prop :=
  exists l, log_groups_to_delete a = Some l /\
            forallb (contains (environment self)) l = true.

Definition discovered_in_scope (self : Config) (a : Attrs) : Prop :=
  buckets_in_scope self a /\ log_groups_in_scope self a.

(** From discovered lists in scope, a run keeps them so and makes calls in
    scope only. *)
Definition scoped {P : Platform} (self : Config) (s s' : Attrs * World) : Prop :=
  discovered_in_scope self (fst s) ->
  discovered_in_scope self (fst s') /\ calls_within (in_scope self) s s'.

(** Both discovered lists are assigned. *)
Definition discovered (a : Attrs) : Prop :=
  (exists l, buckets_to_delete a = Some l) /\
  (exists l, log_groups_to_delete a = Some l).

(** What the summary lists beyond what it listed before was deleted by calls
    that succeeded between the two states. *)
Definition truthful {P : Platform} (s s' : Attrs * World) : Prop :=
  exists l,
    trace (snd s') = (trace (snd s) ++ l)%list /\
    (forall n, In n (stacks_deleted (cleanup_summary (fst s'))) ->
               In n (stacks_deleted (cleanup_summary (fst s))) \/
               (succeeded (DeleteStack n) l /\
                succeeded (WaiterWait "stack_delete_complete" n 30 60) l)) /\
    (forall b, In b (buckets_emptied (cleanup_summary (fst s'))) ->
               In b (buckets_emptied (cleanup_summary (fst s))) \/
               succeeded (DeleteObjectVersions b) l) /\
    (forall g, In g (log_groups_deleted (cleanup_summary (fst s'))) ->
               In g (log_groups_deleted (cleanup_summary (fst s))) \/
               succeeded (DeleteLogGroup g) l).

(** The two lines a dry run prints for a bucket in phase 2. *)
Definition dry_run_emptying_lines (bucket_name : string) : list Out :=
  [Line (info_text ("Emptying bucket: " ++ bucket_name));
   Line ("  [DRY RUN] Would empty bucket: " ++ bucket_name)].

(** The buckets a list of calls emptied, and the error messages phase 2
    records for the ones it could not empty. *)
Definition emptied_by (calls : list (Call * result Response)) : list string :=
  flat_map (fun x => match x with
                     | (DeleteObjectVersions b, Ok _) => [b]
                     | _ => []
                     end) calls.

Definition emptying_errors (calls : list (Call * result Response)) : list string :=
  flat_map (fun x => match x with
                     | (DeleteObjectVersions b, Raise e) =>
                         ["Could not empty bucket " ++ b ++ ": " ++ exn_str e]
                     | _ => []
                     end) calls.

End Cleanup.

(* ================================================================== *)
(** * deploy.py *)
(* ================================================================== *)

Module Deploy.
Import Py Sys.
Open Scope py_scope.

(** ** Paths, as [pathlib] renders them *)

(** [a / b] *)
Definition path_join (a b : string) : string := a ++ "/" ++ b.

(** [p.name] *)
Definition path_name (p : string) : string := after_last_slash p.

Definition ValueError (what : string) : exn :=
  mkExn (OtherException "ValueError") what.

(** [p.relative_to(base)] *)
Definition relative_to {P : Platform} {S : Type} (p base : string) : M S string :=
  if String.prefix (base ++ "/") p
  then ret (String.substring (String.length base + 1)
                             (String.length p - (String.length base + 1)) p)
  else raise (ValueError ("'" ++ p ++ "' is not in the subpath of '" ++ base ++ "'")).

(** [class DeploymentConfig] *)
Record Config : Type := mkConfig {
  environment : string;
  region : string;
  project_name : string;
  account_id : string;
  main_stack_name : string;
  appflow_stack_name : string;
  artifact_bucket : string;
  project_root : string;
  cloudformation_dir : string;
  src_dir : string
}.

Section Methods.
Context {P : Platform}.

(** [DeploymentConfig.__init__]; [project_root] is
    [Path(__file__).parent.parent]. *)
Definition DeploymentConfig_init (project_root environment region : string)
  : M unit Config :=
  let project_name := "housing-market-intel" in
  response <- call GetCallerIdentity ;;
  account_id <- field_str "Account" response ;;
  ret {| environment := environment;
         region := region;
         project_name := project_name;
         account_id := account_id;
         main_stack_name := project_name ++ "-" ++ environment ++ "-main";
         appflow_stack_name := project_name ++ "-" ++ environment ++ "-appflow";
         artifact_bucket :=
           project_name ++ "-" ++ environment ++ "-artifacts-" ++ account_id;
         project_root := project_root;
         cloudformation_dir := path_join project_root "cloudformation";
         src_dir := path_join project_root "src" |}.

Variable config : Config.

(** ** [class ArtifactBuilder] *)

Definition build_dir : string := path_join (project_root config) "build".

Definition build_lambda_package (function_name source_file : string) : M unit string :=
  print_info ("Building Lambda package: " ++ function_name) ;;
  (* Create build directory *)
  let lambda_build_dir := path_join (path_join build_dir "lambda") function_name in
  call (Mkdir lambda_build_dir) ;;
  (* Install dependencies *)
  let requirements := ["opensearch-py>=2.4.0";
                       "requests-aws4auth>=1.2.0";
                       "boto3>=1.34.0"] in
  call (PipInstall lambda_build_dir requirements) ;;
  (* Copy source file *)
  call (CopyFile source_file (path_join lambda_build_dir (path_name source_file))) ;;
  (* Create ZIP *)
  let zip_path := path_join build_dir (function_name ++ ".zip") in
  call (ZipOpen zip_path) ;;
  try_finally
    (response <- call (Rglob lambda_build_dir) ;;
     files <- field_names "rglob" response ;;
     for_each files (fun file =>
       is_file <- (r <- call (IsFile file) ;; field_bool r) ;;
       if is_file : bool then
         arcname <- relative_to file lambda_build_dir ;;
         call (ZipWrite zip_path file arcname) ;;
         ret tt
       else ret tt))
    (call (ZipClose zip_path) ;; ret tt) ;;
  print_success ("Lambda package created: " ++ zip_path) ;;
  ret zip_path.

Definition build_glue_scripts : M unit string :=
  print_info "Building Glue scripts package" ;;
  let glue_build_dir := path_join build_dir "glue" in
  call (Mkdir glue_build_dir) ;;
  (* Copy Glue scripts *)
  let glue_src := path_join (src_dir config) "glue" in
  exists_ <- (r <- call (PathExists glue_src) ;; field_bool r) ;;
  (if exists_ : bool then
     response <- call (Glob glue_src "*.py") ;;
     scripts <- field_names "glob" response ;;
     for_each scripts (fun script =>
       call (CopyFile script (path_join glue_build_dir (path_name script))) ;;
       ret tt)
   else ret tt) ;;
  print_success ("Glue scripts prepared: " ++ glue_build_dir) ;;
  ret glue_build_dir.

Definition clean_build : M unit unit :=
  exists_ <- (r <- call (PathExists build_dir) ;; field_bool r) ;;
  (if exists_ : bool then call (Rmtree build_dir) ;; ret tt else ret tt) ;;
  print_success "Build directory cleaned".

(** ** [class S3Manager] *)

Definition create_artifact_bucket : M unit unit :=
  let bucket_name := artifact_bucket config in
  try_except
    ((if String.eqb (region config) "us-east-1"
      then call (CreateBucket bucket_name None)
      else call (CreateBucket bucket_name (Some (region config)))) ;;
     print_success ("Created artifact bucket: " ++ bucket_name))
    (orelse
       (except (is_code "BucketAlreadyOwnedByYou") (fun _ =>
          print_info ("Artifact bucket already exists: " ++ bucket_name)))
       (except is_Exception (fun e =>
          print_warning ("Could not create bucket: " ++ exn_str e)))).

Definition upload_artifact (local_path s3_key : string) : M unit string :=
  let bucket := artifact_bucket config in
  call (UploadFile local_path bucket s3_key) ;;
  let s3_uri := "s3://" ++ bucket ++ "/" ++ s3_key in
  print_success ("Uploaded: " ++ s3_uri) ;;
  ret s3_uri.

Definition upload_directory (local_dir s3_prefix : string) : M unit unit :=
  response <- call (Rglob local_dir) ;;
  files <- field_names "rglob" response ;;
  for_each files (fun file_path =>
    is_file <- (r <- call (IsFile file_path) ;; field_bool r) ;;
    if is_file : bool then
      rel <- relative_to file_path local_dir ;;
      let s3_key := s3_prefix ++ "/" ++ rel in
      upload_artifact file_path s3_key ;;
      ret tt
    else ret tt).

(** ** [class CloudFormationDeployer] *)

(** The text [deploy_stack] looks for in a failed update. *)
Definition no_updates_text : string := "No updates are to be performed".

(** The [except ClientError] clause of [deploy_stack]. *)
Definition deploy_stack_failed (stack_name : string) : exn -> option (M unit bool) :=
  except is_ClientError (fun e =>
    let error_message := exn_str e in
    if contains no_updates_text error_message then
      print_info ("No updates needed for stack: " ++ stack_name) ;;
      ret true
    else
      print_error ("Stack deployment failed: " ++ error_message) ;;
      ret false).

(** [[{'ParameterKey': k, 'ParameterValue': v} for k, v in parameters.items()]] *)
Definition cfn_parameters_of (parameters : dict string) : list (string * string) :=
  map (fun '(k, v) => (k, v)) parameters.

(** [capabilities or ['CAPABILITY_NAMED_IAM', 'CAPABILITY_AUTO_EXPAND']] *)
Definition capabilities_or_default (capabilities : option (list string)) : list string :=
  match capabilities with
  | Some (c :: rest) => c :: rest
  | _ => ["CAPABILITY_NAMED_IAM"; "CAPABILITY_AUTO_EXPAND"]
  end.

Definition deploy_stack (stack_name template_path : string)
           (parameters : dict string) (capabilities : option (list string))
  : M unit bool :=
  print_info ("Deploying stack: " ++ stack_name) ;;
  (* Read template *)
  template_body <- (r <- call (ReadFile template_path) ;; field_str "read" r) ;;
  (* Format parameters *)
  let cfn_parameters := cfn_parameters_of parameters in
  let capabilities := capabilities_or_default capabilities in
  try_except
    ((* Check if stack exists *)
     stack_exists <- try_except
                       (call (DescribeStacks stack_name) ;;
                        ret true)
                       (except is_ClientError (fun _ => ret false)) ;;
     waiter <- (if stack_exists : bool then
                  (* Update existing stack *)
                  print_info ("Updating existing stack: " ++ stack_name) ;;
                  call (UpdateStack stack_name template_body cfn_parameters
                                    capabilities) ;;
                  ret "stack_update_complete"
                else
                  (* Create new stack *)
                  print_info ("Creating new stack: " ++ stack_name) ;;
                  call (CreateStack stack_name template_body cfn_parameters
                                    capabilities "ROLLBACK") ;;
                  ret "stack_create_complete") ;;
     (* Wait for completion *)
     print_info "Waiting for stack operation to complete..." ;;
     call (WaiterWait waiter stack_name 30 60) ;;
     print_success ("Stack " ++ stack_name ++ " deployed successfully") ;;
     ret true)
    (deploy_stack_failed stack_name).

Definition get_stack_outputs (stack_name : string) : M unit (dict string) :=
  try_except
    (response <- call (DescribeStacks stack_name) ;;
     stacks <- field_stacks response ;;
     stack <- first stacks ;;
     ret (fold_left (fun d '(k, v) => dict_set d k v) (Outputs stack) []))
    (except is_Exception (fun e =>
       print_warning ("Could not get stack outputs: " ++ exn_str e) ;;
       ret [])).

(** ** [class HousingMarketDeployer] *)

(** [outputs.get('ProcessedDataBucketName', '').replace('processed', 'glue-scripts')] *)
Definition scripts_bucket_of (outputs : dict string) : string :=
  replace "processed" "glue-scripts"
          (dict_get_default outputs "ProcessedDataBucketName" "").

(** [b.split('/')[-1] if '/' in b else b] *)
Definition bucket_name_of (scripts_bucket : string) : string :=
  if contains "/" scripts_bucket then after_last_slash scripts_bucket
  else scripts_bucket.

Definition _upload_glue_scripts_to_bucket (outputs : dict string) : M unit unit :=
  let scripts_bucket := scripts_bucket_of outputs in
  if negb (String.eqb scripts_bucket "") then
    let glue_dir := path_join build_dir "glue" in
    exists_ <- (r <- call (PathExists glue_dir) ;; field_bool r) ;;
    if exists_ : bool then
      response <- call (Glob glue_dir "*.py") ;;
      scripts <- field_names "glob" response ;;
      for_each scripts (fun script =>
        call (UploadFile script (bucket_name_of scripts_bucket)
                         ("scripts/" ++ path_name script)) ;;
        ret tt) ;;
      print_success "Glue scripts uploaded to scripts bucket"
    else ret tt
  else ret tt.

Definition _upload_lambda_code_to_bucket (outputs : dict string) (lambda_zip : string)
  : M unit unit :=
  let scripts_bucket := scripts_bucket_of outputs in
  if negb (String.eqb scripts_bucket "") then
    let bucket_name := bucket_name_of scripts_bucket in
    call (UploadFile lambda_zip bucket_name "lambda/rag_query_handler.zip") ;;
    print_success "Lambda code uploaded"
  else ret tt.

Definition _print_summary (outputs : dict string) : M unit unit :=
  print (nl ++ Colors.BOLD ++ "Deployment Outputs:" ++ Colors.ENDC) ;;
  print (str_mul "-" 40) ;;
  for_each outputs (fun '(key, value) => print ("  " ++ key ++ ": " ++ value)) ;;
  print (nl ++ Colors.BOLD ++ "Next Steps:" ++ Colors.ENDC) ;;
  print "  1. Configure MLS/Property Tax API credentials in Secrets Manager" ;;
  print "  2. Upload sample data to raw data bucket" ;;
  print "  3. Run initial Glue crawler" ;;
  print "  4. Execute Glue ETL job" ;;
  print "  5. Test API endpoint".

(** Phases 1 and 2 of [deploy]; the later phases use [lambda_zip]. *)
Definition deploy_build_and_upload : M unit string :=
  (* Phase 1: Build Artifacts *)
  print_header "PHASE 1: Building Artifacts" ;;
  clean_build ;;
  lambda_zip <- build_lambda_package
                  "rag-query-handler"
                  (path_join (path_join (src_dir config) "lambda")
                             "rag_query_handler.py") ;;
  glue_dir <- build_glue_scripts ;;
  (* Phase 2: Upload Artifacts *)
  print_header "PHASE 2: Uploading Artifacts to S3" ;;
  create_artifact_bucket ;;
  now_ <- utcnow ;;
  let timestamp := strftime "%Y%m%d-%H%M%S" now_ in
  upload_artifact lambda_zip ("lambda/rag_query_handler-" ++ timestamp ++ ".zip") ;;
  upload_directory glue_dir "glue/scripts" ;;
  (* Upload CloudFormation templates *)
  response <- call (Glob (cloudformation_dir config) "*.yaml") ;;
  templates <- field_names "glob" response ;;
  for_each templates (fun template =>
    upload_artifact template ("cloudformation/" ++ path_name template) ;;
    ret tt) ;;
  ret lambda_zip.

(** Phase 5 of [deploy] and the summary. *)
Definition deploy_post_deployment (main_outputs : dict string) (lambda_zip : string)
  : M unit unit :=
  (* Phase 5: Post-Deployment Configuration *)
  print_header "PHASE 5: Post-Deployment Configuration" ;;
  _upload_glue_scripts_to_bucket main_outputs ;;
  _upload_lambda_code_to_bucket main_outputs lambda_zip ;;
  (* Print summary *)
  print_header "DEPLOYMENT COMPLETE" ;;
  _print_summary main_outputs.

(** The parameters [deploy] passes for the two stacks. *)
Definition main_parameters : dict string :=
  [("Environment", environment config); ("ProjectName", project_name config)].

Definition appflow_parameters (main_outputs : dict string) : dict string :=
  [("Environment", environment config);
   ("ProjectName", project_name config);
   ("RawDataBucketName", dict_get_default main_outputs "RawDataBucketName" "");
   ("KMSKeyArn", dict_get_default main_outputs "KMSKeyArn" "")].

(** The [except Exception] clause of [deploy]. *)
Definition deploy_failed : exn -> option (M unit unit) :=
  except is_Exception (fun e =>
    print_error ("Deployment failed: " ++ exn_str e) ;;
    raise e).

(** The [try] block of [deploy]. *)
Definition deploy_phases : M unit unit :=
  try_except
    (lambda_zip <- deploy_build_and_upload ;;
     (* Phase 3: Deploy Main Infrastructure *)
     print_header "PHASE 3: Deploying Main Infrastructure" ;;
     main_success <- deploy_stack
                       (main_stack_name config)
                       (path_join (cloudformation_dir config)
                                  "main-infrastructure.yaml")
                       main_parameters None ;;
     if negb main_success then
       print_error "Main infrastructure deployment failed"
     else
       (* Get outputs for dependent stacks *)
       main_outputs <- get_stack_outputs (main_stack_name config) ;;
       (* Phase 4: Deploy AppFlow Configuration *)
       print_header "PHASE 4: Deploying AppFlow Data Ingestion" ;;
       appflow_success <- deploy_stack
                            (appflow_stack_name config)
                            (path_join (cloudformation_dir config)
                                       "appflow-data-ingestion.yaml")
                            (appflow_parameters main_outputs) None ;;
       deploy_post_deployment main_outputs lambda_zip)
    deploy_failed.

Definition deploy (skip_confirmation : bool) : M unit unit :=
  print_header "HOUSING MARKET INTELLIGENCE PLATFORM DEPLOYMENT" ;;
  print ("Environment: " ++ environment config) ;;
  print ("Region: " ++ region config) ;;
  print ("Account: " ++ account_id config) ;;
  timestamp <- utcnow ;;
  print ("Timestamp: " ++ isoformat timestamp) ;;
  if negb skip_confirmation then
    confirm <- input (nl ++ "Proceed with deployment to " ++ environment config
                      ++ "? (y/N): ") ;;
    if negb (String.eqb (lower confirm) "y") then
      print_warning "Deployment cancelled"
    else
      deploy_phases
  else
    deploy_phases.

End Methods.

(** ** The status action and [main] *)

Section Status.
Context {P : Platform}.

(** [CloudFormationDeployer.get_stack_status] *)
Definition get_stack_status (stack_name : string) : M unit (option string) :=
  try_except
    (response <- call (DescribeStacks stack_name) ;;
     stacks <- field_stacks response ;;
     stack <- first stacks ;;
     ret (Some (StackStatus stack)))
    (except is_ClientError (fun _ => ret None)).

(** The line [status] prints for a stack; in [if status:] an empty status is
    as false as [None]. *)
Definition status_line (stack_name : string) (status : option string) : string :=
  match status with
  | Some (String c rest) =>
      let status := String c rest in
      let color := if contains "COMPLETE" status then Colors.GREEN else Colors.WARNING in
      "  " ++ stack_name ++ ": " ++ color ++ status ++ Colors.ENDC
  | _ => "  " ++ stack_name ++ ": " ++ Colors.FAIL ++ "NOT DEPLOYED" ++ Colors.ENDC
  end.

(** [HousingMarketDeployer.status] *)
Definition status (config : Config) : M unit unit :=
  print_header "DEPLOYMENT STATUS" ;;
  let stacks := [main_stack_name config; appflow_stack_name config] in
  for_each stacks (fun stack_name =>
    status <- get_stack_status stack_name ;;
    print (status_line stack_name status)).

End Status.

(** The parsed command line of deploy.py. *)
Record Args : Type := mkArgs {
  arg_environment : string;
  arg_action : string;
  arg_region : string;
  arg_skip_confirmation : bool
}.

(** [main], after [parser.parse_args()]; [project_root] is where the script
    finds itself. *)
Definition main {P : Platform} (project_root : string) (args : Args) : M unit unit :=
  config <- DeploymentConfig_init project_root (arg_environment args) (arg_region args) ;;
  if String.eqb (arg_action args) "deploy" then
    deploy config (arg_skip_confirmation args)
  else if String.eqb (arg_action args) "status" then
    status config
  else ret tt.

(** ** Observing a deployment *)

(** The operation [deploy_stack] asks for once it knows whether the stack
    exists, and the waiter it then waits on. *)
Definition stack_operation (stack_exists : bool) (stack_name template_body : string)
           (parameters : dict string) (capabilities : option (list string)) : Call :=
  if stack_exists
  then UpdateStack stack_name template_body (cfn_parameters_of parameters)
                   (capabilities_or_default capabilities)
  else CreateStack stack_name template_body (cfn_parameters_of parameters)
                   (capabilities_or_default capabilities) "ROLLBACK".

Definition stack_waiter (stack_exists : bool) : string :=
  if stack_exists then "stack_update_complete" else "stack_create_complete".

(** The sequences of calls [deploy_stack] can make. *)
Definition deploy_stack_protocol (stack_name template_path : string)
           (parameters : dict string) (capabilities : option (list string))
           (calls : list (Call * result Response)) : Prop :=
  match calls with
  | [(ReadFile path, r)] =>
      (* the template could not be read *)
      path = template_path /\ forall body, r <> Ok (RStr body)
  | (ReadFile path, Ok (RStr template_body)) :: (DescribeStacks name, described) :: rest =>
      path = template_path /\ name = stack_name /\
      let stack_exists := match described with Ok _ => true | Raise _ => false end in
      let operation :=
        stack_operation stack_exists stack_name template_body parameters capabilities in
      match rest with
      | [] =>
          (* describe_stacks failed, and not with a ClientError *)
          exists e, described = Raise e /\ is_ClientError e = false
      | [(c, Raise _)] =>
          (* the create or the update failed *)
          c = operation /\
          (forall e, described = Raise e -> is_ClientError e = true)
      | [(c, Ok _); (w, _)] =>
          c = operation /\
          w = WaiterWait (stack_waiter stack_exists) stack_name 30 60 /\
          (forall e, described = Raise e -> is_ClientError e = true)
      | _ => False
      end
  | _ => False
  end.

(** What [get_stack_status] makes of the answer to its describe call:
    [None] when it raises. *)
Definition status_of (answer : result Response) : option (option string) :=
  match answer with
  | Ok (RStacks (stack :: _)) => Some (Some (StackStatus stack))
  | Ok _ => None
  | Raise e => if is_ClientError e then Some None else None
  end.

(** What [deploy] prints first, and its question. *)
Definition banner_lines {P : Platform} (config : Config) (timestamp : nat) : list Out :=
  [Line (nl ++ header_rule);
   Line (header_text "HOUSING MARKET INTELLIGENCE PLATFORM DEPLOYMENT");
   Line (header_rule ++ nl);
   Line ("Environment: " ++ environment config);
   Line ("Region: " ++ region config);
   Line ("Account: " ++ account_id config);
   Line ("Timestamp: " ++ isoformat timestamp)].

Definition confirmation_prompt (config : Config) : string :=
  nl ++ "Proceed with deployment to " ++ environment config ++ "? (y/N): ".

(** What a deployment of [config] may ask for: its two stacks, its artifact
    bucket, uploads to that bucket or of scripts and of the Lambda archive,
    and a build under [build_dir]. *)
Definition deploy_scope (config : Config) (c : Call) : bool :=
  match c with
  | DescribeStacks n | CreateStack n _ _ _ _ | UpdateStack n _ _ _ | WaiterWait _ n _ _ =>
      String.eqb n (main_stack_name config) || String.eqb n (appflow_stack_name config)
  | CreateBucket b _ => String.eqb b (artifact_bucket config)
  | UploadFile _ b k =>
      String.eqb b (artifact_bucket config)
      || String.prefix "scripts/" k
      || String.eqb k "lambda/rag_query_handler.zip"
  | Rmtree p => String.eqb p (build_dir config)
  | Mkdir p | PipInstall p _ | ZipOpen p | ZipClose p | ZipWrite p _ _ =>
      startswith p (build_dir config)
  | CopyFile _ dst => startswith dst (build_dir config)
  | PathExists _ | IsFile _ | Rglob _ | Glob _ _ | ReadFile _ => true
  | _ => false
  end.

Definition is_describe_stacks (c : Call) : bool :=
  match c with
  | DescribeStacks _ => true
  | _ => false
  end.

(** ** Phase 5, observed *)

(** What [print_header] prints. *)
Definition header_lines (message : string) : list Out :=
  [Line (nl ++ header_rule); Line (header_text message); Line (header_rule ++ nl)].

(** What [_print_summary] prints. *)
Definition summary_lines (outputs : dict string) : list Out :=
  ([Line (nl ++ Colors.BOLD ++ "Deployment Outputs:" ++ Colors.ENDC);
    Line (str_mul "-" 40)]
   ++ map (fun '(key, value) => Line ("  " ++ key ++ ": " ++ value)) outputs
   ++ [Line (nl ++ Colors.BOLD ++ "Next Steps:" ++ Colors.ENDC);
       Line "  1. Configure MLS/Property Tax API credentials in Secrets Manager";
       Line "  2. Upload sample data to raw data bucket";
       Line "  3. Run initial Glue crawler";
       Line "  4. Execute Glue ETL job";
       Line "  5. Test API endpoint"])%list.

(** Every call of the list was answered. *)
Definition all_answered (calls : list (Call * result Response)) : Prop :=
  Forall (fun x => exists r, snd x = Ok r) calls.

(** The calls and the lines of a Phase 5 that completes, after its header:
    without a scripts bucket nothing is uploaded; with one, the built Glue
    scripts are looked for and uploaded under scripts/, then the Lambda
    archive is uploaded; the closing header and the summary follow. *)
Definition post_deployment_completed (config : Config) (outputs : dict string)
           (lambda_zip : string) (calls : list (Call * result Response))
           (out : list Out) : Prop :=
  let scripts_bucket := scripts_bucket_of outputs in
  let bucket := bucket_name_of scripts_bucket in
  let glue_dir := path_join (build_dir config) "glue" in
  let done := (header_lines "DEPLOYMENT COMPLETE" ++ summary_lines outputs)%list in
  if String.eqb scripts_bucket "" then calls = [] /\ out = done
  else
    exists r,
      let lambda_upload :=
        (UploadFile lambda_zip bucket "lambda/rag_query_handler.zip", Ok r) in
      let lambda_line := Line (success_text "Lambda code uploaded") in
      (calls = [(PathExists glue_dir, Ok (RBool false)); lambda_upload] /\
       out = lambda_line :: done)
      \/
      (exists scripts uploads,
          calls = ((PathExists glue_dir, Ok (RBool true))
                   :: (Glob glue_dir "*.py", Ok (RNames scripts))
                   :: uploads ++ [lambda_upload])%list /\
          map fst uploads
          = map (fun script => UploadFile script bucket ("scripts/" ++ path_name script))
                scripts /\
          all_answered uploads /\
          out = Line (success_text "Glue scripts uploaded to scripts bucket")
                :: lambda_line :: done).

End Deploy.

(* ================================================================== *)
(** * A scripted platform, for concrete runs *)
(* ================================================================== *)

Module Fake.
Import Py Sys.

(** The name under which a script answers a call. *)
Definition call_key (c : Call) : string :=
  match c with
  | GetCallerIdentity => "sts.get_caller_identity"
  | DescribeStacks n => "cloudformation.describe_stacks:" ++ n
  | CreateStack n _ _ _ _ => "cloudformation.create_stack:" ++ n
  | UpdateStack n _ _ _ => "cloudformation.update_stack:" ++ n
  | DeleteStack n => "cloudformation.delete_stack:" ++ n
  | WaiterWait w n _ _ => "cloudformation.wait:" ++ w ++ ":" ++ n
  | ListBuckets => "s3.list_buckets"
  | CreateBucket b _ => "s3.create_bucket:" ++ b
  | UploadFile _ b k => "s3.upload_file:" ++ b ++ "/" ++ k
  | DeleteBucket b => "s3.delete_bucket:" ++ b
  | DeleteObjectVersions b => "s3.object_versions.delete:" ++ b
  | GetJobs => "glue.get_jobs"
  | DeleteJob n => "glue.delete_job:" ++ n
  | GetCrawlers => "glue.get_crawlers"
  | StopCrawler n => "glue.stop_crawler:" ++ n
  | DeleteCrawler n => "glue.delete_crawler:" ++ n
  | GetTables d => "glue.get_tables:" ++ d
  | DeleteTable d n => "glue.delete_table:" ++ d ++ "." ++ n
  | DeleteDatabase n => "glue.delete_database:" ++ n
  | DescribeLogGroups p => "logs.describe_log_groups:" ++ p
  | DeleteLogGroup n => "logs.delete_log_group:" ++ n
  | PathExists p => "exists:" ++ p
  | IsFile p => "is_file:" ++ p
  | Rmtree p => "rmtree:" ++ p
  | Mkdir p => "mkdir:" ++ p
  | PipInstall t _ => "pip:" ++ t
  | CopyFile a b => "copy:" ++ a
  | Rglob d => "rglob:" ++ d
  | Glob d pat => "glob:" ++ d ++ "/" ++ pat
  | ReadFile p => "read:" ++ p
  | ZipOpen p => "zip.open:" ++ p
  | ZipWrite z f _ => "zip.write:" ++ f
  | ZipClose p => "zip.close:" ++ p
  end.

Definition client_error (code message : string) : exn :=
  mkExn (ClientError code) message.

(** How the provider reports a stack, a catalog database and a bucket it
    does not hold. *)
Definition stack_missing (name : string) : exn :=
  client_error "ValidationError"
    ("An error occurred (ValidationError) when calling the DescribeStacks operation: Stack with id "
     ++ name ++ " does not exist").

Definition database_missing (name : string) : exn :=
  client_error "EntityNotFoundException"
    ("An error occurred (EntityNotFoundException): Database " ++ name ++ " not found.").

Definition bucket_missing : exn :=
  client_error "NoSuchBucket"
    "An error occurred (NoSuchBucket): The specified bucket does not exist".

(** An account that holds nothing of the project, and a machine with an
    empty project tree: what an unscripted call answers. *)
Definition unscripted (c : Call) : result Response :=
  match c with
  | GetCallerIdentity => Ok (RStr "123456789012")
  | DescribeStacks n => Raise (stack_missing n)
  | ListBuckets | GetJobs | GetCrawlers | Rglob _ | Glob _ _ => Ok (RNames [])
  | DescribeLogGroups _ => Ok (RPages [])
  | GetTables d | DeleteDatabase d => Raise (database_missing d)
  | DeleteBucket b | DeleteObjectVersions b => Raise bucket_missing
  | PathExists _ => Ok (RBool false)
  | IsFile _ => Ok (RBool true)
  | ReadFile _ => Ok (RStr "AWSTemplateFormatVersion: '2010-09-09'")
  | _ => Ok RNone
  end.

Definition script : Type := dict (result Response).

(** A platform that answers from a fixed script. *)
Definition scripted : Platform :=
  {| pstate := script;
     respond := fun c p =>
       (match dict_find p (call_key c) with
        | Some r => r
        | None => unscripted c
        end, p);
     isoformat := fun _ => "2025-01-15T12:00:00";
     strftime := fun _ _ => "20250115-120000" |}.

(** A fresh terminal session against a script. *)
Definition session (p : script) (typed : list string) : @World scripted :=
  @mkWorld scripted p [] [] typed 0.

(** The dev cleaner [ResourceCleaner('dev', 'us-east-1', dry_run)] builds in
    account 123456789012, and its attributes before discovery. *)
Definition dev_cleaner (dry_run : bool) : Cleanup.Config :=
  Cleanup.mkConfig "dev" "us-east-1" dry_run "housing-market-intel" "123456789012"
    ["housing-market-intel-dev-appflow"; "housing-market-intel-dev-main"].

Definition fresh_attrs : Cleanup.Attrs :=
  Cleanup.mkAttrs None None (Cleanup.mkSummary [] [] [] []).

Definition access_denied (operation : string) : exn :=
  client_error "AccessDeniedException"
    ("An error occurred (AccessDeniedException) when calling the " ++ operation
     ++ " operation: User is not authorized to perform this action").

(** A dev account that holds the platform: three buckets, three Glue jobs,
    two crawlers, a catalog database, a log group and both stacks. The
    stacks own the raw and processed buckets, which are gone once the stacks
    are deleted. Deleting the second job and the first crawler is denied. *)
Definition populated : script :=
  [("s3.list_buckets",
    Ok (RNames ["housing-market-intel-dev-raw-123456789012";
                "housing-market-intel-dev-processed-123456789012";
                "housing-market-intel-dev-artifacts-123456789012";
                "unrelated-bucket"]));
   ("logs.describe_log_groups:/aws/lambda/housing-market-intel",
    Ok (RPages [["/aws/lambda/housing-market-intel-dev-rag-query";
                 "/aws/lambda/housing-market-intel-prod-rag-query"]]));
   ("cloudformation.describe_stacks:housing-market-intel-dev-appflow",
    Ok (RStacks [mkStackDesc "CREATE_COMPLETE" []]));
   ("cloudformation.describe_stacks:housing-market-intel-dev-main",
    Ok (RStacks [mkStackDesc "UPDATE_COMPLETE"
                   [("RawDataBucketName", "housing-market-intel-dev-raw-123456789012");
                    ("ProcessedDataBucketName",
                     "housing-market-intel-dev-processed-123456789012");
                    ("KMSKeyArn", "arn:aws:kms:us-east-1:123456789012:key/1")]]));
   ("s3.object_versions.delete:housing-market-intel-dev-raw-123456789012", Ok RNone);
   ("s3.object_versions.delete:housing-market-intel-dev-processed-123456789012",
    Ok RNone);
   ("s3.object_versions.delete:housing-market-intel-dev-artifacts-123456789012",
    Ok RNone);
   ("s3.delete_bucket:housing-market-intel-dev-artifacts-123456789012", Ok RNone);
   ("glue.get_tables:housing-market-intel_dev_db", Ok (RNames ["listings"; "tax_records"]));
   ("glue.delete_database:housing-market-intel_dev_db", Ok RNone);
   ("glue.get_jobs",
    Ok (RNames ["housing-market-intel-dev-ingest";
                "housing-market-intel-dev-transform";
                "housing-market-intel-dev-embed"]));
   ("glue.delete_job:housing-market-intel-dev-transform",
    Raise (access_denied "DeleteJob"));
   ("glue.get_crawlers",
    Ok (RNames ["housing-market-intel-dev-raw-crawler";
                "housing-market-intel-dev-processed-crawler"]));
   ("glue.delete_crawler:housing-market-intel-dev-raw-crawler",
    Raise (access_denied "DeleteCrawler"))].

(** The message CloudFormation gives for an update that changes nothing. *)
Definition no_updates_error : exn :=
  client_error "ValidationError"
    "An error occurred (ValidationError) when calling the UpdateStack operation: No updates are to be performed.".

Definition template_error : exn :=
  client_error "ValidationError"
    "An error occurred (ValidationError) when calling the UpdateStack operation: Template format error: unsupported structure.".

(** The dev deployment configuration of a checkout at /repo. *)
Definition dev_config : Deploy.Config :=
  Deploy.mkConfig "dev" "us-east-1" "housing-market-intel" "123456789012"
    "housing-market-intel-dev-main" "housing-market-intel-dev-appflow"
    "housing-market-intel-dev-artifacts-123456789012"
    "/repo" "/repo/cloudformation" "/repo/src".

(** A redeployment: both stacks exist; the main template is unchanged, the
    AppFlow template is rejected. One Glue script is in the build tree. *)
Definition redeploy : script :=
  [("cloudformation.describe_stacks:housing-market-intel-dev-main",
    Ok (RStacks [mkStackDesc "UPDATE_COMPLETE"
                   [("RawDataBucketName", "housing-market-intel-dev-raw-123456789012");
                    ("ProcessedDataBucketName",
                     "housing-market-intel-dev-processed-123456789012");
                    ("KMSKeyArn", "arn:aws:kms:us-east-1:123456789012:key/1")]]));
   ("cloudformation.update_stack:housing-market-intel-dev-main",
    Raise no_updates_error);
   ("cloudformation.describe_stacks:housing-market-intel-dev-appflow",
    Ok (RStacks [mkStackDesc "CREATE_COMPLETE" []]));
   ("cloudformation.update_stack:housing-market-intel-dev-appflow",
    Raise template_error);
   ("rglob:/repo/build/lambda/rag-query-handler",
    Ok (RNames ["/repo/build/lambda/rag-query-handler/rag_query_handler.py"]));
   ("exists:/repo/src/glue", Ok (RBool true));
   ("glob:/repo/src/glue/*.py", Ok (RNames ["/repo/src/glue/etl_job.py"]));
   ("rglob:/repo/build/glue", Ok (RNames ["/repo/build/glue/etl_job.py"]));
   ("exists:/repo/build/glue", Ok (RBool true));
   ("glob:/repo/build/glue/*.py", Ok (RNames ["/repo/build/glue/etl_job.py"]));
   ("glob:/repo/cloudformation/*.yaml",
    Ok (RNames ["/repo/cloudformation/main-infrastructure.yaml";
                "/repo/cloudformation/appflow-data-ingestion.yaml"]))].

(** The same redeployment with a main template the provider rejects. *)
Definition broken_main : script :=
  ("cloudformation.update_stack:housing-market-intel-dev-main", Raise template_error)
  :: redeploy.

(** A provider that keeps answering from one script: nothing a run does
    changes its answers. *)
Definition fixed (p : script) : Platform :=
  {| pstate := unit;
     respond := fun c u =>
       (match dict_find p (call_key c) with
        | Some r => r
        | None => unscripted c
        end, u);
     isoformat := fun _ => "2025-01-15T12:00:00";
     strftime := fun _ _ => "20250115-120000" |}.

End Fake.

(* ================================================================== *)
(** * Properties of the cost estimator *)
(* ================================================================== *)

Module CostEstimatorSpec.
Import Py CostEstimator.
Open Scope Q_scope.

(** ** Shared facts *)

(** A service whose daily and hourly totals are its monthly total divided
    by 30 and by 720 has proportional totals. *)
Lemma monthly_split (m : Q) :
  m / 30 == 24 * (m / 720) /\ m == 30 * (m / 30).
Proof. split; field. Qed.

(** A service whose totals are one hourly rate scaled to a day and a month,
    times a common multiplier, has proportional totals. *)
Lemma hourly_scaled (h k : Q) :
  h * 24 * k == 24 * (h * k) /\ h * 24 * 30 * k == 30 * (h * 24 * k).
Proof. split; ring. Qed.

Lemma nat_gateway_proportional (self : t) (c : ServiceCost) :
  _calculate_nat_gateway_costs self = Ok c -> proportional c.
Proof.
  unfold _calculate_nat_gateway_costs, rbind.
  destruct (dict_get (env_multipliers self) (environment self)) as [m|e];
    [|discriminate].
  intros H; injection H as <-.
  unfold proportional; cbn [hourly_cost daily_cost monthly_cost].
  apply hourly_scaled.
Qed.

Lemma opensearch_proportional (self : t) (c : ServiceCost) :
  _calculate_opensearch_costs self = Ok c -> proportional c.
Proof.
  unfold _calculate_opensearch_costs, rbind.
  match goal with |- context [dict_get ?d ?k] => destruct (dict_get d k) as [cfg|e] end;
    [|discriminate].
  intros H; injection H as <-.
  unfold proportional; cbn [hourly_cost daily_cost monthly_cost].
  apply monthly_split.
Qed.

(** [calculate_all_costs] returns for each of the three environments. *)
Lemma calculate_all_costs_total (env : string) (vol : DataVolume) :
  In env environments -> exists costs, calculate_all_costs (init env vol) = Ok costs.
Proof.
  unfold environments; cbn [In].
  intros [<-|[<-|[<-|[]]]]; eexists; reflexivity.
Qed.

(** ** The claims *)

(** C5. In production, for every data-volume tier, the NAT-gateway hourly,
    daily and monthly costs (and both cost components) are the base amounts
    times exactly 2.0; the prod entry of the generic multiplier table is
    3.0 and is not the factor applied. *)
Theorem nat_gateway_prod_multiplier_is_two :
  forall vol : DataVolume,
    exists c,
      _calculate_nat_gateway_costs (init "prod" vol) = Ok c /\
      hourly_cost c = nat_gateway_hourly_base * 2.0 /\
      daily_cost c = nat_gateway_hourly_base * 24 * 2.0 /\
      monthly_cost c = nat_gateway_hourly_base * 24 * 30 * 2.0 /\
      cost_components c =
        [("hourly_charge", 0.045 * 2.0); ("data_processing", 0.5 * 0.045 * 2.0)] /\
      dict_get (env_multipliers (init "prod" vol)) "prod" = Ok 3.0 /\
      ~ hourly_cost c == nat_gateway_hourly_base * 3.0 /\
      ~ daily_cost c == nat_gateway_hourly_base * 24 * 3.0 /\
      ~ monthly_cost c == nat_gateway_hourly_base * 24 * 30 * 3.0.
Proof.
  intros vol. eexists.
  split; [reflexivity|].
  repeat (split; [reflexivity|]).
  repeat split; intros H; vm_compute in H; discriminate H.
Qed.

(** C6, as the specification states it, fails: the production NAT-gateway
    monthly cost is the stated product, but the product is not 48.60. *)
Lemma nat_gateway_prod_monthly_is_not_48_60 :
  exists c,
    _calculate_nat_gateway_costs (init "prod" LOW) = Ok c /\
    monthly_cost c == (0.045 + 0.5 * 0.045) * 24 * 30 * 2.0 /\
    ~ (0.045 + 0.5 * 0.045) * 24 * 30 * 2.0 == 48.60 /\
    ~ monthly_cost c == 48.60.
Proof.
  eexists. split; [reflexivity|].
  split; [reflexivity|].
  split; intros H; vm_compute in H; discriminate H.
Qed.

(** C6, amended. In production, for every data-volume tier, the NAT-gateway
    monthly cost equals (0.045 + 0.5 x 0.045) x 24 x 30 x 2.0, and that value
    is 97.20 dollars. *)
Theorem nat_gateway_prod_monthly_is_97_20 :
  forall vol : DataVolume,
    exists c,
      _calculate_nat_gateway_costs (init "prod" vol) = Ok c /\
      monthly_cost c == (0.045 + 0.5 * 0.045) * 24 * 30 * 2.0 /\
      (0.045 + 0.5 * 0.045) * 24 * 30 * 2.0 == 97.20.
Proof.
  intros vol. eexists. split; [reflexivity|].
  split; reflexivity.
Qed.

(** C10. Whatever the environment and the data-volume tier, every
    ServiceCost that calculate_all_costs returns has daily_cost equal to
    24 times hourly_cost and monthly_cost equal to 30 times daily_cost,
    in exact arithmetic. *)
Theorem service_totals_proportional :
  forall (env : string) (vol : DataVolume) (costs : dict ServiceCost),
    calculate_all_costs (init env vol) = Ok costs ->
    forall (name : string) (c : ServiceCost),
      In (name, c) costs ->
      daily_cost c == 24 * hourly_cost c /\
      monthly_cost c == 30 * daily_cost c.
Proof.
  intros env vol costs Hall name c Hin.
  change (proportional c).
  unfold calculate_all_costs, rbind in Hall.
  destruct (_calculate_nat_gateway_costs (init env vol)) as [nat_gateway|e] eqn:Hnat;
    [|discriminate].
  destruct (_calculate_opensearch_costs (init env vol)) as [opensearch|e] eqn:Hos;
    [|discriminate].
  injection Hall as <-.
  cbn [In] in Hin.
  repeat match type of Hin with
         | _ \/ _ => destruct Hin as [Hin|Hin]
         end;
    try contradiction;
    injection Hin as _ <-;
    try (eapply nat_gateway_proportional; eassumption);
    try (eapply opensearch_proportional; eassumption);
    try (split; reflexivity);
    apply monthly_split.
Qed.

Lemma service_totals_proportional_witness :
  exists costs,
    calculate_all_costs (init "dev" LOW) = Ok costs /\
    In ("s3", _calculate_s3_costs (init "dev" LOW)) costs /\
    daily_cost (_calculate_s3_costs (init "dev" LOW))
      == 24 * hourly_cost (_calculate_s3_costs (init "dev" LOW)) /\
    monthly_cost (_calculate_s3_costs (init "dev" LOW))
      == 30 * daily_cost (_calculate_s3_costs (init "dev" LOW)).
Proof.
  eexists. split; [reflexivity|].
  split.
  - right; right; left; reflexivity.
  - apply (service_totals_proportional "dev" LOW _ eq_refl "s3").
    right; right; left; reflexivity.
Defined.

End CostEstimatorSpec.

(* ================================================================== *)
(** * The report in binary64 *)
(* ================================================================== *)

Module CostEstimator64Spec.
Import Py Binary64 CostEstimator CostEstimator64.
Import Floats.

(** ** Checking by computation *)

Lemma exact_close_of_check (x : float) (p tolerance : Q) :
  match exact x with
  | Some q => Qle_bool (Qabs (p - q)) tolerance
  | None => false
  end = true ->
  exists q, exact x = Some q /\ (Qabs (p - q) <= tolerance)%Q.
Proof.
  destruct (exact x) as [q|]; [|discriminate].
  intros H. exists q. split; [reflexivity | apply Qle_bool_imp_le; exact H].
Qed.

Lemma accepted_environment (env : string) :
  In env environments -> env = "dev" \/ env = "staging" \/ env = "prod".
Proof.
  intros [H | [H | [H | []]]]; symmetry in H; [left | right; left | right; right]; exact H.
Qed.

(** ** The claims *)



(** ** Concrete runs *)


End CostEstimator64Spec.

(* ================================================================== *)
(** * Facts about runs *)
(* ================================================================== *)

Module SysFacts.
Import Py Sys.

(** ** Relations every run respects, piece by piece *)

Section Generic.
Context {P : Platform} {S : Type}.
Variable R : S * World -> S * World -> Prop.
Hypothesis R_pre : PreOrder R.

Lemma respects_ret {A : Type} (a : A) : respects R (ret a).
Proof. intros s. apply reflexivity. Qed.

Lemma respects_raise {A : Type} (e : exn) : respects R (@raise P S A e).
Proof. intros s. apply reflexivity. Qed.

Lemma respects_bind {A B : Type} (m : M S A) (k : A -> M S B) :
  respects R m -> (forall a, respects R (k a)) -> respects R (bind m k).
Proof.
  intros Hm Hk s. unfold bind.
  specialize (Hm s). destruct (m s) as [[a|e] s1]; cbn in *.
  - etransitivity; [exact Hm | apply Hk].
  - exact Hm.
Qed.

Lemma respects_try_except {A : Type} (m : M S A) (h : exn -> option (M S A)) :
  respects R m -> handler_respects R h -> respects R (try_except m h).
Proof.
  intros Hm Hh s. unfold try_except.
  specialize (Hm s). destruct (m s) as [[a|e] s1]; cbn in *.
  - exact Hm.
  - destruct (h e) as [k|] eqn:Hk; cbn.
    + etransitivity; [exact Hm | exact (Hh e k Hk s1)].
    + exact Hm.
Qed.

Lemma handler_respects_except {A : Type} (p : exn -> bool) (body : exn -> M S A) :
  (forall e, respects R (body e)) -> handler_respects R (except p body).
Proof.
  intros Hb e k. unfold except. destruct (p e); [|discriminate].
  intros H; injection H as <-. apply Hb.
Qed.

Lemma handler_respects_orelse {A : Type} (h1 h2 : exn -> option (M S A)) :
  handler_respects R h1 -> handler_respects R h2 -> handler_respects R (orelse h1 h2).
Proof.
  intros H1 H2 e k. unfold orelse. destruct (h1 e) as [k1|] eqn:E1.
  - intros H; injection H as <-. exact (H1 e k1 E1).
  - apply H2.
Qed.

Lemma respects_try_finally {A : Type} (m : M S A) (c : M S unit) :
  respects R m -> respects R c -> respects R (try_finally m c).
Proof.
  intros Hm Hc s. unfold try_finally.
  specialize (Hm s). destruct (m s) as [r s1]; cbn in *.
  specialize (Hc s1). destruct (c s1) as [[u|e] s2]; cbn in *;
    (etransitivity; [exact Hm | exact Hc]).
Qed.

Lemma respects_for_each {A : Type} (l : list A) (body : A -> M S unit) :
  (forall x, respects R (body x)) -> respects R (for_each l body).
Proof.
  intros Hb. induction l as [|x l IH]; cbn [for_each].
  - apply respects_ret.
  - apply respects_bind; [apply Hb | intros _; exact IH].
Qed.

Lemma respects_if {A : Type} (b : bool) (m1 m2 : M S A) :
  respects R m1 -> respects R m2 -> respects R (if b then m1 else m2).
Proof. destruct b; auto. Qed.

Lemma respects_get_attr {A : Type} (f : S -> A) : respects R (get_attr f).
Proof. intros s. apply reflexivity. Qed.

Lemma respects_utcnow : respects R utcnow.
Proof. intros s. apply reflexivity. Qed.

Lemma respects_field_names (key : string) (r : Response) : respects R (field_names key r).
Proof. destruct r; first [apply respects_ret | apply respects_raise]. Qed.

Lemma respects_field_pages (r : Response) : respects R (field_pages r).
Proof. destruct r; first [apply respects_ret | apply respects_raise]. Qed.

Lemma respects_field_stacks (r : Response) : respects R (field_stacks r).
Proof. destruct r; first [apply respects_ret | apply respects_raise]. Qed.

Lemma respects_field_str (key : string) (r : Response) : respects R (field_str key r).
Proof. destruct r; first [apply respects_ret | apply respects_raise]. Qed.

Lemma respects_field_bool (r : Response) : respects R (field_bool r).
Proof. destruct r; first [apply respects_ret | apply respects_raise]. Qed.

Lemma respects_first {A : Type} (l : list A) : respects R (first l).
Proof. destruct l; first [apply respects_ret | apply respects_raise]. Qed.

(** The printing helpers respect whatever [emit] respects. *)
Hypothesis R_emit : forall o, respects R (emit o).

Lemma respects_print (s : string) : respects R (print s).
Proof. apply R_emit. Qed.

Lemma respects_print_header (s : string) : respects R (print_header s).
Proof.
  unfold print_header.
  repeat (apply respects_bind; [apply respects_print | intros _]).
  apply respects_print.
Qed.

Lemma respects_print_success (s : string) : respects R (print_success s).
Proof. apply R_emit. Qed.

Lemma respects_print_warning (s : string) : respects R (print_warning s).
Proof. apply R_emit. Qed.

Lemma respects_print_error (s : string) : respects R (print_error s).
Proof. apply R_emit. Qed.

Lemma respects_print_info (s : string) : respects R (print_info s).
Proof. apply R_emit. Qed.

End Generic.

(** ** Running the primitives, one step at a time *)

Section Steps.
Context {P : Platform} {S : Type}.

Lemma run_bind_ret {A B : Type} (x : A) (k : A -> M S B) (s : S * World) :
  bind (ret x) k s = k x s.
Proof. reflexivity. Qed.

Lemma run_bind_assoc {A B C : Type} (m : M S A) (f : A -> M S B) (k : B -> M S C)
      (s : S * World) :
  bind (bind m f) k s = bind m (fun x => bind (f x) k) s.
Proof. unfold bind. destruct (m s) as [[x|e] s1]; reflexivity. Qed.

Lemma run_emit (o : Out) (a : S) (p : pstate) (t : list (Call * result Response))
      (out : list Out) (i : list string) (n : nat) :
  emit o (a, mkWorld p t out i n) = (Ok tt, (a, mkWorld p t (out ++ [o]) i n)).
Proof. reflexivity. Qed.

Lemma run_bind_emit {B : Type} (o : Out) (k : unit -> M S B) (a : S) (p : pstate)
      (t : list (Call * result Response)) (out : list Out) (i : list string) (n : nat) :
  bind (emit o) k (a, mkWorld p t out i n) = k tt (a, mkWorld p t (out ++ [o]) i n).
Proof. reflexivity. Qed.

Lemma run_bind_utcnow {B : Type} (k : nat -> M S B) (a : S) (p : pstate)
      (t : list (Call * result Response)) (out : list Out) (i : list string) (n : nat) :
  bind utcnow k (a, mkWorld p t out i n) = k n (a, mkWorld p t out i n).
Proof. reflexivity. Qed.

Lemma run_call (c : Call) (a : S) (p p' : pstate) (r : result Response)
      (t : list (Call * result Response)) (out : list Out) (i : list string) (n : nat) :
  respond c p = (r, p') ->
  call c (a, mkWorld p t out i n) = (r, (a, mkWorld p' (t ++ [(c, r)]) out i n)).
Proof. intros H. unfold call. cbn [fst snd cloud]. rewrite H. reflexivity. Qed.

Lemma run_bind_call_ok {B : Type} (c : Call) (k : Response -> M S B) (a : S)
      (p p' : pstate) (x : Response)
      (t : list (Call * result Response)) (out : list Out) (i : list string) (n : nat) :
  respond c p = (Ok x, p') ->
  bind (call c) k (a, mkWorld p t out i n)
  = k x (a, mkWorld p' (t ++ [(c, Ok x)]) out i n).
Proof. intros H. unfold bind. rewrite (run_call c a p p' (Ok x)); [reflexivity|exact H]. Qed.

Lemma run_bind_call_raise {B : Type} (c : Call) (k : Response -> M S B) (a : S)
      (p p' : pstate) (e : exn)
      (t : list (Call * result Response)) (out : list Out) (i : list string) (n : nat) :
  respond c p = (Raise e, p') ->
  bind (call c) k (a, mkWorld p t out i n)
  = (Raise e, (a, mkWorld p' (t ++ [(c, Raise e)]) out i n)).
Proof. intros H. unfold bind. rewrite (run_call c a p p' (Raise e)); [reflexivity|exact H]. Qed.

Lemma run_bind_input {B : Type} (prompt : string) (k : string -> M S B) (a : S) (p : pstate)
      (t : list (Call * result Response)) (out : list Out) (i : list string) (n : nat) :
  bind (input prompt) k (a, mkWorld p t out i n)
  = match i with
    | [] => (Raise EOFError, (a, mkWorld p t (out ++ [Prompt prompt]) [] n))
    | line :: rest => k line (a, mkWorld p t (out ++ [Prompt prompt]) rest n)
    end.
Proof. destruct i; reflexivity. Qed.

Lemma run_try_ok {A : Type} (m : M S A) (h : exn -> option (M S A)) (s s' : S * World)
      (x : A) :
  m s = (Ok x, s') -> try_except m h s = (Ok x, s').
Proof. intros H. unfold try_except. rewrite H. reflexivity. Qed.

Lemma run_try_raise {A : Type} (m : M S A) (h : exn -> option (M S A)) (s s' : S * World)
      (e : exn) :
  m s = (Raise e, s') ->
  try_except m h s = match h e with
                     | Some k => k s'
                     | None => (Raise e, s')
                     end.
Proof. intros H. unfold try_except. rewrite H. reflexivity. Qed.

Lemma run_bind_ok {A B : Type} (m : M S A) (k : A -> M S B) (s s' : S * World) (x : A) :
  m s = (Ok x, s') -> bind m k s = k x s'.
Proof. intros H. unfold bind. rewrite H. reflexivity. Qed.

Lemma run_bind_raise {A B : Type} (m : M S A) (k : A -> M S B) (s s' : S * World) (e : exn) :
  m s = (Raise e, s') -> bind m k s = (Raise e, s').
Proof. intros H. unfold bind. rewrite H. reflexivity. Qed.

End Steps.

Section Relations.
Context {P : Platform} {S : Type}.

Lemma calls_within_preorder (ok : Call -> bool) : PreOrder (@calls_within P S ok).
Proof.
  split.
  - intros s. exists []. split; [symmetry; apply app_nil_r | reflexivity].
  - intros a b c [l1 [H1 F1]] [l2 [H2 F2]].
    exists (l1 ++ l2)%list. split.
    + rewrite H2, H1. symmetry. apply app_assoc.
    + rewrite forallb_app, F1, F2. reflexivity.
Qed.

Lemma attrs_kept_preorder : PreOrder (@attrs_kept P S).
Proof.
  split.
  - intros s. reflexivity.
  - intros a b c H1 H2. unfold attrs_kept in *. congruence.
Qed.

Lemma stdout_grows_preorder : PreOrder (@stdout_grows P S).
Proof.
  split.
  - intros s. exists []. symmetry; apply app_nil_r.
  - intros a b c [l1 H1] [l2 H2].
    exists (l1 ++ l2)%list. rewrite H2, H1. symmetry. apply app_assoc.
Qed.

Lemma calls_within_emit (ok : Call -> bool) (o : Out) :
  respects (@calls_within P S ok) (emit o).
Proof. intros s. exists []. split; [symmetry; apply app_nil_r | reflexivity]. Qed.

Lemma calls_within_input (ok : Call -> bool) (prompt : string) :
  respects (@calls_within P S ok) (input prompt).
Proof.
  intros [a w]. unfold input, bind, emit, on_world; cbn.
  destruct (stdin w); exists []; (split; [symmetry; apply app_nil_r | reflexivity]).
Qed.

Lemma calls_within_sleep (ok : Call -> bool) (n : nat) :
  respects (@calls_within P S ok) (sleep n).
Proof. intros s. exists []. split; [symmetry; apply app_nil_r | reflexivity]. Qed.

Lemma calls_within_set_attr (ok : Call -> bool) (f : S -> S) :
  respects (@calls_within P S ok) (set_attr f).
Proof. intros s. exists []. split; [symmetry; apply app_nil_r | reflexivity]. Qed.

Lemma calls_within_call (ok : Call -> bool) (c : Call) :
  ok c = true -> respects (@calls_within P S ok) (call c).
Proof.
  intros Hc [a w]. unfold call; cbn.
  destruct (respond c (cloud w)) as [r p']; cbn.
  exists [(c, r)]. split; [reflexivity | cbn; rewrite Hc; reflexivity].
Qed.

Lemma attrs_kept_emit (o : Out) : respects (@attrs_kept P S) (emit o).
Proof. intros s. reflexivity. Qed.

Lemma attrs_kept_input (prompt : string) : respects (@attrs_kept P S) (input prompt).
Proof.
  intros [a w]. unfold input, bind, emit, on_world; cbn.
  destruct (stdin w); reflexivity.
Qed.

Lemma attrs_kept_sleep (n : nat) : respects (@attrs_kept P S) (sleep n).
Proof. intros s. reflexivity. Qed.

Lemma attrs_kept_call (c : Call) : respects (@attrs_kept P S) (call c).
Proof.
  intros [a w]. unfold call; cbn.
  destruct (respond c (cloud w)) as [r p']; reflexivity.
Qed.

Lemma stdout_grows_emit (o : Out) : respects (@stdout_grows P S) (emit o).
Proof. intros s. exists [o]. reflexivity. Qed.

Lemma stdout_grows_input (prompt : string) : respects (@stdout_grows P S) (input prompt).
Proof.
  intros [a w]. unfold input, bind, emit, on_world; cbn.
  destruct (stdin w); exists [Prompt prompt]; reflexivity.
Qed.

Lemma stdout_grows_sleep (n : nat) : respects (@stdout_grows P S) (sleep n).
Proof. intros s. exists []. symmetry; apply app_nil_r. Qed.

Lemma stdout_grows_set_attr (f : S -> S) : respects (@stdout_grows P S) (set_attr f).
Proof. intros s. exists []. symmetry; apply app_nil_r. Qed.

Lemma stdout_grows_call (c : Call) : respects (@stdout_grows P S) (call c).
Proof.
  intros [a w]. unfold call; cbn.
  destruct (respond c (cloud w)) as [r p']; cbn.
  exists []. symmetry; apply app_nil_r.
Qed.

End Relations.

Create Rewrite HintDb run.
#[export] Hint Rewrite @run_bind_assoc @run_bind_ret @run_bind_emit @run_bind_utcnow : run.

Create HintDb respects discriminated.

#[export] Hint Extern 1 (respects _ (bind _ _)) =>
  apply respects_bind; [ | | intro; cbv beta zeta ] : respects.
#[export] Hint Extern 1 (respects _ (for_each _ _)) =>
  apply respects_for_each; [ | intro; cbv beta zeta ] : respects.
#[export] Hint Extern 1 (handler_respects _ (except _ _)) =>
  apply handler_respects_except; intro; cbv beta zeta : respects.
#[export] Hint Extern 1 (handler_respects _ (fun _ => _)) =>
  unfold handler_respects : respects.
#[export] Hint Resolve calls_within_preorder attrs_kept_preorder stdout_grows_preorder
  : respects.
#[export] Hint Extern 2 (respects _ (if ?b then _ else _)) => destruct b : respects.
#[export] Hint Extern 2 (respects _ (match ?x with _ => _ end)) => destruct x : respects.

#[export] Hint Resolve
  respects_ret respects_raise respects_try_except
  handler_respects_orelse respects_try_finally
  respects_get_attr respects_utcnow
  respects_field_names respects_field_pages respects_field_stacks
  respects_field_str respects_field_bool respects_first
  respects_print respects_print_header respects_print_success
  respects_print_warning respects_print_error respects_print_info
  calls_within_emit calls_within_input calls_within_sleep calls_within_set_attr
  calls_within_call
  attrs_kept_emit attrs_kept_input attrs_kept_sleep attrs_kept_call
  stdout_grows_emit stdout_grows_input stdout_grows_sleep stdout_grows_set_attr
  stdout_grows_call
  : respects.

End SysFacts.

(** ** Runs that stop at the first failure of a selected call *)

Module AbortFacts.
Import Py Sys SysFacts.

Section Lists.
Variable sel : Call -> bool.

Lemma no_failed_nil : no_failed sel [].
Proof. reflexivity. Qed.

Lemma no_failed_app (l1 l2 : list (Call * result Response)) :
  no_failed sel l1 -> no_failed sel l2 -> no_failed sel (l1 ++ l2).
Proof.
  unfold no_failed. intros H1 H2. rewrite forallb_app, H1, H2. reflexivity.
Qed.

Lemma no_failed_In (l : list (Call * result Response)) (c : Call) (e : exn) :
  no_failed sel l -> In (c, Raise e) l -> sel c = true -> False.
Proof.
  unfold no_failed. intros Hl Hin Hc.
  rewrite forallb_forall in Hl. specialize (Hl _ Hin).
  cbn in Hl. rewrite Hc in Hl. discriminate Hl.
Qed.

(** A list that ends after its only selected failure has nothing behind
    that failure. *)
Lemma last_failure_splits (l0 pre post : list (Call * result Response))
      (x y : Call * result Response) :
  (l0 ++ [x] = pre ++ y :: post)%list ->
  post = [] \/ In y l0.
Proof.
  intros H.
  destruct post as [|p post0]; [left; reflexivity|].
  right.
  destruct (@exists_last _ (p :: post0)) as [post' [z Hpost]]; [discriminate|].
  rewrite Hpost in H.
  change (pre ++ y :: post' ++ [z])%list with (pre ++ (y :: post') ++ [z])%list in H.
  rewrite app_assoc in H.
  apply app_inj_tail in H. destruct H as [H _]. subst l0.
  apply in_or_app. right. left. reflexivity.
Qed.

Lemma failed_last_stops (oe : option exn) (l : list (Call * result Response)) :
  failed_last sel oe l -> stops_at_failure sel l.
Proof.
  intros [Hok | [l0 [c0 [e0 [_ [_ [-> Hl0]]]]]]] pre c e post Heq Hc.
  - exfalso. apply (no_failed_In l c e Hok); [|exact Hc].
    rewrite Heq. apply in_or_app. right. left. reflexivity.
  - destruct (last_failure_splits _ _ _ _ _ Heq) as [Hpost | Hin]; [exact Hpost|].
    exfalso. exact (no_failed_In l0 c e Hl0 Hin Hc).
Qed.

Lemma failed_last_In (oe : option exn) (l : list (Call * result Response))
      (c : Call) (e : exn) :
  failed_last sel oe l -> In (c, Raise e) l -> sel c = true -> oe = Some e.
Proof.
  intros [Hok | [l0 [c0 [e0 [Hoe [_ [-> Hl0]]]]]]] Hin Hc.
  - exfalso. exact (no_failed_In l c e Hok Hin Hc).
  - apply in_app_or in Hin. destruct Hin as [Hin | [Hin | []]].
    + exfalso. exact (no_failed_In l0 c e Hl0 Hin Hc).
    + injection Hin as _ <-. exact Hoe.
Qed.

End Lists.

Section Runs.
Context {P : Platform} {S : Type}.
Variable sel : Call -> bool.

Lemma aborts_ret {A : Type} (a : A) : aborts_at_failure sel (@ret P S A a).
Proof.
  intros s. exists []. split; [symmetry; apply app_nil_r | left; reflexivity].
Qed.

Lemma aborts_bind {A B : Type} (m : M S A) (k : A -> M S B) :
  aborts_at_failure sel m -> (forall a, aborts_at_failure sel (k a)) ->
  aborts_at_failure sel (bind m k).
Proof.
  intros Hm Hk s. unfold bind.
  destruct (Hm s) as [l1 [T1 F1]].
  destruct (m s) as [[a|e] s1]; cbn [fst snd raised] in *.
  - destruct F1 as [N1 | [l0 [c [e [Hoe _]]]]]; [|discriminate Hoe].
    destruct (Hk a s1) as [l2 [T2 F2]].
    exists (l1 ++ l2)%list. split.
    + rewrite T2, T1. symmetry. apply app_assoc.
    + destruct F2 as [N2 | [l0 [c [e [Hoe [Hc [-> N0]]]]]]].
      * left. apply no_failed_app; assumption.
      * right. exists (l1 ++ l0)%list, c, e.
        repeat split; [exact Hoe | exact Hc | apply app_assoc |].
        apply no_failed_app; assumption.
  - exists l1. split; assumption.
Qed.

Lemma aborts_for_each {A : Type} (l : list A) (body : A -> M S unit) :
  (forall x, aborts_at_failure sel (body x)) ->
  aborts_at_failure sel (for_each l body).
Proof.
  intros Hb. induction l as [|x l IH]; cbn [for_each].
  - apply aborts_ret.
  - apply aborts_bind; [apply Hb | intros _; exact IH].
Qed.

Lemma aborts_call (c : Call) : aborts_at_failure sel (@call P S c).
Proof.
  intros [a w]. unfold call; cbn [fst snd].
  destruct (respond c (cloud w)) as [r p']. cbn [fst snd trace].
  exists [(c, r)]. split; [reflexivity|].
  destruct r as [resp|e]; cbn [raised].
  - left. unfold no_failed; cbn. rewrite andb_false_r. reflexivity.
  - destruct (sel c) eqn:Hc.
    + right. exists [], c, e. repeat split; assumption || reflexivity.
    + left. unfold no_failed; cbn. rewrite Hc. reflexivity.
Qed.

(** A computation whose calls are all unselected cannot fail a selected
    call, however it ends. *)
Lemma aborts_of_unselected {A : Type} (m : M S A) :
  respects (calls_within (fun c => negb (sel c))) m -> aborts_at_failure sel m.
Proof.
  intros Hm s. destruct (Hm s) as [l [T F]].
  exists l. split; [exact T|]. left.
  unfold no_failed. rewrite forallb_forall in *. intros x Hx.
  specialize (F x Hx). cbn in F. apply negb_true_iff in F. rewrite F. reflexivity.
Qed.

Lemma aborts_if {A : Type} (b : bool) (m1 m2 : M S A) :
  aborts_at_failure sel m1 -> aborts_at_failure sel m2 ->
  aborts_at_failure sel (if b then m1 else m2).
Proof. destruct b; auto. Qed.

End Runs.

End AbortFacts.

(* ================================================================== *)
(** * Properties of the teardown (cleanup.py) *)
(* ================================================================== *)

Module CleanupFacts.
Import Py Sys Cleanup SysFacts AbortFacts.

Section Facts.
Context {P : Platform}.
Variable self : Config.

Lemma respects_attr (R : Attrs * World -> Attrs * World -> Prop) (R_pre : PreOrder R)
      {A : Type} (name : string) (f : Attrs -> option A) :
  respects R (attr name f).
Proof. intros s. unfold attr. destruct (f (fst s)); apply reflexivity. Qed.

Hint Resolve respects_attr : respects.

(** The Glue phase never assigns an attribute of the cleaner, the summary
    included. *)
Lemma glue_keeps_attrs : respects attrs_kept (_cleanup_glue_resources self).
Proof.
  unfold _cleanup_glue_resources, _cleanup_glue_jobs, _cleanup_glue_crawlers,
    _cleanup_glue_database, delete_glue_job, delete_glue_crawler.
  auto 40 with respects.
Qed.

(** A dry run only lists and describes. *)
Lemma dry_run_calls_listing (force : bool) :
  dry_run self = true -> respects (calls_within listing) (cleanup self force).
Proof.
  intros Hdry.
  unfold cleanup, cleanup_phases, _discover_resources, _empty_s3_buckets,
    empty_s3_bucket, _cleanup_glue_resources, _cleanup_glue_jobs,
    _cleanup_glue_crawlers, _cleanup_glue_database, delete_glue_job,
    delete_glue_crawler, _delete_stacks, delete_stack,
    _cleanup_orphaned_resources, _cleanup_orphaned_log_groups,
    _cleanup_orphaned_buckets, delete_log_group, delete_orphaned_bucket,
    _print_summary.
  rewrite Hdry. rewrite andb_false_r. cbv beta iota.
  auto 60 with respects.
Qed.

Lemma listing_not_mutating (l : list (Call * result Response)) :
  forallb (fun x => listing (fst x)) l = true ->
  forallb (fun x => negb (mutating (fst x))) l = true.
Proof.
  rewrite !forallb_forall. intros H x Hx. specialize (H x Hx).
  destruct (fst x); try discriminate H; reflexivity.
Qed.

(** The phases only add to what is printed. *)
Lemma phases_only_print_more : respects stdout_grows (cleanup_phases self).
Proof.
  unfold cleanup_phases, _discover_resources, _empty_s3_buckets,
    empty_s3_bucket, _cleanup_glue_resources, _cleanup_glue_jobs,
    _cleanup_glue_crawlers, _cleanup_glue_database, delete_glue_job,
    delete_glue_crawler, _delete_stacks, delete_stack,
    _cleanup_orphaned_resources, _cleanup_orphaned_log_groups,
    _cleanup_orphaned_buckets, delete_log_group, delete_orphaned_bucket,
    _print_summary.
  auto 60 with respects.
Qed.

(** What the run of [cleanup] is once the banner is out. *)
Lemma cleanup_after_banner (force : bool) (a : Attrs) (w : World) :
  cleanup self force (a, w)
  = (if negb force && negb (dry_run self)
     then bind (for_each (warning_lines self) (fun o => emit o)) (fun _ =>
          bind (input (confirmation_prompt self)) (fun confirm =>
          if negb (String.eqb confirm (environment self))
          then print_warning "Cleanup cancelled"
          else cleanup_phases self))
     else cleanup_phases self)
      (a, mkWorld (cloud w) (trace w) (stdout w ++ banner_lines self (now w))
                  (stdin w) (now w)).
Proof.
  destruct w as [p t out i n]. cbn [cloud trace stdout stdin now].
  unfold cleanup, print_header, print.
  autorewrite with run.
  rewrite <- !app_assoc. cbn [app].
  destruct (negb force && negb (dry_run self)); [|reflexivity].
  cbn [for_each warning_lines].
  autorewrite with run. reflexivity.
Qed.

(** What [cleanup] does at the prompt, live and unforced. *)
Lemma cleanup_at_prompt (a : Attrs) (w : World) :
  dry_run self = false ->
  cleanup self false (a, w)
  = match stdin w with
    | [] => (Raise EOFError,
             (a, mkWorld (cloud w) (trace w)
                   (stdout w ++ banner_lines self (now w) ++ warning_lines self
                      ++ [Prompt (confirmation_prompt self)])
                   [] (now w)))
    | typed :: rest =>
        (if negb (String.eqb typed (environment self))
         then print_warning "Cleanup cancelled"
         else cleanup_phases self)
          (a, mkWorld (cloud w) (trace w)
                (stdout w ++ banner_lines self (now w) ++ warning_lines self
                   ++ [Prompt (confirmation_prompt self)])
                rest (now w))
    end.
Proof.
  intros Hdry.
  rewrite cleanup_after_banner, Hdry. cbn [negb andb].
  destruct w as [p t out i n]. cbn [cloud trace stdout stdin now].
  cbn [for_each warning_lines].
  autorewrite with run. rewrite run_bind_input.
  rewrite <- !app_assoc. cbn [app].
  destruct i; reflexivity.
Qed.

(** A stack the provider does not know is skipped: one describe call, two
    informational lines, and the loop goes on with the attributes as they
    were. *)
Lemma absent_stack_skipped (stack_name : string) (rest : list string)
      (a : Attrs) (w : World) (e : exn) (p' : pstate) :
  dry_run self = false ->
  respond (DescribeStacks stack_name) (cloud w) = (Raise e, p') ->
  is_ClientError e = true ->
  for_each (stack_name :: rest) (delete_stack self) (a, w)
  = for_each rest (delete_stack self)
      (a, advance w p' [(DescribeStacks stack_name, Raise e)]
                  [Line (info_text ("Deleting stack: " ++ stack_name));
                   Line (info_text ("  Stack not found: " ++ stack_name))]).
Proof.
  intros Hdry Hresp He.
  cbn [for_each]. unfold bind at 1. unfold delete_stack at 1.
  rewrite Hdry.
  unfold bind, try_except, except, print_info, print, emit, on_world, call, ret.
  cbn [fst snd cloud trace stdout stdin now].
  rewrite Hresp. rewrite He.
  cbn [fst snd cloud trace stdout stdin now].
  unfold advance. rewrite <- app_assoc. reflexivity.
Qed.

Lemma absent_bucket_skipped (bucket_name : string) (rest : list string)
      (a : Attrs) (w : World) (e : exn) (p' : pstate) :
  dry_run self = false ->
  respond (DeleteBucket bucket_name) (cloud w) = (Raise e, p') ->
  is_code "NoSuchBucket" e = true ->
  for_each (bucket_name :: rest) (delete_orphaned_bucket self) (a, w)
  = for_each rest (delete_orphaned_bucket self)
      (a, advance w p' [(DeleteBucket bucket_name, Raise e)]
                  [Line (info_text ("  Bucket already deleted: " ++ bucket_name))]).
Proof.
  intros Hdry Hresp He.
  cbn [for_each]. unfold bind at 1. unfold delete_orphaned_bucket at 1.
  rewrite Hdry.
  unfold bind, try_except, orelse, except, print_info, print, emit, on_world, call, ret.
  cbn [fst snd cloud trace stdout stdin now].
  rewrite Hresp. rewrite He.
  cbn [fst snd cloud trace stdout stdin now].
  reflexivity.
Qed.

Lemma absent_database_skipped (name : string)
      (a : Attrs) (w : World) (e1 e2 : exn) (p1 p2 : pstate) :
  dry_run self = false ->
  respond (GetTables name) (cloud w) = (Raise e1, p1) ->
  respond (DeleteDatabase name) p1 = (Raise e2, p2) ->
  is_code "EntityNotFoundException" e2 = true ->
  _cleanup_glue_database self name (a, w)
  = (Ok tt,
     (a, advance w p2 [(GetTables name, Raise e1); (DeleteDatabase name, Raise e2)]
                 [Line (info_text ("Deleting Glue database: " ++ name));
                  Line (info_text ("  Database not found: " ++ name))])).
Proof.
  intros Hdry H1 H2 He.
  unfold _cleanup_glue_database. rewrite Hdry.
  unfold bind, try_except, orelse, except, print_info, print, emit, on_world, call, ret.
  cbn [fst snd cloud trace stdout stdin now].
  rewrite H1.
  cbn [fst snd cloud trace stdout stdin now].
  rewrite H2. rewrite He.
  cbn [fst snd cloud trace stdout stdin now].
  unfold advance. rewrite <- !app_assoc. reflexivity.
Qed.

(** Deleting one job, or one crawler, stops at a failed delete call. *)
Lemma delete_glue_job_aborts (prefix job : string) :
  aborts_at_failure is_delete_job (delete_glue_job self prefix job).
Proof.
  unfold delete_glue_job.
  repeat apply aborts_if.
  - apply aborts_of_unselected. auto with respects.
  - apply aborts_bind; [apply aborts_call | intros _].
    apply aborts_of_unselected. auto with respects.
  - apply aborts_ret.
Qed.

Lemma delete_glue_crawler_aborts (prefix crawler : string) :
  aborts_at_failure is_delete_crawler (delete_glue_crawler self prefix crawler).
Proof.
  unfold delete_glue_crawler.
  repeat apply aborts_if.
  - apply aborts_of_unselected. auto with respects.
  - apply aborts_bind; [|intros _].
    + apply aborts_of_unselected. auto 20 with respects.
    + apply aborts_bind; [apply aborts_call | intros _].
      apply aborts_of_unselected. auto with respects.
  - apply aborts_ret.
Qed.

End Facts.

Section Blocks.
Context {P : Platform} {S : Type}.

(** A [try] block announced by [print_info] whose only handler prints a
    warning: a selected failure inside is the last call of the block, and
    when it is an [Exception] the block returns normally, the warning being
    the last line printed. *)
Lemma warned_block (sel : Call -> bool) (inner : M S unit) (intro msg : string)
      (s : S * World) :
  aborts_at_failure sel inner ->
  let res := bind (print_info intro) (fun _ =>
               try_except inner
                 (except is_Exception (fun e => print_warning (msg ++ exn_str e)))) s in
  exists l,
    trace (snd (snd res)) = (trace (snd s) ++ l)%list /\
    stops_at_failure sel l /\
    forall c e,
      In (c, Raise e) l -> sel c = true -> is_Exception e = true ->
      fst res = Ok tt /\
      exists out,
        stdout (snd (snd res)) = (out ++ [Line (warning_text (msg ++ exn_str e))])%list.
Proof.
  intros Hinner. destruct s as [a w].
  unfold bind at 1. unfold print_info, print, emit, on_world. cbn [fst snd].
  set (s1 := (a, _)).
  unfold try_except.
  destruct (Hinner s1) as [l [T F]].
  destruct (inner s1) as [[u|e'] s2] eqn:Hrun; cbn [fst snd raised] in *.
  - exists l. split; [exact T|]. split; [exact (failed_last_stops _ _ _ F)|].
    intros c e Hin Hc _.
    pose proof (failed_last_In _ _ _ _ _ F Hin Hc) as Habs. discriminate Habs.
  - unfold except. destruct (is_Exception e') eqn:He'.
    + unfold print_warning, print, emit, on_world. cbn [fst snd trace stdout].
      exists l. split; [exact T|]. split; [exact (failed_last_stops _ _ _ F)|].
      intros c e Hin Hc _.
      pose proof (failed_last_In _ _ _ _ _ F Hin Hc) as Heq.
      injection Heq as ->.
      split; [reflexivity|]. eexists. reflexivity.
    + cbn [fst snd].
      exists l. split; [exact T|]. split; [exact (failed_last_stops _ _ _ F)|].
      intros c e Hin Hc He.
      pose proof (failed_last_In _ _ _ _ _ F Hin Hc) as Heq.
      injection Heq as ->. rewrite He in He'. discriminate He'.
Qed.

End Blocks.

#[export] Hint Resolve respects_attr : respects.

End CleanupFacts.

Module CleanupSpec.
Import Py Sys Cleanup SysFacts AbortFacts CleanupFacts.

Section Claims.
Context {P : Platform}.

(** C2. In a live teardown, deleting a stack, a bucket or a catalog database
    that the provider does not hold changes nothing and is not an error:
    for every stack name, a failed describe is answered by the informational
    line "Stack not found" and the loop goes on with the next stack; for
    every bucket name, a NoSuchBucket from delete_bucket is answered by the
    informational line "Bucket already deleted" and the loop goes on with
    the next bucket; for every database name, an EntityNotFoundException
    from delete_database is answered by the informational line "Database not
    found" and the step returns. In each case the attributes of the cleaner,
    the error list of the summary among them, are what they were. *)
Theorem deleting_absent_resource_is_reported_as_info :
  forall self : Config,
    dry_run self = false ->
    (forall (stack_name : string) (rest : list string) (a : Attrs) (w : World)
            (e : exn) (p' : pstate),
        respond (DescribeStacks stack_name) (cloud w) = (Raise e, p') ->
        is_ClientError e = true ->
        for_each (stack_name :: rest) (delete_stack self) (a, w)
        = for_each rest (delete_stack self)
            (a, advance w p' [(DescribeStacks stack_name, Raise e)]
                        [Line (info_text ("Deleting stack: " ++ stack_name));
                         Line (info_text ("  Stack not found: " ++ stack_name))])) /\
    (forall (bucket_name : string) (rest : list string) (a : Attrs) (w : World)
            (e : exn) (p' : pstate),
        respond (DeleteBucket bucket_name) (cloud w) = (Raise e, p') ->
        is_code "NoSuchBucket" e = true ->
        for_each (bucket_name :: rest) (delete_orphaned_bucket self) (a, w)
        = for_each rest (delete_orphaned_bucket self)
            (a, advance w p' [(DeleteBucket bucket_name, Raise e)]
                        [Line (info_text ("  Bucket already deleted: " ++ bucket_name))])) /\
    (forall (name : string) (a : Attrs) (w : World) (e1 e2 : exn) (p1 p2 : pstate),
        respond (GetTables name) (cloud w) = (Raise e1, p1) ->
        respond (DeleteDatabase name) p1 = (Raise e2, p2) ->
        is_code "EntityNotFoundException" e2 = true ->
        _cleanup_glue_database self name (a, w)
        = (Ok tt,
           (a, advance w p2
                 [(GetTables name, Raise e1); (DeleteDatabase name, Raise e2)]
                 [Line (info_text ("Deleting Glue database: " ++ name));
                  Line (info_text ("  Database not found: " ++ name))]))).
Proof.
  intros self Hdry. split; [|split]; intros.
  - apply absent_stack_skipped; assumption.
  - apply absent_bucket_skipped; assumption.
  - eapply absent_database_skipped; eassumption.
Qed.

(** C3. With dry_run set, whatever the force flag, cleanup goes from its
    banner straight into the phases, every provider call it makes is a
    listing or describing call and none is a mutating one, and the discovery
    phase is the same computation as that of a live cleaner: from the same
    state it makes the same calls, prints the same lines and leaves the same
    discovered lists. *)
Theorem dry_run_is_read_only :
  forall (self : Config) (force : bool) (a : Attrs) (w : World),
    dry_run self = true ->
    let res := cleanup self force (a, w) in
    res = cleanup_phases self
            (a, mkWorld (cloud w) (trace w) (stdout w ++ banner_lines self (now w))
                        (stdin w) (now w)) /\
    (exists l,
        trace (snd (snd res)) = (trace w ++ l)%list /\
        forallb (fun x => listing (fst x)) l = true /\
        forallb (fun x => negb (mutating (fst x))) l = true) /\
    (forall (a0 : Attrs) (w0 : World),
        _discover_resources self (a0, w0)
        = _discover_resources (with_dry_run false self) (a0, w0)).
Proof.
  intros self force a w Hdry. cbv zeta. split; [|split].
  - rewrite cleanup_after_banner, Hdry, andb_false_r. reflexivity.
  - destruct (dry_run_calls_listing self force Hdry (a, w)) as [l [T F]].
    exists l. split; [exact T|]. split; [exact F|].
    apply listing_not_mutating. exact F.
  - intros a0 w0. reflexivity.
Qed.

(** C7, amended. When neither the force flag nor dry_run is set, cleanup
    prompts for the environment name after its banner and its warning,
    whatever happens next; and when the line typed differs from the
    environment name it prints "Cleanup cancelled" and returns: no provider
    call is made, the provider state and the attributes of the cleaner are
    unchanged, and no phase runs. *)
Theorem confirmation_gate_when_live_and_unforced :
  forall (self : Config) (a : Attrs) (w : World),
    dry_run self = false ->
    let res := cleanup self false (a, w) in
    let asked :=
      (stdout w ++ banner_lines self (now w) ++ warning_lines self
         ++ [Prompt (confirmation_prompt self)])%list in
    (exists out, stdout (snd (snd res)) = (asked ++ out)%list) /\
    (forall (typed : string) (rest : list string),
        stdin w = typed :: rest ->
        typed <> environment self ->
        res = (Ok tt,
               (a, mkWorld (cloud w) (trace w)
                           (asked ++ [Line (warning_text "Cleanup cancelled")])
                           rest (now w)))).
Proof.
  intros self a w Hdry. cbv zeta.
  rewrite (cleanup_at_prompt self a w Hdry).
  split.
  - destruct (stdin w) as [|typed rest].
    + exists []. cbn [fst snd stdout]. symmetry. apply app_nil_r.
    + destruct (negb (String.eqb typed (environment self))).
      * exists [Line (warning_text "Cleanup cancelled")]. reflexivity.
      * match goal with |- context [cleanup_phases self ?s] =>
          destruct (phases_only_print_more self s) as [l Hl] end.
        exists l. exact Hl.
  - intros typed rest Hin Hne.
    rewrite Hin.
    apply String.eqb_neq in Hne. rewrite Hne. reflexivity.
Qed.

(** C9. The Glue phase leaves every attribute of the cleaner as it was, so
    it appends nothing to the error list of the summary. In the job block,
    and likewise in the crawler block, a delete call that fails is the last
    call the block makes: no later job (crawler) is touched. When the
    failure is an Exception the block returns normally and the last line it
    prints is the warning "Could not clean Glue jobs" ("... crawlers") with
    the text of the exception. *)
Theorem glue_failure_aborts_rest_and_only_warns :
  forall (self : Config) (a : Attrs) (w : World),
    fst (snd (_cleanup_glue_resources self (a, w))) = a /\
    (let res := _cleanup_glue_jobs self (job_prefix self) (a, w) in
     exists l,
       trace (snd (snd res)) = (trace w ++ l)%list /\
       stops_at_failure is_delete_job l /\
       forall job e,
         In (DeleteJob job, Raise e) l -> is_Exception e = true ->
         fst res = Ok tt /\
         exists out,
           stdout (snd (snd res))
           = (out ++ [Line (warning_text ("Could not clean Glue jobs: "
                                          ++ exn_str e))])%list) /\
    (let res := _cleanup_glue_crawlers self (job_prefix self) (a, w) in
     exists l,
       trace (snd (snd res)) = (trace w ++ l)%list /\
       stops_at_failure is_delete_crawler l /\
       forall crawler e,
         In (DeleteCrawler crawler, Raise e) l -> is_Exception e = true ->
         fst res = Ok tt /\
         exists out,
           stdout (snd (snd res))
           = (out ++ [Line (warning_text ("Could not clean Glue crawlers: "
                                          ++ exn_str e))])%list).
Proof.
  intros self a w. split; [|split].
  - exact (glue_keeps_attrs self (a, w)).
  - cbv zeta.
    destruct (warned_block is_delete_job
                (bind (call GetJobs) (fun response =>
                   for_each (field_names_or_empty response)
                            (delete_glue_job self (job_prefix self))))
                "Deleting Glue jobs..." "Could not clean Glue jobs: " (a, w))
      as [l [T [Hstop Hwarn]]].
    { apply aborts_bind; [apply aborts_call | intros response].
      apply aborts_for_each. intros job. apply delete_glue_job_aborts. }
    exists l. split; [exact T|]. split; [exact Hstop|].
    intros job e Hin He. exact (Hwarn (DeleteJob job) e Hin eq_refl He).
  - cbv zeta.
    destruct (warned_block is_delete_crawler
                (bind (call GetCrawlers) (fun response =>
                   for_each (field_names_or_empty response)
                            (delete_glue_crawler self (job_prefix self))))
                "Deleting Glue crawlers..." "Could not clean Glue crawlers: " (a, w))
      as [l [T [Hstop Hwarn]]].
    { apply aborts_bind; [apply aborts_call | intros response].
      apply aborts_for_each. intros crawler. apply delete_glue_crawler_aborts. }
    exists l. split; [exact T|]. split; [exact Hstop|].
    intros crawler e Hin He. exact (Hwarn (DeleteCrawler crawler) e Hin eq_refl He).
Qed.

End Claims.

(** ** Concrete runs *)

(** In an account that holds nothing of the project, a live teardown skips
    the main stack, an orphaned bucket and the catalog database. *)
Lemma deleting_absent_resource_witness :
  let self := Fake.dev_cleaner false in
  let w := Fake.session [] [] in
  let stack := "housing-market-intel-dev-main" in
  let bucket := "housing-market-intel-dev-raw-123456789012" in
  let db := "housing-market-intel_dev_db" in
  dry_run self = false /\
  for_each [stack] (delete_stack self) (Fake.fresh_attrs, w)
  = for_each [] (delete_stack self)
      (Fake.fresh_attrs,
       advance w [] [(DescribeStacks stack, Raise (Fake.stack_missing stack))]
               [Line (info_text ("Deleting stack: " ++ stack));
                Line (info_text ("  Stack not found: " ++ stack))]) /\
  for_each [bucket] (delete_orphaned_bucket self) (Fake.fresh_attrs, w)
  = for_each [] (delete_orphaned_bucket self)
      (Fake.fresh_attrs,
       advance w [] [(DeleteBucket bucket, Raise Fake.bucket_missing)]
               [Line (info_text ("  Bucket already deleted: " ++ bucket))]) /\
  _cleanup_glue_database self db (Fake.fresh_attrs, w)
  = (Ok tt,
     (Fake.fresh_attrs,
      advance w [] [(GetTables db, Raise (Fake.database_missing db));
                    (DeleteDatabase db, Raise (Fake.database_missing db))]
              [Line (info_text ("Deleting Glue database: " ++ db));
               Line (info_text ("  Database not found: " ++ db))])).
Proof.
  cbv zeta.
  pose proof (deleting_absent_resource_is_reported_as_info
                (P := Fake.scripted) (Fake.dev_cleaner false) eq_refl)
    as [Hstack [Hbucket Hdb]].
  split; [reflexivity|]. split; [|split].
  - exact (Hstack "housing-market-intel-dev-main" [] Fake.fresh_attrs
                  (Fake.session [] []) _ [] eq_refl eq_refl).
  - exact (Hbucket "housing-market-intel-dev-raw-123456789012" [] Fake.fresh_attrs
                   (Fake.session [] []) _ [] eq_refl eq_refl).
  - exact (Hdb "housing-market-intel_dev_db" Fake.fresh_attrs
               (Fake.session [] []) _ _ [] [] eq_refl eq_refl eq_refl).
Defined.

(** A dry run against the populated account makes listing calls only. *)
Lemma dry_run_is_read_only_witness :
  let self := Fake.dev_cleaner true in
  let w := Fake.session Fake.populated [] in
  dry_run self = true /\
  exists l,
    trace (snd (snd (cleanup self false (Fake.fresh_attrs, w)))) = (trace w ++ l)%list /\
    forallb (fun x => listing (fst x)) l = true /\
    forallb (fun x => negb (mutating (fst x))) l = true.
Proof.
  cbv zeta. split; [reflexivity|].
  exact (proj1 (proj2 (dry_run_is_read_only
                         (P := Fake.scripted) (Fake.dev_cleaner true) false
                         Fake.fresh_attrs (Fake.session Fake.populated []) eq_refl))).
Defined.

(** The calls of that dry run, and the three lines of the dry-run example of
    the specification; no bucket is recorded as emptied. *)
Example dry_run_on_populated_account :
  let res := cleanup (Fake.dev_cleaner true) false
                     (Fake.fresh_attrs, Fake.session Fake.populated []) in
  map fst (trace (snd (snd res)))
  = [ListBuckets;
     DescribeLogGroups "/aws/glue/housing-market-intel";
     DescribeLogGroups "/aws/lambda/housing-market-intel";
     DescribeLogGroups "/aws/opensearch/housing-market-intel";
     DescribeStacks "housing-market-intel-dev-appflow";
     DescribeStacks "housing-market-intel-dev-main";
     GetJobs; GetCrawlers] /\
  buckets_to_delete (fst (snd res))
  = Some ["housing-market-intel-dev-raw-123456789012";
          "housing-market-intel-dev-processed-123456789012";
          "housing-market-intel-dev-artifacts-123456789012"] /\
  length (filter (fun o => match o with
                           | Line s => String.prefix "  [DRY RUN] Would empty bucket" s
                           | Prompt _ => false
                           end)
                 (stdout (snd (snd res)))) = 3%nat /\
  buckets_emptied (cleanup_summary (fst (snd res))) = [].
Proof. vm_compute. repeat split. Qed.

(** C7, as stated, fails: with dry_run set and force not set the operator is
    never prompted, the line waiting on the terminal (which is not the
    environment name) is not read, and the phases run. *)
Lemma dry_run_without_force_is_not_gated :
  let res := cleanup (Fake.dev_cleaner true) false
                     (Fake.fresh_attrs, Fake.session Fake.populated ["prod"]) in
  environment (Fake.dev_cleaner true) = "dev" /\
  prompted (stdout (snd (snd res))) = false /\
  stdin (snd (snd res)) = ["prod"] /\
  printed (header_text "PHASE 1: Resource Discovery") (stdout (snd (snd res))) = true /\
  printed (header_text "CLEANUP SUMMARY") (stdout (snd (snd res))) = true /\
  length (trace (snd (snd res))) = 8%nat /\
  fst res = Ok tt.
Proof. vm_compute. repeat split. Qed.

(** Typing "prod" at the prompt of a live, unforced dev teardown cancels it. *)
Lemma confirmation_gate_witness :
  let self := Fake.dev_cleaner false in
  let w := Fake.session Fake.populated ["prod"] in
  dry_run self = false /\
  stdin w = ["prod"] /\
  "prod" <> environment self /\
  cleanup self false (Fake.fresh_attrs, w)
  = (Ok tt,
     (Fake.fresh_attrs,
      mkWorld (cloud w) (trace w)
              ((stdout w ++ banner_lines (P := Fake.scripted) self (now w)
                  ++ warning_lines self ++ [Prompt (confirmation_prompt self)])
                 ++ [Line (warning_text "Cleanup cancelled")])
              [] (now w))).
Proof.
  cbv zeta.
  assert (Hne : "prod" <> environment (Fake.dev_cleaner false))
    by (intros H; discriminate H).
  split; [reflexivity|]. split; [reflexivity|]. split; [exact Hne|].
  exact (proj2 (confirmation_gate_when_live_and_unforced
                  (P := Fake.scripted) (Fake.dev_cleaner false) Fake.fresh_attrs
                  (Fake.session Fake.populated ["prod"]) eq_refl)
               "prod" [] eq_refl Hne).
Defined.

(** A live teardown of the populated account: deleting the second job is
    denied, so the third job is never touched; likewise the second crawler
    after the first; both failures are warnings and the error list of the
    summary stays empty. *)
Example glue_failures_on_populated_account :
  let res := _cleanup_glue_resources (Fake.dev_cleaner false)
               (Fake.fresh_attrs, Fake.session Fake.populated []) in
  map (fun x => (fst x, is_failure x)) (trace (snd (snd res)))
  = [(GetJobs, false);
     (DeleteJob "housing-market-intel-dev-ingest", false);
     (DeleteJob "housing-market-intel-dev-transform", true);
     (GetCrawlers, false);
     (StopCrawler "housing-market-intel-dev-raw-crawler", false);
     (DeleteCrawler "housing-market-intel-dev-raw-crawler", true);
     (GetTables "housing-market-intel_dev_db", false);
     (DeleteTable "housing-market-intel_dev_db" "listings", false);
     (DeleteTable "housing-market-intel_dev_db" "tax_records", false);
     (DeleteDatabase "housing-market-intel_dev_db", false)] /\
  errors (cleanup_summary (fst (snd res))) = [] /\
  printed (warning_text ("Could not clean Glue jobs: "
                         ++ exn_str (Fake.access_denied "DeleteJob")))
          (stdout (snd (snd res))) = true /\
  printed (warning_text ("Could not clean Glue crawlers: "
                         ++ exn_str (Fake.access_denied "DeleteCrawler")))
          (stdout (snd (snd res))) = true.
Proof. vm_compute. repeat split. Qed.

End CleanupSpec.

(* ================================================================== *)
(** * Properties of the deployment (deploy.py) *)
(* ================================================================== *)

Module DeployFacts.
Import Py Sys Deploy SysFacts.

Section Facts.
Context {P : Platform}.

Lemma print_header_returns {S : Type} (message : string) (s : S * World) :
  print_header message s = (Ok tt, snd (print_header message s)).
Proof. destruct s as [a [p t out i n]]. reflexivity. Qed.

(** With confirmation skipped, [deploy] prints its banner and enters the
    [try] block. *)
Lemma deploy_unconfirmed (config : Config) (w : World) :
  deploy config true (tt, w)
  = deploy_phases config
      (tt, mkWorld (cloud w) (trace w)
             (stdout w ++
              [Line (nl ++ header_rule);
               Line (header_text "HOUSING MARKET INTELLIGENCE PLATFORM DEPLOYMENT");
               Line (header_rule ++ nl);
               Line ("Environment: " ++ environment config);
               Line ("Region: " ++ region config);
               Line ("Account: " ++ account_id config);
               Line ("Timestamp: " ++ isoformat (now w))])
             (stdin w) (now w)).
Proof.
  destruct w as [p t out i n]. cbn [cloud trace stdout stdin now].
  unfold deploy, print_header, print. cbn [negb].
  autorewrite with run. rewrite <- !app_assoc. reflexivity.
Qed.

End Facts.

(** ** Phase 5 and the summary *)

Section Phase5.
Context {P : Platform}.

Lemma run_bind_inv_ok {S A B : Type} (m : M S A) (k : A -> M S B) (s s'' : S * World)
      (y : B) :
  bind m k s = (Ok y, s'') ->
  exists x s', m s = (Ok x, s') /\ k x s' = (Ok y, s'').
Proof.
  unfold bind. destruct (m s) as [[x|e] s'].
  - intros H. exists x, s'. split; [reflexivity | exact H].
  - intros H. discriminate H.
Qed.

Lemma run_call_inv_ok {S : Type} (c : Call) (s s' : S * World) (x : Response) :
  call c s = (Ok x, s') ->
  fst s' = fst s /\
  trace (snd s') = (trace (snd s) ++ [(c, Ok x)])%list /\
  stdout (snd s') = stdout (snd s).
Proof.
  destruct s as [a [p t out i n]]. unfold call. cbn [fst snd cloud trace stdout stdin now].
  destruct (respond c p) as [[r|e] p1]; intros H; [|discriminate H].
  injection H as -> <-. repeat split.
Qed.

Lemma run_print {S : Type} (text : string) (s : S * World) :
  print text s
  = (Ok tt, (fst s, advance (snd s) (cloud (snd s)) [] [Line text])).
Proof.
  destruct s as [a [p t out i n]]. unfold print, emit, on_world, advance.
  cbn [fst snd cloud trace stdout stdin now]. rewrite app_nil_r. reflexivity.
Qed.

Lemma print_header_run {S : Type} (message : string) (s : S * World) :
  print_header message s
  = (Ok tt, (fst s, advance (snd s) (cloud (snd s)) [] (header_lines message))).
Proof.
  destruct s as [a [p t out i n]]. unfold print_header, print, advance, header_lines.
  autorewrite with run. rewrite run_emit.
  cbn [fst snd cloud trace stdout stdin now]. rewrite app_nil_r, <- !app_assoc. reflexivity.
Qed.

Lemma print_outputs_run (outputs : dict string) (s : unit * World) :
  for_each outputs (fun '(key, value) => print ("  " ++ key ++ ": " ++ value)) s
  = (Ok tt,
     (fst s, advance (snd s) (cloud (snd s)) []
               (map (fun '(key, value) => Line ("  " ++ key ++ ": " ++ value)) outputs))).
Proof.
  revert s. induction outputs as [|[key value] rest IH]; intros [a [p t out i n]].
  - cbn [for_each map]. unfold ret, advance. cbn [fst snd cloud trace stdout stdin now].
    rewrite !app_nil_r. reflexivity.
  - cbn [for_each map]. unfold print at 1. rewrite run_bind_emit.
    rewrite IH. unfold advance. cbn [fst snd cloud trace stdout stdin now].
    rewrite !app_nil_r, <- app_assoc. reflexivity.
Qed.

Lemma print_summary_run (outputs : dict string) (s : unit * World) :
  _print_summary outputs s
  = (Ok tt, (fst s, advance (snd s) (cloud (snd s)) [] (summary_lines outputs))).
Proof.
  destruct s as [a [p t out i n]]. unfold _print_summary, print at 1 2.
  autorewrite with run.
  unfold bind at 1. rewrite print_outputs_run.
  unfold advance, print. cbn [fst snd cloud trace stdout stdin now].
  autorewrite with run. rewrite run_emit.
  unfold summary_lines. rewrite !app_nil_r, <- !app_assoc. reflexivity.
Qed.

(** The uploads of the Glue scripts, when none fails. *)
Lemma glue_uploads_run (bucket : string) (scripts : list string) (s s' : unit * World) :
  for_each scripts (fun script =>
    call (UploadFile script bucket ("scripts/" ++ path_name script)) ;; ret tt) s
  = (Ok tt, s') ->
  exists uploads,
    trace (snd s') = (trace (snd s) ++ uploads)%list /\
    stdout (snd s') = stdout (snd s) /\
    map fst uploads
    = map (fun script => UploadFile script bucket ("scripts/" ++ path_name script)) scripts /\
    all_answered uploads.
Proof.
  revert s. induction scripts as [|script rest IH]; intros s.
  - cbn [for_each]. unfold ret. intros H. injection H as <-.
    exists []. rewrite app_nil_r. repeat split. constructor.
  - cbn [for_each]. intros H.
    apply run_bind_inv_ok in H. destruct H as [[] [s1 [H1 H2]]].
    apply run_bind_inv_ok in H1. destruct H1 as [x [s1' [Hc Hr]]].
    unfold ret in Hr. injection Hr as <-.
    destruct (run_call_inv_ok _ _ _ _ Hc) as [_ [T O]].
    destruct (IH s1' H2) as [uploads [T' [O' [M' A']]]].
    exists ((UploadFile script bucket ("scripts/" ++ path_name script), Ok x) :: uploads).
    split; [rewrite T', T, <- app_assoc; reflexivity|].
    split; [rewrite O', O; reflexivity|].
    split; [cbn [map fst]; rewrite M'; reflexivity|].
    constructor; [exists x; reflexivity | exact A'].
Qed.

Lemma field_bool_inv {S : Type} (r : Response) (s s' : S * World) (b : bool) :
  field_bool r s = (Ok b, s') -> r = RBool b /\ s' = s.
Proof.
  destruct r; cbn [field_bool]; unfold ret, raise; intros H;
    try discriminate H. injection H as -> <-. split; reflexivity.
Qed.

Lemma field_names_inv {S : Type} (key : string) (r : Response) (s s' : S * World)
      (l : list string) :
  field_names key r s = (Ok l, s') -> r = RNames l /\ s' = s.
Proof.
  destruct r; cbn [field_names]; unfold ret, raise; intros H;
    try discriminate H. injection H as -> <-. split; reflexivity.
Qed.

(** [_upload_glue_scripts_to_bucket] with a scripts bucket, when nothing
    fails. *)
Lemma upload_glue_scripts_run (config : Config) (outputs : dict string)
      (s s' : unit * World) :
  String.eqb (scripts_bucket_of outputs) "" = false ->
  _upload_glue_scripts_to_bucket config outputs s = (Ok tt, s') ->
  let bucket := bucket_name_of (scripts_bucket_of outputs) in
  let glue_dir := path_join (build_dir config) "glue" in
  (trace (snd s') = (trace (snd s) ++ [(PathExists glue_dir, Ok (RBool false))])%list /\
   stdout (snd s') = stdout (snd s))
  \/
  (exists scripts uploads,
      trace (snd s')
      = (trace (snd s) ++ (PathExists glue_dir, Ok (RBool true))
           :: (Glob glue_dir "*.py", Ok (RNames scripts)) :: uploads)%list /\
      map fst uploads
      = map (fun script => UploadFile script bucket ("scripts/" ++ path_name script))
            scripts /\
      all_answered uploads /\
      stdout (snd s')
      = (stdout (snd s)
           ++ [Line (success_text "Glue scripts uploaded to scripts bucket")])%list).
Proof.
  intros Hb. cbv zeta. unfold _upload_glue_scripts_to_bucket. rewrite Hb. cbn [negb].
  intros H.
  apply run_bind_inv_ok in H. destruct H as [exists_ [s1 [H1 H2]]].
  apply run_bind_inv_ok in H1. destruct H1 as [r [s0 [Hc Hf]]].
  apply field_bool_inv in Hf. destruct Hf as [-> ->].
  destruct (run_call_inv_ok _ _ _ _ Hc) as [_ [T1 O1]].
  destruct exists_.
  - right.
    apply run_bind_inv_ok in H2. destruct H2 as [r2 [s2 [Hc2 H2]]].
    destruct (run_call_inv_ok _ _ _ _ Hc2) as [_ [T2 O2]].
    apply run_bind_inv_ok in H2. destruct H2 as [scripts [s3 [Hf H2]]].
    apply field_names_inv in Hf. destruct Hf as [-> ->].
    apply run_bind_inv_ok in H2. destruct H2 as [[] [s4 [Hloop Hp]]].
    destruct (glue_uploads_run _ _ _ _ Hloop) as [uploads [T3 [O3 [M3 A3]]]].
    unfold print_success in Hp. rewrite run_print in Hp. injection Hp as <-.
    exists scripts, uploads. cbn [fst snd advance trace stdout].
    unfold advance. cbn [trace stdout].
    split; [rewrite app_nil_r, T3, T2, T1, <- !app_assoc; reflexivity|].
    split; [exact M3|]. split; [exact A3|].
    rewrite O3, O2, O1. reflexivity.
  - left. unfold ret in H2. injection H2 as <-. split; assumption.
Qed.

(** [_upload_lambda_code_to_bucket] with a scripts bucket, when the upload
    is answered. *)
Lemma upload_lambda_code_run (outputs : dict string) (lambda_zip : string)
      (s s' : unit * World) :
  String.eqb (scripts_bucket_of outputs) "" = false ->
  _upload_lambda_code_to_bucket outputs lambda_zip s = (Ok tt, s') ->
  exists r,
    trace (snd s')
    = (trace (snd s)
         ++ [(UploadFile lambda_zip (bucket_name_of (scripts_bucket_of outputs))
                         "lambda/rag_query_handler.zip", Ok r)])%list /\
    stdout (snd s') = (stdout (snd s) ++ [Line (success_text "Lambda code uploaded")])%list.
Proof.
  intros Hb. unfold _upload_lambda_code_to_bucket. rewrite Hb. cbn [negb].
  intros H.
  apply run_bind_inv_ok in H. destruct H as [r [s1 [Hc Hp]]].
  destruct (run_call_inv_ok _ _ _ _ Hc) as [_ [T1 O1]].
  unfold print_success in Hp. rewrite run_print in Hp. injection Hp as <-.
  exists r. unfold advance. cbn [fst snd trace stdout].
  split; [rewrite app_nil_r, T1; reflexivity | rewrite O1; reflexivity].
Qed.

(** Without a scripts bucket the two uploads do nothing. *)
Lemma uploads_without_bucket (config : Config) (outputs : dict string)
      (lambda_zip : string) (s : unit * World) :
  String.eqb (scripts_bucket_of outputs) "" = true ->
  _upload_glue_scripts_to_bucket config outputs s = (Ok tt, s) /\
  _upload_lambda_code_to_bucket outputs lambda_zip s = (Ok tt, s).
Proof.
  intros Hb. unfold _upload_glue_scripts_to_bucket, _upload_lambda_code_to_bucket.
  rewrite Hb. split; reflexivity.
Qed.

(** Phase 5 and the summary, when they complete. *)
Lemma post_deployment_run (config : Config) (outputs : dict string) (lambda_zip : string)
      (s s' : unit * World) :
  deploy_post_deployment config outputs lambda_zip s = (Ok tt, s') ->
  exists calls out,
    trace (snd s') = (trace (snd s) ++ calls)%list /\
    stdout (snd s')
    = (stdout (snd s) ++ header_lines "PHASE 5: Post-Deployment Configuration" ++ out)%list /\
    post_deployment_completed config outputs lambda_zip calls out.
Proof.
  unfold deploy_post_deployment. intros H.
  rewrite (run_bind_ok _ _ _ _ _ (print_header_run _ s)) in H.
  apply run_bind_inv_ok in H. destruct H as [[] [s1 [Hglue H]]].
  apply run_bind_inv_ok in H. destruct H as [[] [s2 [Hlambda H]]].
  rewrite (run_bind_ok _ _ _ _ _ (print_header_run _ s2)) in H.
  rewrite print_summary_run in H. injection H as <-.
  unfold post_deployment_completed.
  unfold advance. cbn [fst snd cloud trace stdout stdin now].
  destruct (String.eqb (scripts_bucket_of outputs) "") eqn:Hb.
  - destruct (uploads_without_bucket config outputs lambda_zip
                (fst s, advance (snd s) (cloud (snd s)) []
                          (header_lines "PHASE 5: Post-Deployment Configuration")) Hb)
      as [Hg Hl].
    rewrite Hg in Hglue. injection Hglue as <-.
    rewrite Hl in Hlambda. injection Hlambda as <-.
    unfold advance. cbn [fst snd cloud trace stdout stdin now].
    exists [], (header_lines "DEPLOYMENT COMPLETE" ++ summary_lines outputs)%list.
    rewrite !app_nil_r, <- !app_assoc. repeat split.
  - destruct (upload_lambda_code_run _ _ _ _ Hb Hlambda) as [r [T2 O2]].
    destruct (upload_glue_scripts_run _ _ _ _ Hb Hglue) as [[T1 O1] | Hup].
    + unfold advance in T1, O1. cbn [fst snd cloud trace stdout stdin now] in T1, O1.
      exists [(PathExists (path_join (build_dir config) "glue"), Ok (RBool false));
              (UploadFile lambda_zip (bucket_name_of (scripts_bucket_of outputs))
                          "lambda/rag_query_handler.zip", Ok r)],
             (Line (success_text "Lambda code uploaded")
              :: header_lines "DEPLOYMENT COMPLETE" ++ summary_lines outputs)%list.
      rewrite !app_nil_r.
      split; [rewrite T2, T1, app_nil_r, <- !app_assoc; reflexivity|].
      split; [rewrite O2, O1, <- !app_assoc; reflexivity|].
      exists r. left. split; reflexivity.
    + destruct Hup as [scripts [uploads [T1 [M1 [A1 O1]]]]].
      unfold advance in T1, O1. cbn [fst snd cloud trace stdout stdin now] in T1, O1.
      exists ((PathExists (path_join (build_dir config) "glue"), Ok (RBool true))
              :: (Glob (path_join (build_dir config) "glue") "*.py", Ok (RNames scripts))
              :: uploads
              ++ [(UploadFile lambda_zip (bucket_name_of (scripts_bucket_of outputs))
                              "lambda/rag_query_handler.zip", Ok r)])%list,
             (Line (success_text "Glue scripts uploaded to scripts bucket")
              :: Line (success_text "Lambda code uploaded")
              :: header_lines "DEPLOYMENT COMPLETE" ++ summary_lines outputs)%list.
      rewrite !app_nil_r.
      split; [rewrite T2, T1, app_nil_r, <- !app_assoc; reflexivity|].
      split; [rewrite O2, O1, <- !app_assoc; reflexivity|].
      exists r. right. exists scripts, uploads.
      split; [reflexivity|]. split; [exact M1|]. split; [exact A1 | reflexivity].
Qed.

(** Phase 5 starts by looking for the built Glue scripts when there is a
    scripts bucket, whatever happens next. *)
Lemma post_deployment_first_call (config : Config) (outputs : dict string)
      (lambda_zip : string) (s : unit * World) :
  String.eqb (scripts_bucket_of outputs) "" = false ->
  exists r rest,
    trace (snd (snd (deploy_post_deployment config outputs lambda_zip s)))
    = (trace (snd s) ++ (PathExists (path_join (build_dir config) "glue"), r) :: rest)%list.
Proof.
  intros Hb. unfold deploy_post_deployment.
  rewrite (run_bind_ok _ _ _ _ _ (print_header_run _ s)).
  unfold _upload_glue_scripts_to_bucket. rewrite Hb. cbn [negb].
  rewrite !run_bind_assoc.
  destruct s as [a [p t out i n]]. unfold advance. cbn [fst snd cloud trace stdout stdin now].
  rewrite app_nil_r.
  destruct (respond (PathExists (path_join (build_dir config) "glue")) p) as [[r|e] p1] eqn:Hr.
  - rewrite (run_bind_call_ok _ _ _ _ _ _ _ _ _ _ Hr).
    match goal with
    | |- context [snd (?m (a, ?w))] =>
        assert (Hrest : respects (calls_within (fun _ => true)) m)
          by (unfold _upload_lambda_code_to_bucket, _print_summary;
              auto 40 with respects);
        destruct (Hrest (a, w)) as [l [T _]]
    end.
    exists (Ok r), l. rewrite T. cbn [snd trace].
    rewrite <- app_assoc. reflexivity.
  - rewrite (run_bind_call_raise _ _ _ _ _ _ _ _ _ _ Hr).
    exists (Raise e), []. reflexivity.
Qed.

Lemma post_deployment_grows (config : Config) (outputs : dict string)
      (lambda_zip : string) (s : unit * World) :
  exists calls out,
    trace (snd (snd (deploy_post_deployment config outputs lambda_zip s)))
    = (trace (snd s) ++ calls)%list /\
    stdout (snd (snd (deploy_post_deployment config outputs lambda_zip s)))
    = (stdout (snd s) ++ header_lines "PHASE 5: Post-Deployment Configuration" ++ out)%list.
Proof.
  unfold deploy_post_deployment.
  rewrite (run_bind_ok _ _ _ _ _ (print_header_run _ s)).
  match goal with
  | |- context [snd (?m ?s0)] =>
      assert (Hc : respects (calls_within (fun _ => true)) m)
        by (unfold _upload_glue_scripts_to_bucket, _upload_lambda_code_to_bucket,
              _print_summary; auto 40 with respects);
      assert (Ho : respects stdout_grows m)
        by (unfold _upload_glue_scripts_to_bucket, _upload_lambda_code_to_bucket,
              _print_summary; auto 40 with respects);
      destruct (Hc s0) as [calls [T _]]; destruct (Ho s0) as [out O]
  end.
  exists calls, out. rewrite T, O. unfold advance. cbn [snd trace stdout].
  rewrite app_nil_r, <- app_assoc. split; reflexivity.
Qed.

(** Phase 5 and the summary inside the [try] of [deploy]. *)
Lemma post_deployment_observed (config : Config) (outputs : dict string)
      (lambda_zip : string) (s : unit * World) :
  let res := try_except (deploy_post_deployment config outputs lambda_zip)
                        deploy_failed s in
  exists calls out,
    trace (snd (snd res)) = (trace (snd s) ++ calls)%list /\
    stdout (snd (snd res))
    = (stdout (snd s) ++ header_lines "PHASE 5: Post-Deployment Configuration" ++ out)%list /\
    (scripts_bucket_of outputs <> "" ->
     exists r rest,
       calls = (PathExists (path_join (build_dir config) "glue"), r) :: rest) /\
    (fst res = Ok tt -> post_deployment_completed config outputs lambda_zip calls out) /\
    (forall e, fst res = Raise e -> is_Exception e = true ->
               exists before,
                 out = (before ++ [Line (error_text ("Deployment failed: " ++ exn_str e))])%list).
Proof.
  cbv zeta.
  destruct (post_deployment_grows config outputs lambda_zip s) as [calls [out [T O]]].
  assert (Hfirst : scripts_bucket_of outputs <> "" ->
                   exists r rest,
                     calls = (PathExists (path_join (build_dir config) "glue"), r) :: rest).
  { intros Hne.
    destruct (String.eqb (scripts_bucket_of outputs) "") eqn:Hb;
      [apply String.eqb_eq in Hb; contradiction|].
    destruct (post_deployment_first_call config outputs lambda_zip s Hb) as [r [rest T']].
    exists r, rest. rewrite T in T'. exact (app_inv_head _ _ _ T'). }
  unfold try_except.
  destruct (deploy_post_deployment config outputs lambda_zip s) as [[[]|e] s'] eqn:Hbody.
  - cbn [fst snd] in *.
    destruct (post_deployment_run _ _ _ _ _ Hbody) as [calls' [out' [T' [O' Hdone]]]].
    rewrite T in T'. apply app_inv_head in T'. subst calls'.
    rewrite O in O'. apply app_inv_head, app_inv_head in O'. subst out'.
    exists calls, out. split; [exact T|]. split; [exact O|]. split; [exact Hfirst|].
    split; [intros _; exact Hdone | intros e He; discriminate He].
  - cbn [fst snd] in T, O. unfold deploy_failed, except.
    destruct (is_Exception e) eqn:He.
    + unfold print_error. rewrite (run_bind_ok _ _ _ _ _ (run_print _ s')).
      unfold raise, advance. cbn [fst snd cloud trace stdout stdin now].
      exists calls, (out ++ [Line (error_text ("Deployment failed: " ++ exn_str e))])%list.
      split; [rewrite app_nil_r; exact T|].
      split; [rewrite O, <- !app_assoc; reflexivity|]. split; [exact Hfirst|].
      split; [intros H; discriminate H|].
      intros e' H _. injection H as <-. exists out. reflexivity.
    + cbn [fst snd]. exists calls, out.
      split; [exact T|]. split; [exact O|]. split; [exact Hfirst|].
      split; [intros H; discriminate H|].
      intros e' H He'. injection H as <-. rewrite He in He'. discriminate He'.
Qed.

End Phase5.

End DeployFacts.

Module DeploySpec.
Import Py Sys Deploy SysFacts DeployFacts.

Section Claims.
Context {P : Platform}.

(** C1. When the template is read and describe_stacks answers (the stack
    exists), a ClientError from update_stack makes deploy_stack return
    whether the text of the error contains "No updates are to be performed":
    True with the informational line "No updates needed" when it does, False
    with the error line "Stack deployment failed" when it does not, whatever
    the error code. True is also what a completed update returns. *)
Theorem deploy_stack_classifies_failed_update_by_message :
  forall (stack_name template_path : string) (parameters : dict string)
         (capabilities : option (list string)) (w : World)
         (template_body : string) (described : Response) (p1 p2 p3 : pstate),
    respond (ReadFile template_path) (cloud w) = (Ok (RStr template_body), p1) ->
    respond (DescribeStacks stack_name) p1 = (Ok described, p2) ->
    let update :=
      UpdateStack stack_name template_body (cfn_parameters_of parameters)
                  (capabilities_or_default capabilities) in
    let calls_before :=
      [(ReadFile template_path, Ok (RStr template_body));
       (DescribeStacks stack_name, Ok described)] in
    let lines_before :=
      [Line (info_text ("Deploying stack: " ++ stack_name));
       Line (info_text ("Updating existing stack: " ++ stack_name))] in
    (forall e : exn,
        respond update p2 = (Raise e, p3) ->
        is_ClientError e = true ->
        deploy_stack stack_name template_path parameters capabilities (tt, w)
        = (Ok (contains "No updates are to be performed" (exn_str e)),
           (tt, advance w p3 (calls_before ++ [(update, Raise e)])
                  (lines_before ++
                   [Line (if contains "No updates are to be performed" (exn_str e)
                          then info_text ("No updates needed for stack: " ++ stack_name)
                          else error_text ("Stack deployment failed: " ++ exn_str e))])))) /\
    (forall (updated waited : Response) (p4 : pstate),
        respond update p2 = (Ok updated, p3) ->
        respond (WaiterWait "stack_update_complete" stack_name 30 60) p3
        = (Ok waited, p4) ->
        deploy_stack stack_name template_path parameters capabilities (tt, w)
        = (Ok true,
           (tt, advance w p4
                  (calls_before ++
                   [(update, Ok updated);
                    (WaiterWait "stack_update_complete" stack_name 30 60, Ok waited)])
                  (lines_before ++
                   [Line (info_text "Waiting for stack operation to complete...");
                    Line (success_text ("Stack " ++ stack_name
                                        ++ " deployed successfully"))])))).
Proof.
  intros stack_name template_path parameters capabilities w template_body described
         p1 p2 p3 Hread Hdesc. cbv zeta.
  destruct w as [p t out i n]. cbn [cloud] in Hread.
  split.
  - intros e Hupd He.
    unfold deploy_stack, deploy_stack_failed, field_str, no_updates_text, advance,
      print_info, print_error, print_success, print.
    unfold bind, try_except, except, emit, on_world, call, ret.
    cbv beta iota zeta delta [fst snd cloud trace stdout stdin now].
    rewrite Hread. cbv beta iota zeta delta [fst snd cloud trace stdout stdin now].
    rewrite Hdesc. cbv beta iota zeta delta [fst snd cloud trace stdout stdin now].
    rewrite Hupd. cbv beta iota zeta delta [fst snd cloud trace stdout stdin now].
    rewrite He.
    destruct (contains "No updates are to be performed" (exn_str e));
      cbv beta iota zeta delta [fst snd cloud trace stdout stdin now];
      rewrite <- !app_assoc; reflexivity.
  - intros updated waited p4 Hupd Hwait.
    unfold deploy_stack, deploy_stack_failed, field_str, no_updates_text, advance,
      print_info, print_error, print_success, print.
    unfold bind, try_except, except, emit, on_world, call, ret.
    cbv beta iota zeta delta [fst snd cloud trace stdout stdin now].
    rewrite Hread. cbv beta iota zeta delta [fst snd cloud trace stdout stdin now].
    rewrite Hdesc. cbv beta iota zeta delta [fst snd cloud trace stdout stdin now].
    rewrite Hupd. cbv beta iota zeta delta [fst snd cloud trace stdout stdin now].
    rewrite Hwait. cbv beta iota zeta delta [fst snd cloud trace stdout stdin now].
    rewrite <- !app_assoc. reflexivity.
Qed.


End Claims.

(** ** Concrete runs *)

(** Redeploying against unchanged stacks: the main update reports "No
    updates are to be performed" and counts as success, the rejected AppFlow
    template counts as failure. *)
Lemma deploy_stack_classifies_witness :
  let w := Fake.session Fake.redeploy [] in
  let main := "housing-market-intel-dev-main" in
  let appflow := "housing-market-intel-dev-appflow" in
  let template := "/repo/cloudformation/main-infrastructure.yaml" in
  let parameters := main_parameters Fake.dev_config in
  respond (ReadFile template) (cloud w)
  = (Ok (RStr "AWSTemplateFormatVersion: '2010-09-09'"), Fake.redeploy) /\
  is_ClientError Fake.no_updates_error = true /\
  is_ClientError Fake.template_error = true /\
  fst (deploy_stack main template parameters None (tt, w)) = Ok true /\
  fst (deploy_stack appflow template parameters None (tt, w)) = Ok false.
Proof.
  cbv zeta.
  split; [reflexivity|]. split; [reflexivity|]. split; [reflexivity|]. split.
  - rewrite (proj1 (deploy_stack_classifies_failed_update_by_message
                      (P := Fake.scripted)
                      "housing-market-intel-dev-main"
                      "/repo/cloudformation/main-infrastructure.yaml"
                      (main_parameters Fake.dev_config) None
                      (Fake.session Fake.redeploy [])
                      "AWSTemplateFormatVersion: '2010-09-09'" _
                      Fake.redeploy Fake.redeploy Fake.redeploy eq_refl eq_refl)
                   Fake.no_updates_error eq_refl eq_refl).
    reflexivity.
  - rewrite (proj1 (deploy_stack_classifies_failed_update_by_message
                      (P := Fake.scripted)
                      "housing-market-intel-dev-appflow"
                      "/repo/cloudformation/main-infrastructure.yaml"
                      (main_parameters Fake.dev_config) None
                      (Fake.session Fake.redeploy [])
                      "AWSTemplateFormatVersion: '2010-09-09'" _
                      Fake.redeploy Fake.redeploy Fake.redeploy eq_refl eq_refl)
                   Fake.template_error eq_refl eq_refl).
    reflexivity.
Defined.


(** The whole redeployment: the AppFlow failure is printed, then Phase 5
    uploads to the scripts bucket and the summary follow, and deploy
    returns normally. *)
Example redeploy_completes_after_appflow_failure :
  let res := deploy Fake.dev_config true (tt, Fake.session Fake.redeploy []) in
  fst res = Ok tt /\
  printed (error_text ("Stack deployment failed: " ++ exn_str Fake.template_error))
          (stdout (snd (snd res))) = true /\
  printed (success_text "Lambda code uploaded") (stdout (snd (snd res))) = true /\
  printed (header_text "DEPLOYMENT COMPLETE") (stdout (snd (snd res))) = true /\
  printed "  5. Test API endpoint" (stdout (snd (snd res))) = true.
Proof. vm_compute. repeat split. Qed.

(** The calls of Phase 5 in the redeployment. *)
Example redeploy_uploads_after_appflow_failure :
  let res := deploy Fake.dev_config true (tt, Fake.session Fake.redeploy []) in
  let calls := trace (snd (snd res)) in
  let outputs := [("RawDataBucketName", "housing-market-intel-dev-raw-123456789012");
                  ("ProcessedDataBucketName",
                   "housing-market-intel-dev-processed-123456789012");
                  ("KMSKeyArn", "arn:aws:kms:us-east-1:123456789012:key/1")] in
  skipn (List.length calls - 5) calls
  = [(UpdateStack "housing-market-intel-dev-appflow"
                  "AWSTemplateFormatVersion: '2010-09-09'"
                  (cfn_parameters_of (appflow_parameters Fake.dev_config outputs))
                  ["CAPABILITY_NAMED_IAM"; "CAPABILITY_AUTO_EXPAND"],
      Raise Fake.template_error);
     (PathExists "/repo/build/glue", Ok (RBool true));
     (Glob "/repo/build/glue" "*.py", Ok (RNames ["/repo/build/glue/etl_job.py"]));
     (UploadFile "/repo/build/glue/etl_job.py"
                 "housing-market-intel-dev-glue-scripts-123456789012"
                 "scripts/etl_job.py", Ok RNone);
     (UploadFile "/repo/build/rag-query-handler.zip"
                 "housing-market-intel-dev-glue-scripts-123456789012"
                 "lambda/rag_query_handler.zip", Ok RNone)].
Proof.
  vm_compute. reflexivity.
Qed.

End DeploySpec.

(* ================================================================== *)
(** * More properties of the cost estimator *)
(* ================================================================== *)

Module CostEstimatorProps.
Import Py CostEstimator CostEstimatorSpec.
Open Scope Q_scope.

(** ** Shared facts *)

(** The twelve entries of [calculate_all_costs], when it returns. *)
Lemma all_costs_entries (self : t) (costs : dict ServiceCost) :
  calculate_all_costs self = Ok costs ->
  exists nat_gateway opensearch,
    _calculate_nat_gateway_costs self = Ok nat_gateway /\
    _calculate_opensearch_costs self = Ok opensearch /\
    costs = [("vpc", _calculate_vpc_costs);
             ("nat_gateway", nat_gateway);
             ("s3", _calculate_s3_costs self);
             ("kms", _calculate_kms_costs self);
             ("glue", _calculate_glue_costs self);
             ("appflow", _calculate_appflow_costs self);
             ("opensearch", opensearch);
             ("lambda", _calculate_lambda_costs self);
             ("api_gateway", _calculate_api_gateway_costs self);
             ("bedrock", _calculate_bedrock_costs self);
             ("cloudwatch", _calculate_cloudwatch_costs);
             ("secrets_manager", _calculate_secrets_manager_costs)].
Proof.
  unfold calculate_all_costs, rbind. intros Hall.
  destruct (_calculate_nat_gateway_costs self) as [nat_gateway|e]; [|discriminate Hall].
  destruct (_calculate_opensearch_costs self) as [opensearch|e]; [|discriminate Hall].
  exists nat_gateway, opensearch.
  split; [reflexivity|]. split; [reflexivity|].
  exact (f_equal (fun x => match x with Ok v => v | Raise _ => costs end) (eq_sym Hall)).
Qed.

(** ** The properties *)

(** X2. An estimator built for an environment other than dev, staging and
    prod cannot price anything: calculate_all_costs raises KeyError with the
    environment name (the lookup of the multiplier in the NAT-gateway
    formula), and so does generate_report. *)
Theorem unknown_environment_raises_KeyError :
  forall (env : string) (vol : DataVolume),
    env <> "dev" -> env <> "staging" -> env <> "prod" ->
    calculate_all_costs (init env vol) = Raise (KeyError env) /\
    generate_report (init env vol) = Raise (KeyError env).
Proof.
  intros env vol H1 H2 H3.
  assert (Hnat : _calculate_nat_gateway_costs (init env vol) = Raise (KeyError env)).
  { unfold _calculate_nat_gateway_costs, dict_get.
    cbn [env_multipliers environment init dict_find].
    apply not_eq_sym in H1, H2, H3.
    apply String.eqb_neq in H1, H2, H3. rewrite H1, H2, H3. reflexivity. }
  assert (Hall : calculate_all_costs (init env vol) = Raise (KeyError env)).
  { unfold calculate_all_costs. rewrite Hnat. reflexivity. }
  split; [exact Hall|].
  unfold generate_report. rewrite Hall. reflexivity.
Qed.

Lemma unknown_environment_witness :
  "qa" <> "dev" /\ "qa" <> "staging" /\ "qa" <> "prod" /\
  calculate_all_costs (init "qa" LOW) = Raise (KeyError "qa") /\
  generate_report (init "qa" LOW) = Raise (KeyError "qa").
Proof.
  assert (H1 : "qa" <> "dev") by discriminate.
  assert (H2 : "qa" <> "staging") by discriminate.
  assert (H3 : "qa" <> "prod") by discriminate.
  split; [exact H1|]. split; [exact H2|]. split; [exact H3|].
  exact (unknown_environment_raises_KeyError "qa" LOW H1 H2 H3).
Defined.

(** X5. The environment reaches two services only: for the same data-volume
    tier, two estimators built for any two environments return the same
    entry for every service other than nat_gateway and opensearch. *)
Theorem environment_only_changes_nat_gateway_and_opensearch :
  forall (env1 env2 : string) (vol : DataVolume) (costs1 costs2 : dict ServiceCost),
    calculate_all_costs (init env1 vol) = Ok costs1 ->
    calculate_all_costs (init env2 vol) = Ok costs2 ->
    forall name : string,
      name <> "nat_gateway" -> name <> "opensearch" ->
      dict_find costs1 name = dict_find costs2 name.
Proof.
  intros env1 env2 vol costs1 costs2 H1 H2 name Hn Ho.
  destruct (all_costs_entries _ _ H1) as [ng1 [os1 [_ [_ ->]]]].
  destruct (all_costs_entries _ _ H2) as [ng2 [os2 [_ [_ ->]]]].
  apply not_eq_sym, String.eqb_neq in Hn, Ho.
  cbn [dict_find]. rewrite Hn, Ho.
  reflexivity.
Qed.

Lemma environment_only_changes_witness :
  exists costs1 costs2,
    calculate_all_costs (init "dev" MEDIUM) = Ok costs1 /\
    calculate_all_costs (init "prod" MEDIUM) = Ok costs2 /\
    "bedrock" <> "nat_gateway" /\ "bedrock" <> "opensearch" /\
    dict_find costs1 "bedrock" = dict_find costs2 "bedrock".
Proof.
  do 2 eexists.
  split; [reflexivity|]. split; [reflexivity|].
  assert (Hn : "bedrock" <> "nat_gateway") by discriminate.
  assert (Ho : "bedrock" <> "opensearch") by discriminate.
  split; [exact Hn|]. split; [exact Ho|].
  exact (environment_only_changes_nat_gateway_and_opensearch
           "dev" "prod" MEDIUM _ _ eq_refl eq_refl "bedrock" Hn Ho).
Defined.

(** X6. Every command line the parser accepts is served: for each of the
    three environments and each of the three data-volume values, the value
    names a tier (and is the value of that tier), the estimator built from
    the two produces a report, and the report shows both in upper case. *)
Theorem accepted_arguments_produce_a_report :
  forall env value : string,
    In env environments -> In value data_volumes ->
    exists vol report,
      DataVolume_of_value value = Ok vol /\
      DataVolume_value vol = value /\
      generate_report (init env vol) = Ok report /\
      In [Lit (nl ++ "Environment: " ++ upper env)] report /\
      In [Lit ("Data Volume: " ++ upper value)] report.
Proof.
  intros env value Henv Hvol.
  unfold environments in Henv. unfold data_volumes in Hvol. cbn [In] in Henv, Hvol.
  destruct Henv as [<-|[<-|[<-|[]]]]; destruct Hvol as [<-|[<-|[<-|[]]]];
    (eexists; eexists;
     split; [reflexivity|];
     split; [reflexivity|];
     split; [reflexivity|];
     split; [do 3 right; left; reflexivity | do 4 right; left; reflexivity]).
Qed.

Lemma accepted_arguments_witness :
  In "staging" environments /\ In "high" data_volumes /\
  exists vol report,
    DataVolume_of_value "high" = Ok vol /\
    DataVolume_value vol = "high" /\
    generate_report (init "staging" vol) = Ok report /\
    In [Lit (nl ++ "Environment: " ++ upper "staging")] report /\
    In [Lit ("Data Volume: " ++ upper "high")] report.
Proof.
  assert (He : In "staging" environments) by (right; left; reflexivity).
  assert (Hv : In "high" data_volumes) by (right; right; left; reflexivity).
  split; [exact He|]. split; [exact Hv|].
  exact (accepted_arguments_produce_a_report "staging" "high" He Hv).
Defined.

End CostEstimatorProps.

(* ================================================================== *)
(** * More properties of the report in binary64 *)
(* ================================================================== *)

Module CostEstimator64Props.
Import Py Binary64 CostEstimator CostEstimator64 CostEstimator64Spec.
Import Floats.

(** X3. For each of the three environments and each tier, and under either
    summation algorithm: for every service that calculate_all_costs returns,
    the sum of its cost components equals its monthly cost, float for float;
    for the NAT gateway, whose components are hourly figures, the sum equals
    its hourly cost. *)
Theorem components_add_up_in_binary64 :
  forall (how : Summation) (env : string) (vol : DataVolume),
    In env environments ->
    exists costs : dict ServiceCost,
      calculate_all_costs (init env vol) = Ok costs /\
      List.length costs = 12%nat /\
      forall (name : string) (c : ServiceCost),
        In (name, c) costs ->
        (py_sum how (dict_values (cost_components c))
         =? (if String.eqb name "nat_gateway" then hourly_cost c else monthly_cost c))%float
        = true.
Proof.
  intros how env vol Henv.
  exists (match calculate_all_costs (init env vol) with Ok c => c | Raise _ => [] end).
  apply accepted_environment in Henv.
  destruct Henv as [-> | [-> | ->]]; destruct vol; destruct how;
    (split; [vm_compute; reflexivity|]);
    (split; [vm_compute; reflexivity|]);
    intros name c Hin;
    match goal with
    | Hin : In _ ?l |- (py_sum ?h _ =? _)%float = true =>
        assert (Hc : forallb (fun x =>
                                (py_sum h (dict_values (cost_components (snd x)))
                                 =? (if String.eqb (fst x) "nat_gateway"
                                     then hourly_cost (snd x)
                                     else monthly_cost (snd x)))%float) l = true)
          by (vm_compute; reflexivity);
        rewrite forallb_forall in Hc; exact (Hc _ Hin)
    end.
Qed.

(** X4. For each of the three environments and each tier, and under either
    summation algorithm: the three totals that the TOTAL line formats (the
    sums of the hourly, daily and monthly columns) are in proportion up to
    binary64 rounding, the daily total within 1e-9 of 24 times the hourly
    one and the monthly total within 1e-9 of 30 times the daily one; the
    line shows them rounded to four, two and two decimals, each figure
    within half a unit of its last digit. *)
Theorem total_line_is_proportional_up_to_rounding :
  forall (how : Summation) (env : string) (vol : DataVolume),
    In env environments ->
    exists (costs : dict ServiceCost) (report : list string) (h d m H D M : Q),
      calculate_all_costs (init env vol) = Ok costs /\
      generate_report how (init env vol) = Ok report /\
      exact (py_sum how (map hourly_cost (dict_values costs))) = Some h /\
      exact (py_sum how (map daily_cost (dict_values costs))) = Some d /\
      exact (py_sum how (map monthly_cost (dict_values costs))) = Some m /\
      (Qabs (d - 24 * h) <= 1 # 1000000000)%Q /\
      (Qabs (m - 30 * d) <= 1 # 1000000000)%Q /\
      printed_totals report = Some (H, D, M) /\
      (Qabs (H - h) <= 1 # 20000)%Q /\
      (Qabs (D - d) <= 1 # 200)%Q /\
      (Qabs (M - m) <= 1 # 200)%Q.
Proof.
  intros how env vol Henv.
  pose (costs := match calculate_all_costs (init env vol) with Ok c => c | Raise _ => [] end).
  pose (report := match generate_report how (init env vol) with Ok r => r | Raise _ => [] end).
  pose (value := fun x => match exact x with Some q => q | None => 0%Q end).
  pose (shown := match printed_totals report with
                 | Some v => v
                 | None => (0, 0, 0)%Q
                 end).
  exists costs, report,
    (value (py_sum how (map hourly_cost (dict_values costs)))),
    (value (py_sum how (map daily_cost (dict_values costs)))),
    (value (py_sum how (map monthly_cost (dict_values costs)))),
    (fst (fst shown)), (snd (fst shown)), (snd shown).
  subst costs report value shown.
  apply accepted_environment in Henv.
  destruct Henv as [-> | [-> | ->]]; destruct vol; destruct how;
    (split; [vm_compute; reflexivity|]);
    (split; [vm_compute; reflexivity|]);
    (split; [vm_compute; reflexivity|]);
    (split; [vm_compute; reflexivity|]);
    (split; [vm_compute; reflexivity|]);
    (split; [apply Qle_bool_imp_le; vm_compute; reflexivity|]);
    (split; [apply Qle_bool_imp_le; vm_compute; reflexivity|]);
    (split; [vm_compute; reflexivity|]);
    (split; [apply Qle_bool_imp_le; vm_compute; reflexivity|]);
    (split; [apply Qle_bool_imp_le; vm_compute; reflexivity|]);
    apply Qle_bool_imp_le; vm_compute; reflexivity.
Qed.

(** ** Concrete runs *)

(** The production estimate of the high tier. *)
Lemma components_add_up_witness :
  In "prod" environments /\
  exists costs : dict ServiceCost,
    calculate_all_costs (init "prod" HIGH) = Ok costs /\
    forall (name : string) (c : ServiceCost),
      In (name, c) costs ->
      (py_sum LeftToRight (dict_values (cost_components c))
       =? (if String.eqb name "nat_gateway" then hourly_cost c else monthly_cost c))%float
      = true.
Proof.
  assert (Henv : In "prod" environments) by (right; right; left; reflexivity).
  split; [exact Henv|].
  destruct (components_add_up_in_binary64 LeftToRight "prod" HIGH Henv)
    as [costs [Hc [_ Hall]]].
  exists costs. split; [exact Hc | exact Hall].
Defined.

(** The development estimate of the low tier shows 0.2458, 5.90 and
    177.00: in proportion before rounding, not as printed. *)
Lemma total_line_witness :
  In "dev" environments /\
  exists (report : list string) (h d m : Q),
    generate_report LeftToRight (init "dev" LOW) = Ok report /\
    printed_totals report = Some (0.2458, 5.90, 177.00)%Q /\
    (Qabs (d - 24 * h) <= 1 # 1000000000)%Q /\
    (Qabs (m - 30 * d) <= 1 # 1000000000)%Q /\
    (Qabs (0.2458 - h) <= 1 # 20000)%Q /\
    ~ (5.90 == 24 * 0.2458)%Q.
Proof.
  assert (Henv : In "dev" environments) by (left; reflexivity).
  split; [exact Henv|].
  destruct (total_line_is_proportional_up_to_rounding LeftToRight "dev" LOW Henv)
    as (costs & report & h & d & m & H & D & M
        & _ & Hr & _ & _ & _ & Hd & Hm & Hp & HH & _).
  exists report, h, d, m.
  pose (printed := match generate_report LeftToRight (init "dev" LOW) with
                   | Ok r => r
                   | Raise _ => []
                   end).
  assert (E : generate_report LeftToRight (init "dev" LOW) = Ok printed)
    by (vm_compute; reflexivity).
  assert (Hshown : printed_totals report = Some (0.2458, 5.90, 177.00)%Q).
  { rewrite E in Hr. injection Hr as <-. vm_compute. reflexivity. }
  rewrite Hshown in Hp. injection Hp as <- <- <-.
  split; [exact Hr|]. split; [exact Hshown|]. split; [exact Hd|]. split; [exact Hm|].
  split; [exact HH|].
  vm_compute. intros X. discriminate X.
Defined.

End CostEstimator64Props.

(* ================================================================== *)
(** * Invariants of runs *)
(* ================================================================== *)

Module InvariantFacts.
Import Py Sys SysFacts.

Section Preserved.
Context {P : Platform} {S : Type}.

(** A loop whose body respects [R] on the elements of the list. *)
Lemma respects_for_each_In (R : S * World -> S * World -> Prop) (R_pre : PreOrder R)
      {A : Type} (l : list A) (body : A -> M S unit) :
  (forall x, In x l -> respects R (body x)) -> respects R (for_each l body).
Proof.
  induction l as [|x l IH]; intros Hb; cbn [for_each].
  - apply respects_ret; exact R_pre.
  - apply respects_bind; [exact R_pre | apply Hb; left; reflexivity | intros _].
    apply IH. intros y Hy. apply Hb. right. exact Hy.
Qed.

Lemma preserves_preorder (Q : S -> Prop) : PreOrder (@preserves P S Q).
Proof.
  split.
  - intros s H. exact H.
  - intros a b c H1 H2 H. apply H2, H1, H.
Qed.

Lemma preserves_of_kept (Q : S -> Prop) {A : Type} (m : M S A) :
  respects attrs_kept m -> respects (preserves Q) m.
Proof. intros Hm s H. rewrite (Hm s). exact H. Qed.

Lemma preserves_emit (Q : S -> Prop) (o : Out) : respects (preserves Q) (@emit P S o).
Proof. apply preserves_of_kept, attrs_kept_emit. Qed.

Lemma preserves_call (Q : S -> Prop) (c : Call) : respects (preserves Q) (@call P S c).
Proof. apply preserves_of_kept, attrs_kept_call. Qed.

Lemma preserves_sleep (Q : S -> Prop) (n : nat) : respects (preserves Q) (@sleep P S n).
Proof. apply preserves_of_kept, attrs_kept_sleep. Qed.

Lemma preserves_input (Q : S -> Prop) (prompt : string) :
  respects (preserves Q) (@input P S prompt).
Proof. apply preserves_of_kept, attrs_kept_input. Qed.

Lemma preserves_set_attr (Q : S -> Prop) (f : S -> S) :
  (forall a, Q a -> Q (f a)) -> respects (preserves Q) (@set_attr P S f).
Proof. intros Hf s H. apply Hf, H. Qed.

Lemma establishes_set_attr (Q : S -> Prop) (f : S -> S) :
  (forall a, Q (f a)) -> establishes Q (@set_attr P S f).
Proof. intros Hf s x _. apply Hf. Qed.

(** The last step of a sequence establishes the property. *)
Lemma establishes_bind_last (Q : S -> Prop) {A B : Type} (m : M S A) (k : A -> M S B) :
  (forall a, establishes Q (k a)) -> establishes Q (bind m k).
Proof.
  intros Hk s x. unfold bind.
  destruct (m s) as [[a|e] s1]; cbn [fst snd]; [|discriminate].
  apply Hk.
Qed.

(** The first step establishes the property and the rest preserves it. *)
Lemma establishes_bind_first (Q : S -> Prop) {A B : Type} (m : M S A) (k : A -> M S B) :
  establishes Q m -> (forall a, respects (preserves Q) (k a)) -> establishes Q (bind m k).
Proof.
  intros Hm Hk s x. unfold bind.
  specialize (Hm s).
  destruct (m s) as [[a|e] s1]; cbn [fst snd] in *; [|discriminate].
  intros _. apply (Hk a s1). exact (Hm a eq_refl).
Qed.

Lemma establishes_try_except (Q : S -> Prop) {A : Type} (m : M S A)
      (h : exn -> option (M S A)) :
  establishes Q m -> (forall e k, h e = Some k -> establishes Q k) ->
  establishes Q (try_except m h).
Proof.
  intros Hm Hh s x. unfold try_except.
  specialize (Hm s).
  destruct (m s) as [[a|e] s1]; cbn [fst snd] in *.
  - intros _. exact (Hm a eq_refl).
  - destruct (h e) as [k|] eqn:Hk; cbn [fst snd]; [|discriminate].
    apply (Hh e k Hk).
Qed.

Lemma establishes_except (Q : S -> Prop) {A : Type} (p : exn -> bool) (body : exn -> M S A) :
  (forall e, establishes Q (body e)) ->
  forall e k, except p body e = Some k -> establishes Q k.
Proof.
  intros Hb e k. unfold except. destruct (p e); [|discriminate].
  intros H; injection H as <-. apply Hb.
Qed.

(** A first step that establishes what the rest needs. *)
Lemma respects_bind_established (R : S * World -> S * World -> Prop) (Q : S -> Prop)
      (R_pre : PreOrder R) {A B : Type} (m : M S A) (k : A -> M S B) :
  respects R m -> establishes Q m ->
  (forall a s, Q (fst s) -> R s (snd (k a s))) ->
  respects R (bind m k).
Proof.
  intros Hm Hq Hk s. unfold bind.
  specialize (Hm s). specialize (Hq s).
  destruct (m s) as [[a|e] s1]; cbn [fst snd] in *.
  - etransitivity; [exact Hm|]. apply Hk. exact (Hq a eq_refl).
  - exact Hm.
Qed.

End Preserved.

#[export] Hint Resolve preserves_preorder preserves_emit preserves_call preserves_sleep
  preserves_input : respects.
#[export] Hint Extern 1 (respects (preserves _) (set_attr _)) =>
  apply preserves_set_attr; let a := fresh "a" in let H := fresh "H" in
  intros a H; exact H : respects.

(** ** Runs that keep an invariant and raise within a class *)

Section Kept.
Context {P : Platform} {S : Type}.
Variable I : S -> Prop.

Lemma keeps_ret (X : exn -> Prop) {A : Type} (a : A) : keeps I X (@ret P S A a).
Proof. intros s H. split; [exact H | intros e He; discriminate He]. Qed.

Lemma keeps_raise (X : exn -> Prop) {A : Type} (e : exn) :
  X e -> keeps I X (@raise P S A e).
Proof. intros Hx s H. split; [exact H | intros e' He; injection He as <-; exact Hx]. Qed.

Lemma keeps_bind (X : exn -> Prop) {A B : Type} (m : M S A) (k : A -> M S B) :
  keeps I X m -> (forall a, keeps I X (k a)) -> keeps I X (bind m k).
Proof.
  intros Hm Hk s H. unfold bind.
  destruct (Hm s H) as [H1 E1].
  destruct (m s) as [[a|e] s1]; cbn [fst snd] in *.
  - apply Hk. exact H1.
  - split; [exact H1|]. intros e' He. injection He as <-. exact (E1 e eq_refl).
Qed.

Lemma keeps_for_each (X : exn -> Prop) {A : Type} (l : list A) (body : A -> M S unit) :
  (forall x, keeps I X (body x)) -> keeps I X (for_each l body).
Proof.
  intros Hb. induction l as [|x l IH]; cbn [for_each].
  - apply keeps_ret.
  - apply keeps_bind; [apply Hb | intros _; exact IH].
Qed.

Lemma keeps_try_except (X1 X : exn -> Prop) {A : Type} (m : M S A)
      (h : exn -> option (M S A)) :
  keeps I X1 m -> handles I X1 X h -> keeps I X (try_except m h).
Proof.
  intros Hm Hh s H. unfold try_except.
  destruct (Hm s H) as [H1 E1].
  destruct (m s) as [[a|e] s1]; cbn [fst snd] in *.
  - split; [exact H1 | intros e He; discriminate He].
  - specialize (Hh e (E1 e eq_refl)).
    destruct (h e) as [k|].
    + apply Hh. exact H1.
    + split; [exact H1 | intros e' He; injection He as <-; exact Hh].
Qed.

Lemma handles_except (X1 X : exn -> Prop) {A : Type} (p : exn -> bool)
      (body : exn -> M S A) :
  (forall e, keeps I X (body e)) ->
  (forall e, X1 e -> p e = false -> X e) ->
  handles I X1 X (except p body).
Proof.
  intros Hb Hn e He. unfold except. destruct (p e) eqn:Hp.
  - apply Hb.
  - exact (Hn e He Hp).
Qed.

Lemma handles_orelse_except (X1 X : exn -> Prop) {A : Type} (p : exn -> bool)
      (body : exn -> M S A) (h : exn -> option (M S A)) :
  (forall e, keeps I X (body e)) ->
  handles I X1 X h ->
  handles I X1 X (orelse (except p body) h).
Proof.
  intros Hb Hh e He. unfold orelse, except. destruct (p e).
  - apply Hb.
  - exact (Hh e He).
Qed.

(** Steps that leave the attributes alone and return. *)
Lemma keeps_emit (X : exn -> Prop) (o : Out) : keeps I X (@emit P S o).
Proof. intros s H. split; [exact H | intros e He; discriminate He]. Qed.

Lemma keeps_sleep (X : exn -> Prop) (n : nat) : keeps I X (@sleep P S n).
Proof. intros s H. split; [exact H | intros e He; discriminate He]. Qed.

Lemma keeps_get_attr (X : exn -> Prop) {A : Type} (f : S -> A) : keeps I X (get_attr f).
Proof. intros s H. split; [exact H | intros e He; discriminate He]. Qed.

Lemma keeps_set_attr (X : exn -> Prop) (f : S -> S) :
  (forall a, I a -> I (f a)) -> keeps I X (@set_attr P S f).
Proof. intros Hf s H. split; [apply Hf, H | intros e He; discriminate He]. Qed.

Lemma keeps_print_header (X : exn -> Prop) (message : string) :
  keeps I X (@print_header P S message).
Proof.
  unfold print_header, print.
  repeat (apply keeps_bind; [apply keeps_emit | intros _]). apply keeps_emit.
Qed.

(** Steps that raise [Exception]s. *)
Lemma keeps_field_names (key : string) (r : Response) :
  keeps I an_Exception (@field_names P S key r).
Proof. destruct r; first [apply keeps_ret | apply keeps_raise; reflexivity]. Qed.

Lemma keeps_field_pages (r : Response) : keeps I an_Exception (@field_pages P S r).
Proof. destruct r; first [apply keeps_ret | apply keeps_raise; reflexivity]. Qed.

Lemma keeps_field_stacks (r : Response) : keeps I an_Exception (@field_stacks P S r).
Proof. destruct r; first [apply keeps_ret | apply keeps_raise; reflexivity]. Qed.

Lemma keeps_first {A : Type} (l : list A) : keeps I an_Exception (@first P S A l).
Proof. destruct l; first [apply keeps_ret | apply keeps_raise; reflexivity]. Qed.

Lemma keeps_call (c : Call) :
  raises_exceptions_only P -> keeps I an_Exception (@call P S c).
Proof.
  intros Hp [a w] H. unfold call. cbn [fst snd].
  destruct (respond c (cloud w)) as [r p'] eqn:E. cbn [fst snd].
  split; [exact H|]. intros e He. subst r.
  exact (Hp c (cloud w) e p' E).
Qed.

End Kept.

Section Returning.
Context {P : Platform} {S : Type}.

(** A run that keeps [I] and raises nothing returns. *)
Lemma keeps_returns {A : Type} (I : S -> Prop) (m : M S A) (s : S * World) :
  keeps I no_exception m -> I (fst s) -> exists x, fst (m s) = Ok x.
Proof.
  intros Hm H. destruct (Hm s H) as [_ E].
  destruct (fst (m s)) as [x|e].
  - exists x. reflexivity.
  - destruct (E e eq_refl).
Qed.

(** A first step that returns and establishes the invariant of the rest. *)
Lemma keeps_established {A B : Type} (Q : S -> Prop) (m : M S A) (k : A -> M S B) :
  keeps (fun _ => True) no_exception m -> establishes Q m ->
  (forall a, keeps Q no_exception (k a)) ->
  keeps (fun _ => True) no_exception (bind m k).
Proof.
  intros Hm Hq Hk s _. split; [exact I|]. unfold bind.
  destruct (Hm s I) as [_ E]. specialize (Hq s).
  destruct (m s) as [[a|e] s1]; cbn [fst snd] in *.
  - apply (Hk a s1). exact (Hq a eq_refl).
  - destruct (E e eq_refl).
Qed.

End Returning.

Create HintDb keeps discriminated.

#[export] Hint Extern 1 (keeps _ _ (bind _ _)) =>
  apply keeps_bind; [ | intro; cbv beta zeta ] : keeps.
#[export] Hint Extern 1 (keeps _ _ (for_each _ _)) =>
  apply keeps_for_each; intro; cbv beta zeta : keeps.
#[export] Hint Extern 2 (keeps _ _ (if ?b then _ else _)) => destruct b : keeps.
#[export] Hint Extern 2 (keeps _ _ (match ?x with _ => _ end)) => destruct x : keeps.
#[export] Hint Extern 1 (keeps _ _ (try_except _ _)) =>
  apply (keeps_try_except _ an_Exception) : keeps.
#[export] Hint Extern 1 (handles _ _ _ (except _ _)) =>
  apply handles_except; [ intro; cbv beta zeta | ] : keeps.
#[export] Hint Extern 1 (handles _ _ _ (orelse (except _ _) _)) =>
  apply handles_orelse_except; [ intro; cbv beta zeta | ] : keeps.
#[export] Hint Extern 1 (keeps _ _ (set_attr _)) =>
  apply keeps_set_attr; let a := fresh "a" in let H := fresh "H" in
  intros a H; exact H : keeps.
#[export] Hint Extern 1 (keeps _ _ (print _)) => apply keeps_emit : keeps.
#[export] Hint Extern 1 (keeps _ _ (print_info _)) => apply keeps_emit : keeps.
#[export] Hint Extern 1 (keeps _ _ (print_success _)) => apply keeps_emit : keeps.
#[export] Hint Extern 1 (keeps _ _ (print_warning _)) => apply keeps_emit : keeps.
#[export] Hint Extern 1 (keeps _ _ (print_error _)) => apply keeps_emit : keeps.
#[export] Hint Extern 1 (no_exception _) =>
  unfold an_Exception in *; congruence : keeps.
#[export] Hint Resolve keeps_ret keeps_emit keeps_sleep keeps_get_attr keeps_print_header
  keeps_field_names keeps_field_pages keeps_field_stacks keeps_first : keeps.

End InvariantFacts.

(* ================================================================== *)
(** * More properties of the teardown (cleanup.py) *)
(* ================================================================== *)

Module CleanupProps.
Import Py Sys Cleanup SysFacts AbortFacts CleanupFacts InvariantFacts.
Open Scope py_scope.

(** ** Calls in scope *)

Section Scope.
Context {P : Platform}.
Variable self : Config.

Lemma scoped_refl (s : Attrs * World) : scoped self s s.
Proof.
  intros H. split; [exact H|].
  exact (@PreOrder_Reflexive _ _ (calls_within_preorder (in_scope self)) s).
Qed.

Lemma scoped_preorder : PreOrder (scoped self).
Proof.
  split.
  - exact scoped_refl.
  - intros a b c H1 H2 H.
    destruct (H1 H) as [Hb C1]. destruct (H2 Hb) as [Hc C2].
    split; [exact Hc|].
    exact (@PreOrder_Transitive _ _ (calls_within_preorder (in_scope self)) a b c C1 C2).
Qed.

Lemma scoped_of_kept {A : Type} (m : M Attrs A) :
  respects attrs_kept m -> respects (calls_within (in_scope self)) m ->
  respects (scoped self) m.
Proof.
  intros Hk Hc s H. split; [rewrite (Hk s); exact H | apply Hc].
Qed.

Lemma scoped_emit (o : Out) : respects (scoped self) (emit o).
Proof. apply scoped_of_kept; auto with respects. Qed.

Lemma scoped_sleep (n : nat) : respects (scoped self) (sleep n).
Proof. apply scoped_of_kept; auto with respects. Qed.

Lemma scoped_input (prompt : string) : respects (scoped self) (input prompt).
Proof. apply scoped_of_kept; auto with respects. Qed.

Lemma scoped_call (c : Call) :
  in_scope self c = true -> respects (scoped self) (call c).
Proof. intros Hc. apply scoped_of_kept; auto with respects. Qed.

Lemma scoped_set_cleanup_summary (f : Summary -> Summary) :
  respects (scoped self) (set_attr (set_cleanup_summary f)).
Proof.
  intros s H. split; [exact H|]. apply calls_within_set_attr.
Qed.

(** A loop over the discovered buckets meets buckets in scope only. *)
Lemma scoped_over_buckets (body : string -> M Attrs unit) :
  (forall b, startswith b (job_prefix self) = true -> respects (scoped self) (body b)) ->
  respects (scoped self)
    (bind (attr "buckets_to_delete" buckets_to_delete) (fun l => for_each l body)).
Proof.
  intros Hb [a w] H. unfold bind, attr. cbn [fst snd].
  destruct (buckets_to_delete a) as [l|] eqn:E.
  - apply (respects_for_each_In (scoped self) scoped_preorder l body); [|exact H].
    intros x Hx. apply Hb.
    destruct (proj1 H) as [l' [E' Hl]]. cbn [fst] in E'. rewrite E in E'.
    injection E' as <-.
    rewrite forallb_forall in Hl. exact (Hl x Hx).
  - apply scoped_refl. exact H.
Qed.

Lemma scoped_over_log_groups (body : string -> M Attrs unit) :
  (forall g, contains (environment self) g = true -> respects (scoped self) (body g)) ->
  respects (scoped self)
    (bind (attr "log_groups_to_delete" log_groups_to_delete) (fun l => for_each l body)).
Proof.
  intros Hb [a w] H. unfold bind, attr. cbn [fst snd].
  destruct (log_groups_to_delete a) as [l|] eqn:E.
  - apply (respects_for_each_In (scoped self) scoped_preorder l body); [|exact H].
    intros x Hx. apply Hb.
    destruct (proj2 H) as [l' [E' Hl]]. cbn [fst] in E'. rewrite E in E'.
    injection E' as <-.
    rewrite forallb_forall in Hl. exact (Hl x Hx).
  - apply scoped_refl. exact H.
Qed.

Hint Resolve scoped_preorder scoped_emit scoped_sleep scoped_input
  scoped_set_cleanup_summary : respects.
Hint Extern 1 (respects (scoped _) (call _)) =>
  apply scoped_call; cbn [in_scope] : respects.
Hint Extern 1 (respects _ (if ?b then _ else _)) =>
  let E := fresh "E" in destruct b eqn:E : respects.
Hint Resolve String.eqb_refl : respects.

Lemma scoped_empty_s3_buckets : respects (scoped self) (_empty_s3_buckets self).
Proof.
  unfold _empty_s3_buckets. apply scoped_over_buckets. intros b Hb.
  unfold empty_s3_bucket. auto 20 with respects.
Qed.

Lemma scoped_cleanup_glue_resources :
  respects (scoped self) (_cleanup_glue_resources self).
Proof.
  unfold _cleanup_glue_resources, _cleanup_glue_jobs, _cleanup_glue_crawlers,
    _cleanup_glue_database, delete_glue_job, delete_glue_crawler.
  auto 40 with respects.
Qed.

Lemma stack_name_in_scope (n : string) :
  In n (stack_names self) -> existsb (String.eqb n) (stack_names self) = true.
Proof.
  intros Hn. apply existsb_exists. exists n. split; [exact Hn | apply String.eqb_refl].
Qed.

Lemma scoped_delete_stacks : respects (scoped self) (_delete_stacks self).
Proof.
  unfold _delete_stacks.
  apply (respects_for_each_In (scoped self) scoped_preorder).
  intros n Hn. pose proof (stack_name_in_scope n Hn) as Hs.
  unfold delete_stack.
  assert (Hw : String.eqb "stack_delete_complete" "stack_delete_complete"
               && existsb (String.eqb n) (stack_names self) = true)
    by (rewrite Hs; reflexivity).
  auto 30 with respects.
Qed.

Lemma scoped_cleanup_orphaned_resources :
  respects (scoped self) (_cleanup_orphaned_resources self).
Proof.
  unfold _cleanup_orphaned_resources, _cleanup_orphaned_log_groups,
    _cleanup_orphaned_buckets.
  apply respects_bind; [exact scoped_preorder | | intros _].
  - apply respects_bind; [exact scoped_preorder | auto with respects | intros _].
    apply scoped_over_log_groups. intros g Hg.
    unfold delete_log_group. auto 20 with respects.
  - apply respects_bind; [exact scoped_preorder | auto with respects | intros _].
    apply scoped_over_buckets. intros b Hb.
    unfold delete_orphaned_bucket. auto 20 with respects.
Qed.

Lemma scoped_print_summary : respects (scoped self) (_print_summary self).
Proof. unfold _print_summary. auto 40 with respects. Qed.

(** Discovery: its calls, and the lists it leaves. *)

Lemma discovery_calls_in_scope :
  respects (calls_within (in_scope self)) (_discover_resources self).
Proof. unfold _discover_resources. auto 40 with respects. Qed.

Lemma discovery_calls_listing :
  respects (calls_within listing) (_discover_resources self).
Proof. unfold _discover_resources. auto 40 with respects. Qed.

Lemma discovery_keeps_summary (m : Summary) :
  respects (preserves (fun a => cleanup_summary a = m)) (_discover_resources self).
Proof. unfold _discover_resources. auto 40 with respects. Qed.

Lemma forallb_filter_same {A : Type} (f : A -> bool) (l : list A) :
  forallb f (filter f l) = true.
Proof.
  apply forallb_forall. intros x Hx. apply filter_In in Hx. exact (proj2 Hx).
Qed.

Lemma discovery_buckets_in_scope :
  establishes (buckets_in_scope self) (_discover_resources self).
Proof.
  unfold _discover_resources.
  apply establishes_bind_last; intros _.
  apply establishes_bind_first.
  - apply establishes_try_except.
    + apply establishes_bind_last; intros response.
      apply establishes_bind_last; intros buckets.
      apply establishes_bind_first.
      * apply establishes_set_attr. intros a. eexists. split; [reflexivity|].
        apply (forallb_filter_same (fun name => startswith name (job_prefix self))).
      * intros _. auto 20 with respects.
    + apply establishes_except. intros e.
      apply establishes_bind_last; intros _.
      apply establishes_set_attr. intros a. exists []. split; reflexivity.
  - intros _. auto 40 with respects.
Qed.

Lemma log_group_appended (lg : string) :
  contains (environment self) lg = true ->
  respects (preserves (log_groups_in_scope self))
    (bind (attr "log_groups_to_delete" log_groups_to_delete) (fun found =>
       set_attr (set_log_groups_to_delete (found ++ [lg])))).
Proof.
  intros Hlg [a w] H. unfold bind, attr, set_attr. cbn [fst snd].
  destruct (log_groups_to_delete a) as [found|] eqn:E; cbn [fst snd]; [|exact H].
  destruct H as [l [El Hl]]. cbn [fst] in El. rewrite E in El. injection El as <-.
  eexists. split; [reflexivity|].
  rewrite forallb_app, Hl. cbn. rewrite Hlg. reflexivity.
Qed.

Lemma discovery_log_groups_in_scope :
  establishes (log_groups_in_scope self) (_discover_resources self).
Proof.
  unfold _discover_resources.
  apply establishes_bind_last; intros _.
  apply establishes_bind_last; intros _.
  apply establishes_bind_last; intros _.
  apply establishes_bind_first.
  - apply establishes_try_except.
    + apply establishes_bind_first.
      * apply establishes_set_attr. intros a. exists []. split; reflexivity.
      * intros _.
        apply respects_bind; [apply preserves_preorder | | intros _; auto 20 with respects].
        apply respects_for_each; [apply preserves_preorder | intros prefix].
        apply respects_bind; [apply preserves_preorder | auto with respects | intros response].
        apply respects_bind; [apply preserves_preorder | auto with respects | intros pages].
        apply respects_for_each; [apply preserves_preorder | intros page].
        apply respects_for_each; [apply preserves_preorder | intros lg].
        destruct (contains (environment self) lg) eqn:E.
        -- apply log_group_appended. exact E.
        -- auto with respects.
    + apply establishes_except. intros e.
      apply establishes_bind_last; intros _.
      apply establishes_set_attr. intros a. exists []. split; reflexivity.
  - intros _. auto 40 with respects.
Qed.

Lemma discovery_establishes_scope :
  establishes (discovered_in_scope self) (_discover_resources self).
Proof.
  intros s x Hx. split.
  - exact (discovery_buckets_in_scope s x Hx).
  - exact (discovery_log_groups_in_scope s x Hx).
Qed.

Hint Resolve scoped_empty_s3_buckets scoped_cleanup_glue_resources scoped_delete_stacks
  scoped_cleanup_orphaned_resources scoped_print_summary : respects.

Lemma phases_calls_in_scope :
  respects (calls_within (in_scope self)) (cleanup_phases self).
Proof.
  unfold cleanup_phases.
  apply respects_try_except; [apply calls_within_preorder | | auto 20 with respects].
  apply respects_bind; [apply calls_within_preorder | auto with respects | intros _].
  apply (respects_bind_established _ (discovered_in_scope self)
                                   (calls_within_preorder (in_scope self))).
  - exact discovery_calls_in_scope.
  - exact discovery_establishes_scope.
  - intros u s Hs.
    match goal with
    | |- calls_within _ s (snd (?m s)) =>
        assert (Hrest : respects (scoped self) m) by auto 40 with respects
    end.
    exact (proj2 (Hrest s Hs)).
Qed.

Lemma cleanup_calls_in_scope (force : bool) :
  respects (calls_within (in_scope self)) (cleanup self force).
Proof.
  pose proof phases_calls_in_scope as Hphases.
  unfold cleanup. auto 40 with respects.
Qed.

End Scope.

(** ** A summary that tells the truth *)

Section Truthful.
Context {P : Platform}.

Lemma succeeded_app_l (c : Call) (l1 l2 : list (Call * result Response)) :
  succeeded c l1 -> succeeded c (l1 ++ l2).
Proof. intros [r H]. exists r. apply in_or_app. left. exact H. Qed.

Lemma succeeded_app_r (c : Call) (l1 l2 : list (Call * result Response)) :
  succeeded c l2 -> succeeded c (l1 ++ l2).
Proof. intros [r H]. exists r. apply in_or_app. right. exact H. Qed.

Lemma truthful_preorder : PreOrder truthful.
Proof.
  split.
  - intros s. exists []. split; [symmetry; apply app_nil_r|].
    repeat split; intros x Hx; left; exact Hx.
  - intros a b c [l1 [T1 [S1 [B1 G1]]]] [l2 [T2 [S2 [B2 G2]]]].
    exists (l1 ++ l2)%list. split; [rewrite T2, T1; symmetry; apply app_assoc|].
    repeat split.
    + intros n Hn. destruct (S2 n Hn) as [Hb | [Hd Hw]].
      * destruct (S1 n Hb) as [Ha | [Hd Hw]]; [left; exact Ha|].
        right. split; apply succeeded_app_l; assumption.
      * right. split; apply succeeded_app_r; assumption.
    + intros x Hx. destruct (B2 x Hx) as [Hb | Hd].
      * destruct (B1 x Hb) as [Ha | Hd]; [left; exact Ha|].
        right. apply succeeded_app_l; assumption.
      * right. apply succeeded_app_r; assumption.
    + intros x Hx. destruct (G2 x Hx) as [Hb | Hd].
      * destruct (G1 x Hb) as [Ha | Hd]; [left; exact Ha|].
        right. apply succeeded_app_l; assumption.
      * right. apply succeeded_app_r; assumption.
Qed.

(** A step that leaves the three lists of the summary as they were. *)
Lemma truthful_of_lists_kept (s s' : Attrs * World) (l : list (Call * result Response)) :
  trace (snd s') = (trace (snd s) ++ l)%list ->
  stacks_deleted (cleanup_summary (fst s')) = stacks_deleted (cleanup_summary (fst s)) ->
  buckets_emptied (cleanup_summary (fst s')) = buckets_emptied (cleanup_summary (fst s)) ->
  log_groups_deleted (cleanup_summary (fst s'))
  = log_groups_deleted (cleanup_summary (fst s)) ->
  truthful s s'.
Proof.
  intros T Hs Hb Hg. exists l. split; [exact T|].
  rewrite Hs, Hb, Hg. repeat split; intros x Hx; left; exact Hx.
Qed.

Lemma truthful_of_kept {A : Type} (m : M Attrs A) :
  respects attrs_kept m -> respects (calls_within (fun _ => true)) m ->
  respects truthful m.
Proof.
  intros Hk Hc s. destruct (Hc s) as [l [T _]].
  apply (truthful_of_lists_kept s _ l T); rewrite (Hk s); reflexivity.
Qed.

Lemma truthful_emit (o : Out) : respects truthful (emit o).
Proof. apply truthful_of_kept; auto with respects. Qed.

Lemma truthful_sleep (n : nat) : respects truthful (sleep n).
Proof. apply truthful_of_kept; auto with respects. Qed.

Lemma truthful_input (prompt : string) : respects truthful (input prompt).
Proof. apply truthful_of_kept; auto with respects. Qed.

Lemma truthful_call (c : Call) : respects truthful (call c).
Proof. apply truthful_of_kept; auto with respects. Qed.

Lemma truthful_set_buckets_to_delete (v : list string) :
  respects truthful (set_attr (set_buckets_to_delete v)).
Proof.
  intros s. apply (truthful_of_lists_kept s _ []); try reflexivity.
  symmetry; apply app_nil_r.
Qed.

Lemma truthful_set_log_groups_to_delete (v : list string) :
  respects truthful (set_attr (set_log_groups_to_delete v)).
Proof.
  intros s. apply (truthful_of_lists_kept s _ []); try reflexivity.
  symmetry; apply app_nil_r.
Qed.

Lemma truthful_append_errors (x : string) :
  respects truthful (set_attr (set_cleanup_summary (append_errors x))).
Proof.
  intros s. apply (truthful_of_lists_kept s _ []); try reflexivity.
  symmetry; apply app_nil_r.
Qed.

(** The three places that record a deletion, each with the calls before
    it. *)
Lemma truthful_stack_deleted (stack_name : string) :
  respects truthful
    (call (DeleteStack stack_name) ;;
     print_info ("  Waiting for stack deletion: " ++ stack_name) ;;
     call (WaiterWait "stack_delete_complete" stack_name 30 60) ;;
     print_success ("  Deleted stack: " ++ stack_name) ;;
     set_attr (set_cleanup_summary (append_stacks_deleted stack_name))).
Proof.
  intros [a [p t out i n]].
  unfold bind, call, print_info, print_success, print, emit, on_world, set_attr.
  cbn [fst snd cloud trace stdout stdin now].
  destruct (respond (DeleteStack stack_name) p) as [[r1|e1] p1];
    cbn [fst snd cloud trace stdout stdin now].
  - destruct (respond (WaiterWait "stack_delete_complete" stack_name 30 60) p1)
      as [[r2|e2] p2]; cbn [fst snd cloud trace stdout stdin now].
    + exists [(DeleteStack stack_name, Ok r1);
              (WaiterWait "stack_delete_complete" stack_name 30 60, Ok r2)].
      split; [rewrite <- app_assoc; reflexivity|].
      cbn [set_cleanup_summary cleanup_summary append_stacks_deleted stacks_deleted
           buckets_emptied log_groups_deleted].
      repeat split; try (intros x Hx; left; exact Hx).
      intros x Hx. apply in_app_or in Hx. destruct Hx as [Hx | [<- | []]].
      * left; exact Hx.
      * right. split; [exists r1; left; reflexivity | exists r2; right; left; reflexivity].
    + eapply truthful_of_lists_kept; cbn [fst snd trace]; try reflexivity.
      rewrite <- app_assoc; reflexivity.
  - eapply truthful_of_lists_kept; cbn [fst snd trace]; reflexivity.
Qed.

Lemma truthful_bucket_emptied (bucket_name : string) :
  respects truthful
    (call (DeleteObjectVersions bucket_name) ;;
     print_success ("  Emptied bucket: " ++ bucket_name) ;;
     set_attr (set_cleanup_summary (append_buckets_emptied bucket_name))).
Proof.
  intros [a [p t out i n]].
  unfold bind, call, print_success, print, emit, on_world, set_attr.
  cbn [fst snd cloud trace stdout stdin now].
  destruct (respond (DeleteObjectVersions bucket_name) p) as [[r1|e1] p1];
    cbn [fst snd cloud trace stdout stdin now].
  - exists [(DeleteObjectVersions bucket_name, Ok r1)].
    split; [reflexivity|].
    cbn [set_cleanup_summary cleanup_summary append_buckets_emptied stacks_deleted
         buckets_emptied log_groups_deleted].
    repeat split; try (intros x Hx; left; exact Hx).
    intros x Hx. apply in_app_or in Hx. destruct Hx as [Hx | [<- | []]].
    + left; exact Hx.
    + right. exists r1; left; reflexivity.
  - eapply truthful_of_lists_kept; cbn [fst snd trace]; reflexivity.
Qed.

Lemma truthful_log_group_deleted (log_group : string) :
  respects truthful
    (call (DeleteLogGroup log_group) ;;
     print_success ("  Deleted log group: " ++ log_group) ;;
     set_attr (set_cleanup_summary (append_log_groups_deleted log_group))).
Proof.
  intros [a [p t out i n]].
  unfold bind, call, print_success, print, emit, on_world, set_attr.
  cbn [fst snd cloud trace stdout stdin now].
  destruct (respond (DeleteLogGroup log_group) p) as [[r1|e1] p1];
    cbn [fst snd cloud trace stdout stdin now].
  - exists [(DeleteLogGroup log_group, Ok r1)].
    split; [reflexivity|].
    cbn [set_cleanup_summary cleanup_summary append_log_groups_deleted stacks_deleted
         buckets_emptied log_groups_deleted].
    repeat split; try (intros x Hx; left; exact Hx).
    intros x Hx. apply in_app_or in Hx. destruct Hx as [Hx | [<- | []]].
    + left; exact Hx.
    + right. exists r1; left; reflexivity.
  - eapply truthful_of_lists_kept; cbn [fst snd trace]; reflexivity.
Qed.

Hint Resolve truthful_preorder truthful_emit truthful_sleep truthful_input truthful_call
  truthful_set_buckets_to_delete truthful_set_log_groups_to_delete
  truthful_append_errors truthful_stack_deleted truthful_bucket_emptied
  truthful_log_group_deleted : respects.

Lemma cleanup_truthful (self : Config) (force : bool) :
  respects truthful (cleanup self force).
Proof.
  unfold cleanup, cleanup_phases, _discover_resources, _empty_s3_buckets,
    empty_s3_bucket, _cleanup_glue_resources, _cleanup_glue_jobs,
    _cleanup_glue_crawlers, _cleanup_glue_database, delete_glue_job,
    delete_glue_crawler, _delete_stacks, delete_stack,
    _cleanup_orphaned_resources, _cleanup_orphaned_log_groups,
    _cleanup_orphaned_buckets, delete_log_group, delete_orphaned_bucket,
    _print_summary.
  auto 60 with respects.
Qed.

(** In a dry run no step assigns the summary. *)
Lemma dry_run_keeps_summary (self : Config) (force : bool) (m : Summary) :
  dry_run self = true ->
  respects (preserves (fun a => cleanup_summary a = m)) (cleanup self force).
Proof.
  intros Hdry.
  unfold cleanup, cleanup_phases, _discover_resources, _empty_s3_buckets,
    empty_s3_bucket, _cleanup_glue_resources, _cleanup_glue_jobs,
    _cleanup_glue_crawlers, _cleanup_glue_database, delete_glue_job,
    delete_glue_crawler, _delete_stacks, delete_stack,
    _cleanup_orphaned_resources, _cleanup_orphaned_log_groups,
    _cleanup_orphaned_buckets, delete_log_group, delete_orphaned_bucket,
    _print_summary.
  rewrite Hdry. rewrite andb_false_r. cbv beta iota.
  auto 60 with respects.
Qed.

End Truthful.

(** ** A teardown that returns *)

Section Robust.
Context {P : Platform}.
Hypothesis provider_raises_exceptions : raises_exceptions_only P.
Hypothesis provider_describes_stacks : describes_stacks P.
Variable self : Config.

Lemma keeps_attr_any (I : Attrs -> Prop) {A : Type} (name : string)
      (f : Attrs -> option A) :
  keeps I an_Exception (attr name f).
Proof.
  intros s H. unfold attr. destruct (f (fst s)).
  - split; [exact H | intros e He; discriminate He].
  - split; [exact H | intros e He; injection He as <-; reflexivity].
Qed.

Lemma keeps_buckets_to_delete (X : exn -> Prop) :
  keeps discovered X (attr "buckets_to_delete" buckets_to_delete).
Proof.
  intros s H. unfold attr. destruct H as [[l Hl] Hg]. rewrite Hl.
  split; [split; [exists l; exact Hl | exact Hg] | intros e He; discriminate He].
Qed.

Lemma keeps_log_groups_to_delete (X : exn -> Prop) :
  keeps discovered X (attr "log_groups_to_delete" log_groups_to_delete).
Proof.
  intros s H. unfold attr. destruct H as [Hb [l Hl]]. rewrite Hl.
  split; [split; [exact Hb | exists l; exact Hl] | intros e He; discriminate He].
Qed.

(** The stack check of discovery. *)
Lemma keeps_stack_check (I : Attrs -> Prop) (stack_name : string) :
  keeps I no_exception
    (try_except
       (response <- call (DescribeStacks stack_name) ;;
        stacks <- field_stacks response ;;
        stack <- first stacks ;;
        print ("  " ++ stack_name ++ ": " ++ StackStatus stack))
       (except is_ClientError (fun _ =>
          print ("  " ++ stack_name ++ ": NOT FOUND")))).
Proof.
  intros [a [p t out i n]] H.
  pose proof (provider_describes_stacks stack_name p) as Hd.
  unfold try_except, bind, call, except. cbn [fst snd cloud].
  destruct (respond (DescribeStacks stack_name) p) as [[r|e] p1]; cbn [fst snd] in *.
  - destruct Hd as [d [l ->]]. cbn.
    split; [exact H | intros e He; discriminate He].
  - rewrite Hd. cbn. split; [exact H | intros e' He; discriminate He].
Qed.

Hint Resolve keeps_attr_any keeps_buckets_to_delete keeps_log_groups_to_delete
  keeps_stack_check : keeps.
Hint Extern 0 (keeps _ an_Exception (call _)) =>
  apply keeps_call; exact provider_raises_exceptions : keeps.

Lemma discovery_returns :
  keeps (fun _ => True) no_exception (_discover_resources self).
Proof. unfold _discover_resources. auto 40 with keeps. Qed.

Lemma discovery_assigns : establishes discovered (_discover_resources self).
Proof.
  intros s x Hx.
  destruct (discovery_establishes_scope self s x Hx) as [[lb [Hb _]] [lg [Hg _]]].
  split; [exists lb; exact Hb | exists lg; exact Hg].
Qed.

Lemma phases_raise_nothing :
  keeps (fun _ => True) no_exception (cleanup_phases self).
Proof.
  unfold cleanup_phases.
  apply (keeps_try_except _ no_exception).
  - apply keeps_bind; [apply keeps_print_header | intros _].
    apply (keeps_established discovered).
    + exact discovery_returns.
    + exact discovery_assigns.
    + intros _.
      unfold _empty_s3_buckets, empty_s3_bucket, _cleanup_glue_resources,
        _cleanup_glue_jobs, _cleanup_glue_crawlers, _cleanup_glue_database,
        delete_glue_job, delete_glue_crawler, _delete_stacks, delete_stack,
        _cleanup_orphaned_resources, _cleanup_orphaned_log_groups,
        _cleanup_orphaned_buckets, delete_log_group, delete_orphaned_bucket,
        _print_summary.
      auto 60 with keeps.
  - intros e [].
Qed.

Lemma phases_return (s : Attrs * World) : fst (cleanup_phases self s) = Ok tt.
Proof.
  destruct (keeps_returns (fun _ => True) (cleanup_phases self) s phases_raise_nothing I)
    as [[] Hx].
  exact Hx.
Qed.

End Robust.

(** The populated account, answering from its script, is such a
    provider. *)

Lemma dict_find_In {V : Type} (d : dict V) (k : string) (v : V) :
  dict_find d k = Some v -> In (k, v) d.
Proof.
  induction d as [|[k' v'] d IH]; cbn [dict_find]; [discriminate|].
  destruct (String.eqb k' k) eqn:E.
  - intros H; injection H as <-. apply String.eqb_eq in E. subst k'. left. reflexivity.
  - intros H. right. exact (IH H).
Qed.

Lemma unscripted_raises_client_errors (c : Call) (e : exn) :
  Fake.unscripted c = Raise e -> is_ClientError e = true.
Proof.
  destruct c; cbn [Fake.unscripted]; intros H; try discriminate H;
    injection H as <-; reflexivity.
Qed.

Lemma populated_raises_exceptions : raises_exceptions_only (Fake.fixed Fake.populated).
Proof.
  intros c p e p' H0.
  assert (H : match dict_find Fake.populated (Fake.call_key c) with
              | Some r => r
              | None => Fake.unscripted c
              end = Raise e) by exact (f_equal fst H0).
  clear H0.
  destruct (dict_find Fake.populated (Fake.call_key c)) as [r|] eqn:E.
  - subst r. apply dict_find_In in E. unfold Fake.populated in E. cbn [In] in E.
    repeat match type of E with
           | _ \/ _ => destruct E as [E|E]
           end;
      try contradiction; try discriminate E;
      injection E as _ <-; reflexivity.
  - apply unscripted_raises_client_errors in H.
    unfold is_Exception. unfold is_ClientError in H.
    destruct (exn_cls e); try discriminate H; reflexivity.
Qed.

Lemma populated_describes_stacks : describes_stacks (Fake.fixed Fake.populated).
Proof.
  intros n p. cbn [respond Fake.fixed fst Fake.call_key].
  destruct (dict_find Fake.populated ("cloudformation.describe_stacks:" ++ n))
    as [r|] eqn:E.
  - apply dict_find_In in E. unfold Fake.populated in E. cbn [In] in E.
    repeat match type of E with
           | _ \/ _ => destruct E as [E|E]
           end;
      try contradiction; try discriminate E;
      injection E as _ <-; do 2 eexists; reflexivity.
  - reflexivity.
Qed.

(** ** Phase 2, bucket by bucket *)

Section Emptying.
Context {P : Platform}.
Variable self : Config.

Lemma dry_run_emptying_loop (buckets : list string) :
  dry_run self = true ->
  forall (a : Attrs) (p : pstate) (t : list (Call * result Response)) (out : list Out)
         (i : list string) (n : nat),
    for_each buckets (empty_s3_bucket self) (a, mkWorld p t out i n)
    = (Ok tt, (a, mkWorld p t (out ++ flat_map dry_run_emptying_lines buckets) i n)).
Proof.
  intros Hdry. induction buckets as [|b rest IH]; intros a p t out i n.
  - cbn [for_each flat_map]. rewrite app_nil_r. reflexivity.
  - cbn [for_each flat_map]. unfold empty_s3_bucket at 1. rewrite Hdry.
    unfold print_info, print. autorewrite with run.
    rewrite IH. unfold dry_run_emptying_lines at 2. cbn [app].
    rewrite <- !app_assoc. reflexivity.
Qed.

(** One bucket of a live phase 2. *)
Lemma live_emptying_step (b : string) (a : Attrs) (p : pstate)
      (t : list (Call * result Response)) (out : list Out) (i : list string) (n : nat) :
  dry_run self = false ->
  empty_s3_bucket self b (a, mkWorld p t out i n)
  = match respond (DeleteObjectVersions b) p with
    | (Ok r, p1) =>
        (Ok tt,
         (set_cleanup_summary (append_buckets_emptied b) a,
          mkWorld p1 (t ++ [(DeleteObjectVersions b, Ok r)])
                  (out ++ [Line (info_text ("Emptying bucket: " ++ b));
                           Line (success_text ("  Emptied bucket: " ++ b))]) i n))
    | (Raise e, p1) =>
        if is_Exception e then
          (Ok tt,
           (set_cleanup_summary
              (append_errors ("Could not empty bucket " ++ b ++ ": " ++ exn_str e)) a,
            mkWorld p1 (t ++ [(DeleteObjectVersions b, Raise e)])
                    (out ++ [Line (info_text ("Emptying bucket: " ++ b));
                             Line (error_text ("  Could not empty bucket " ++ b ++ ": "
                                               ++ exn_str e))]) i n))
        else
          (Raise e,
           (a, mkWorld p1 (t ++ [(DeleteObjectVersions b, Raise e)])
                       (out ++ [Line (info_text ("Emptying bucket: " ++ b))]) i n))
    end.
Proof.
  intros Hdry. unfold empty_s3_bucket. rewrite Hdry.
  unfold print_info, print_success, print_error, print.
  unfold bind, try_except, except, emit, on_world, call, set_attr.
  cbv beta iota zeta delta [fst snd cloud trace stdout stdin now].
  destruct (respond (DeleteObjectVersions b) p) as [[r|e] p1];
    cbv beta iota zeta delta [fst snd cloud trace stdout stdin now].
  - rewrite <- app_assoc. reflexivity.
  - destruct (is_Exception e);
      cbv beta iota zeta delta [fst snd cloud trace stdout stdin now];
      [rewrite <- app_assoc|]; reflexivity.
Qed.

Lemma live_emptying_loop (buckets : list string) :
  dry_run self = false ->
  forall (a : Attrs) (w : World),
    let res := for_each buckets (empty_s3_bucket self) (a, w) in
    let before := cleanup_summary a in
    exists calls,
      trace (snd (snd res)) = (trace w ++ calls)%list /\
      buckets_to_delete (fst (snd res)) = buckets_to_delete a /\
      log_groups_to_delete (fst (snd res)) = log_groups_to_delete a /\
      (fst res = Ok tt ->
       map fst calls = map DeleteObjectVersions buckets /\
       cleanup_summary (fst (snd res))
       = mkSummary (stacks_deleted before)
                   (buckets_emptied before ++ emptied_by calls)
                   (log_groups_deleted before)
                   (errors before ++ emptying_errors calls)) /\
      (forall e, fst res = Raise e -> is_Exception e = false).
Proof.
  intros Hdry. cbv zeta.
  induction buckets as [|b rest IH]; intros a [p t out i n].
  - cbn [for_each]. exists []. cbn [ret fst snd trace].
    split; [symmetry; apply app_nil_r|]. split; [reflexivity|]. split; [reflexivity|].
    split.
    + intros _. split; [reflexivity|].
      cbn [emptied_by emptying_errors flat_map]. rewrite !app_nil_r.
      destruct (cleanup_summary a); reflexivity.
    + intros e He; discriminate He.
  - cbn [for_each]. unfold bind.
    rewrite (live_emptying_step b a p t out i n Hdry).
    destruct (respond (DeleteObjectVersions b) p) as [[r|e] p1]; cbv beta iota.
    + match goal with
      | |- context [for_each rest _ (?a1, ?w1)] =>
          destruct (IH a1 w1) as [calls [T [Kb [Kg [Hok Hraise]]]]]
      end.
      exists ((DeleteObjectVersions b, Ok r) :: calls).
      cbn [trace] in T |- *.
      split; [rewrite T, <- app_assoc; reflexivity|].
      split; [exact Kb|]. split; [exact Kg|]. split.
      * intros Hres. destruct (Hok Hres) as [Hcalls Hsum].
        split; [cbn [map fst]; rewrite Hcalls; reflexivity|].
        rewrite Hsum.
        cbn [set_cleanup_summary cleanup_summary append_buckets_emptied stacks_deleted
             buckets_emptied log_groups_deleted errors emptied_by emptying_errors
             flat_map app].
        rewrite <- app_assoc. reflexivity.
      * exact Hraise.
    + destruct (is_Exception e) eqn:He; cbv beta iota.
      * match goal with
        | |- context [for_each rest _ (?a1, ?w1)] =>
            destruct (IH a1 w1) as [calls [T [Kb [Kg [Hok Hraise]]]]]
        end.
        exists ((DeleteObjectVersions b, Raise e) :: calls).
        cbn [trace] in T |- *.
        split; [rewrite T, <- app_assoc; reflexivity|].
        split; [exact Kb|]. split; [exact Kg|]. split.
        -- intros Hres. destruct (Hok Hres) as [Hcalls Hsum].
           split; [cbn [map fst]; rewrite Hcalls; reflexivity|].
           rewrite Hsum.
           cbn [set_cleanup_summary cleanup_summary append_errors stacks_deleted
                buckets_emptied log_groups_deleted errors emptied_by emptying_errors
                flat_map app].
           rewrite <- app_assoc. reflexivity.
        -- exact Hraise.
      * exists [(DeleteObjectVersions b, Raise e)]. cbn [fst snd trace].
        split; [reflexivity|]. split; [reflexivity|]. split; [reflexivity|]. split.
        -- intros Hres; discriminate Hres.
        -- intros e' He'. injection He' as <-. exact He.
Qed.

End Emptying.

(** ** The properties *)

Section Properties.
Context {P : Platform}.

(** X7. Whatever the provider answers and whatever the flags, every call a
    run of cleanup makes is a listing or describing call or a deletion of
    something that carries the names of the cleaner: buckets emptied or
    deleted, and Glue jobs and crawlers stopped or deleted, start with
    "<project>-<environment>"; tables and the database are those of
    "<project>_<environment>_db"; stacks deleted and waited on are among
    stack_names; log groups deleted contain the environment name. *)
Theorem cleanup_only_touches_project_resources :
  forall (self : Config) (force : bool) (a : Attrs) (w : World),
    exists l,
      trace (snd (snd (cleanup self force (a, w)))) = (trace w ++ l)%list /\
      forall (c : Call) (r : result Response),
        In (c, r) l ->
        in_scope self c = true /\
        match c with
        | DeleteObjectVersions b | DeleteBucket b =>
            String.prefix (project_name self ++ "-" ++ environment self) b = true
        | DeleteJob n | StopCrawler n | DeleteCrawler n =>
            String.prefix (project_name self ++ "-" ++ environment self) n = true
        | GetTables d | DeleteTable d _ | DeleteDatabase d =>
            d = project_name self ++ "_" ++ environment self ++ "_db"
        | DeleteStack n | WaiterWait _ n _ _ => In n (stack_names self)
        | DeleteLogGroup g => contains (environment self) g = true
        | ListBuckets | GetJobs | GetCrawlers | DescribeLogGroups _ | DescribeStacks _ => True
        | _ => False
        end.
Proof.
  intros self force a w.
  destruct (cleanup_calls_in_scope self force (a, w)) as [l [T F]].
  exists l. split; [exact T|].
  intros c r Hin. rewrite forallb_forall in F. specialize (F _ Hin). cbn [fst] in F.
  split; [exact F|].
  destruct c; cbn [in_scope] in F; try discriminate F; try exact I; try exact F;
    try (apply String.eqb_eq; exact F).
  - apply existsb_exists in F. destruct F as [x [Hx E]].
    apply String.eqb_eq in E. subst x. exact Hx.
  - apply andb_true_iff in F. destruct F as [_ F].
    apply existsb_exists in F. destruct F as [x [Hx E]].
    apply String.eqb_eq in E. subst x. exact Hx.
Qed.

(** X8. The summary tells the truth about deletions: after any run of
    cleanup, a stack name in stacks_deleted that was not there before was
    deleted by a delete_stack call that succeeded and waited for by a wait
    that succeeded, both in this run; a bucket new in buckets_emptied was
    emptied by a successful call of this run; a log group new in
    log_groups_deleted was deleted by a successful call of this run. *)
Theorem summary_records_only_successful_deletions :
  forall (self : Config) (force : bool) (a : Attrs) (w : World),
    let res := cleanup self force (a, w) in
    let before := cleanup_summary a in
    let after := cleanup_summary (fst (snd res)) in
    exists l,
      trace (snd (snd res)) = (trace w ++ l)%list /\
      (forall n, In n (stacks_deleted after) ->
                 In n (stacks_deleted before) \/
                 ((exists r, In (DeleteStack n, Ok r) l) /\
                  (exists r, In (WaiterWait "stack_delete_complete" n 30 60, Ok r) l))) /\
      (forall b, In b (buckets_emptied after) ->
                 In b (buckets_emptied before) \/
                 exists r, In (DeleteObjectVersions b, Ok r) l) /\
      (forall g, In g (log_groups_deleted after) ->
                 In g (log_groups_deleted before) \/
                 exists r, In (DeleteLogGroup g, Ok r) l).
Proof.
  intros self force a w. cbv zeta.
  destruct (cleanup_truthful self force (a, w)) as [l [T [Hs [Hb Hg]]]].
  exists l. split; [exact T|]. split; [exact Hs|]. split; [exact Hb | exact Hg].
Qed.

(** X10. When discovery returns, both lists are assigned: every bucket
    selected starts with "<project>-<environment>" and every log group
    selected contains the environment name; the summary is what it was, and
    every call made was a listing or describing one. *)
Theorem discovery_selects_by_name :
  forall (self : Config) (a : Attrs) (w : World),
    let res := _discover_resources self (a, w) in
    fst res = Ok tt ->
    (exists buckets log_groups,
        buckets_to_delete (fst (snd res)) = Some buckets /\
        log_groups_to_delete (fst (snd res)) = Some log_groups /\
        (forall b, In b buckets ->
                   String.prefix (project_name self ++ "-" ++ environment self) b = true) /\
        (forall g, In g log_groups -> contains (environment self) g = true)) /\
    cleanup_summary (fst (snd res)) = cleanup_summary a /\
    exists l,
      trace (snd (snd res)) = (trace w ++ l)%list /\
      forallb (fun x => listing (fst x)) l = true.
Proof.
  intros self a w. cbv zeta. intros Hok.
  destruct (discovery_establishes_scope self (a, w) tt Hok)
    as [[buckets [Hb Fb]] [log_groups [Hg Fg]]].
  split; [|split].
  - exists buckets, log_groups.
    split; [exact Hb|]. split; [exact Hg|].
    rewrite forallb_forall in Fb, Fg. split; assumption.
  - exact (discovery_keeps_summary self (cleanup_summary a) (a, w) eq_refl).
  - exact (discovery_calls_listing self (a, w)).
Qed.

(** X11. In a dry run, phase 2 makes no call and changes no attribute: for
    each discovered bucket, in order, it prints the line "Emptying bucket"
    and the line "[DRY RUN] Would empty bucket", two lines per bucket, and
    returns. *)
Theorem dry_run_emptying_prints_two_lines_per_bucket :
  forall (self : Config) (a : Attrs) (w : World) (buckets : list string),
    dry_run self = true ->
    buckets_to_delete a = Some buckets ->
    _empty_s3_buckets self (a, w)
    = (Ok tt,
       (a, mkWorld (cloud w) (trace w)
             (stdout w ++ flat_map dry_run_emptying_lines buckets)
             (stdin w) (now w))) /\
    length (flat_map dry_run_emptying_lines buckets) = (2 * length buckets)%nat.
Proof.
  intros self a w buckets Hdry Hb. split.
  - destruct w as [p t out i n]. cbn [cloud trace stdout stdin now].
    unfold _empty_s3_buckets, bind at 1, attr. cbn [fst snd]. rewrite Hb.
    apply dry_run_emptying_loop. exact Hdry.
  - clear Hb. induction buckets as [|b rest IH]; [reflexivity|].
    cbn [flat_map length dry_run_emptying_lines app]. rewrite IH. lia.
Qed.

(** X12. In a live run, a bucket that cannot be emptied does not stop
    phase 2: when the phase returns, it has asked to empty every discovered
    bucket, in order and once each; buckets_emptied has grown by the buckets
    whose call succeeded and errors by one message per bucket whose call
    failed, the other two lists being what they were. The phase raises only
    what is not an Exception. *)
Theorem live_emptying_records_every_bucket :
  forall (self : Config) (a : Attrs) (w : World) (buckets : list string),
    dry_run self = false ->
    buckets_to_delete a = Some buckets ->
    let res := _empty_s3_buckets self (a, w) in
    let before := cleanup_summary a in
    exists calls,
      trace (snd (snd res)) = (trace w ++ calls)%list /\
      (fst res = Ok tt ->
       map fst calls = map DeleteObjectVersions buckets /\
       cleanup_summary (fst (snd res))
       = mkSummary (stacks_deleted before)
                   (buckets_emptied before ++ emptied_by calls)
                   (log_groups_deleted before)
                   (errors before ++ emptying_errors calls)) /\
      (forall e, fst res = Raise e -> is_Exception e = false).
Proof.
  intros self a w buckets Hdry Hb. cbv zeta.
  unfold _empty_s3_buckets, bind, attr. cbn [fst snd]. rewrite Hb.
  destruct (live_emptying_loop self buckets Hdry a w)
    as [calls [T [_ [_ [Hok Hraise]]]]].
  exists calls. split; [exact T|]. split; [exact Hok | exact Hraise].
Qed.

(** X13. Live and unforced, the line typed at the prompt is compared with
    the environment name as it is: when it is that name, cleanup goes on
    with the phases from the state the prompt left; when the input has
    ended, the EOFError of the prompt leaves cleanup, no call having been
    made and no attribute changed. *)
Theorem confirmation_accepts_the_exact_name_and_end_of_input_raises :
  forall (self : Config) (a : Attrs) (w : World),
    dry_run self = false ->
    let asked :=
      (stdout w ++ banner_lines self (now w) ++ warning_lines self
         ++ [Prompt (confirmation_prompt self)])%list in
    (stdin w = [] ->
     cleanup self false (a, w)
     = (Raise EOFError, (a, mkWorld (cloud w) (trace w) asked [] (now w)))) /\
    (forall rest : list string,
        stdin w = environment self :: rest ->
        cleanup self false (a, w)
        = cleanup_phases self (a, mkWorld (cloud w) (trace w) asked rest (now w))).
Proof.
  intros self a w Hdry. cbv zeta.
  rewrite (cleanup_at_prompt self a w Hdry).
  split.
  - intros ->. reflexivity.
  - intros rest ->. rewrite String.eqb_refl. reflexivity.
Qed.

(** X14. A dry run records nothing: whatever the provider answers, the
    summary after cleanup (the three lists of deletions and the list of
    errors) is the summary before it. *)
Theorem dry_run_records_nothing :
  forall (self : Config) (force : bool) (a : Attrs) (w : World),
    dry_run self = true ->
    cleanup_summary (fst (snd (cleanup self force (a, w)))) = cleanup_summary a.
Proof.
  intros self force a w Hdry.
  exact (dry_run_keeps_summary self force (cleanup_summary a) Hdry (a, w) eq_refl).
Qed.

(** X15. main asks who is calling before anything else. When the answer
    carries an account, it builds the cleaner of project
    housing-market-intel for the environment and the dry-run flag of the
    command line, with the two stack names of that environment, and every
    later call is in the scope of that cleaner; when the call fails, or its
    answer carries no account, main raises at once: nothing else is called
    and nothing is printed. *)
Theorem main_cleans_the_account_of_the_caller :
  forall (args : Args) (w : World),
    let res := main args (tt, w) in
    match fst (respond GetCallerIdentity (cloud w)) with
    | Ok (RStr account) =>
        exists (cleaner : Config) (l : list (Call * result Response)),
          project_name cleaner = "housing-market-intel" /\
          environment cleaner = arg_environment args /\
          dry_run cleaner = arg_dry_run args /\
          account_id cleaner = account /\
          stack_names cleaner
          = ["housing-market-intel-" ++ arg_environment args ++ "-appflow";
             "housing-market-intel-" ++ arg_environment args ++ "-main"] /\
          trace (snd (snd res))
          = (trace w ++ (GetCallerIdentity, Ok (RStr account)) :: l)%list /\
          forallb (fun x => in_scope cleaner (fst x)) l = true
    | Ok r =>
        fst res = Raise (KeyError "Account") /\
        trace (snd (snd res)) = (trace w ++ [(GetCallerIdentity, Ok r)])%list /\
        stdout (snd (snd res)) = stdout w
    | Raise e =>
        fst res = Raise e /\
        trace (snd (snd res)) = (trace w ++ [(GetCallerIdentity, Raise e)])%list /\
        stdout (snd (snd res)) = stdout w
    end.
Proof.
  intros args [p t out i n]. cbv zeta.
  unfold main, init, bind, call, field_str.
  cbv beta iota zeta delta [fst snd cloud trace stdout stdin now].
  destruct (respond GetCallerIdentity p) as [[r|e] p1];
    cbv beta iota zeta delta [fst snd cloud trace stdout stdin now].
  - destruct r; try (repeat split; reflexivity).
    unfold ret.
    match goal with
    | |- context [cleanup ?c ?f (?a, ?w1)] =>
        destruct (cleanup_calls_in_scope c f (a, w1)) as [l [T F]];
        destruct (cleanup c f (a, w1)) as [res [a' w']];
        exists c, l
    end.
    cbn [fst snd trace] in T |- *.
    repeat (split; [reflexivity|]).
    split; [|exact F].
    etransitivity; [exact T|]. rewrite <- app_assoc. reflexivity.
  - repeat split; reflexivity.
Qed.

End Properties.

(** X9. Against a provider that raises nothing but Exceptions, and whose
    describe_stacks fails with a ClientError only and answers with at least
    one stack, no failure stops the teardown: forced, or dry, or with a line
    waiting at the prompt, cleanup returns normally, whatever that provider
    holds and whichever calls fail. *)
Theorem cleanup_absorbs_provider_failures :
  forall P : Platform,
    raises_exceptions_only P ->
    describes_stacks P ->
    forall (self : Config) (force : bool) (a : Attrs) (w : World),
      force = true \/ dry_run self = true \/ stdin w <> [] ->
      fst (cleanup self force (a, w)) = Ok tt.
Proof.
  intros P H1 H2 self force a w Hgo.
  rewrite cleanup_after_banner.
  destruct (negb force && negb (dry_run self)) eqn:Hask.
  - apply andb_true_iff in Hask. destruct Hask as [Hf Hd].
    apply negb_true_iff in Hf, Hd.
    destruct Hgo as [Hgo | [Hgo | Hgo]]; [congruence | congruence |].
    destruct w as [p t out i n]. cbn [cloud trace stdout stdin now] in *.
    cbn [for_each warning_lines].
    autorewrite with run. rewrite run_bind_input.
    destruct i as [|typed rest]; [contradiction Hgo; reflexivity|].
    destruct (negb (String.eqb typed (environment self))).
    + reflexivity.
    + apply phases_return; assumption.
  - apply phases_return; assumption.
Qed.

(** ** Concrete runs *)

(** A forced live teardown of the populated account returns, though two of
    its deletions are denied. *)
Lemma cleanup_absorbs_provider_failures_witness :
  raises_exceptions_only (Fake.fixed Fake.populated) /\
  describes_stacks (Fake.fixed Fake.populated) /\
  fst (cleanup (P := Fake.fixed Fake.populated) (Fake.dev_cleaner false) true
         (Fake.fresh_attrs, @mkWorld (Fake.fixed Fake.populated) tt [] [] [] 0)) = Ok tt.
Proof.
  split; [exact populated_raises_exceptions|].
  split; [exact populated_describes_stacks|].
  apply (cleanup_absorbs_provider_failures (Fake.fixed Fake.populated)
           populated_raises_exceptions populated_describes_stacks).
  left. reflexivity.
Defined.

(** Discovery in the populated account: three buckets and one log group. *)
Lemma discovery_selects_by_name_witness :
  let self := Fake.dev_cleaner false in
  let res := _discover_resources self
               (Fake.fresh_attrs, Fake.session Fake.populated []) in
  fst res = Ok tt /\
  buckets_to_delete (fst (snd res))
  = Some ["housing-market-intel-dev-raw-123456789012";
          "housing-market-intel-dev-processed-123456789012";
          "housing-market-intel-dev-artifacts-123456789012"] /\
  log_groups_to_delete (fst (snd res))
  = Some ["/aws/lambda/housing-market-intel-dev-rag-query"] /\
  exists buckets log_groups,
    buckets_to_delete (fst (snd res)) = Some buckets /\
    log_groups_to_delete (fst (snd res)) = Some log_groups /\
    (forall b, In b buckets ->
               String.prefix (project_name self ++ "-" ++ environment self) b = true) /\
    (forall g, In g log_groups -> contains (environment self) g = true).
Proof.
  cbv zeta. split; [reflexivity|]. split; [reflexivity|]. split; [reflexivity|].
  exact (proj1 (discovery_selects_by_name (P := Fake.scripted) (Fake.dev_cleaner false)
                  Fake.fresh_attrs (Fake.session Fake.populated []) eq_refl)).
Defined.

(** Three discovered buckets, six lines. *)
Lemma dry_run_emptying_witness :
  let self := Fake.dev_cleaner true in
  let buckets := ["housing-market-intel-dev-raw-123456789012";
                  "housing-market-intel-dev-processed-123456789012";
                  "housing-market-intel-dev-artifacts-123456789012"] in
  let a := mkAttrs (Some buckets) (Some []) (mkSummary [] [] [] []) in
  let w := Fake.session Fake.populated [] in
  dry_run self = true /\
  buckets_to_delete a = Some buckets /\
  _empty_s3_buckets self (a, w)
  = (Ok tt,
     (a, mkWorld (cloud w) (trace w)
           (stdout w ++ flat_map dry_run_emptying_lines buckets)
           (stdin w) (now w))) /\
  length (flat_map dry_run_emptying_lines buckets) = (2 * length buckets)%nat.
Proof.
  cbv zeta. split; [reflexivity|]. split; [reflexivity|].
  apply (dry_run_emptying_prints_two_lines_per_bucket (P := Fake.scripted));
    reflexivity.
Defined.

(** One bucket emptied, one that the provider does not hold. *)
Lemma live_emptying_witness :
  let self := Fake.dev_cleaner false in
  let buckets := ["housing-market-intel-dev-raw-123456789012";
                  "housing-market-intel-dev-scratch"] in
  let a := mkAttrs (Some buckets) (Some []) (mkSummary [] [] [] []) in
  let w := Fake.session Fake.populated [] in
  let res := _empty_s3_buckets self (a, w) in
  dry_run self = false /\
  buckets_to_delete a = Some buckets /\
  fst res = Ok tt /\
  buckets_emptied (cleanup_summary (fst (snd res)))
  = ["housing-market-intel-dev-raw-123456789012"] /\
  errors (cleanup_summary (fst (snd res)))
  = ["Could not empty bucket housing-market-intel-dev-scratch: "
       ++ exn_str Fake.bucket_missing] /\
  exists calls,
    trace (snd (snd res)) = (trace w ++ calls)%list /\
    (fst res = Ok tt ->
     map fst calls = map DeleteObjectVersions buckets /\
     cleanup_summary (fst (snd res))
     = mkSummary [] ([] ++ emptied_by calls) [] ([] ++ emptying_errors calls)) /\
    (forall e, fst res = Raise e -> is_Exception e = false).
Proof.
  cbv zeta. split; [reflexivity|]. split; [reflexivity|]. split; [reflexivity|].
  split; [reflexivity|]. split; [reflexivity|].
  apply (live_emptying_records_every_bucket (P := Fake.scripted));
    reflexivity.
Defined.

(** Typing "dev" at the prompt of a live, unforced dev teardown starts the
    phases. *)
Lemma confirmation_accepts_witness :
  let self := Fake.dev_cleaner false in
  let w := Fake.session Fake.populated ["dev"] in
  dry_run self = false /\
  stdin w = environment self :: [] /\
  cleanup self false (Fake.fresh_attrs, w)
  = cleanup_phases self
      (Fake.fresh_attrs,
       mkWorld (cloud w) (trace w)
               (stdout w ++ banner_lines (P := Fake.scripted) self (now w)
                  ++ warning_lines self ++ [Prompt (confirmation_prompt self)])
               [] (now w)).
Proof.
  cbv zeta. split; [reflexivity|]. split; [reflexivity|].
  exact (proj2 (confirmation_accepts_the_exact_name_and_end_of_input_raises
                  (P := Fake.scripted) (Fake.dev_cleaner false) Fake.fresh_attrs
                  (Fake.session Fake.populated ["dev"]) eq_refl)
               [] eq_refl).
Defined.

Lemma dry_run_records_nothing_witness :
  let self := Fake.dev_cleaner true in
  let w := Fake.session Fake.populated [] in
  dry_run self = true /\
  cleanup_summary (fst (snd (cleanup self false (Fake.fresh_attrs, w))))
  = cleanup_summary Fake.fresh_attrs.
Proof.
  cbv zeta. split; [reflexivity|].
  exact (dry_run_records_nothing (P := Fake.scripted) (Fake.dev_cleaner true) false
           Fake.fresh_attrs (Fake.session Fake.populated []) eq_refl).
Defined.

End CleanupProps.

(* ================================================================== *)
(** * More properties of the deployment (deploy.py) *)
(* ================================================================== *)

Module DeployProps.
Import Py Sys Deploy SysFacts DeployFacts.
Open Scope py_scope.

(** ** Text and paths *)

Lemma lower_ascii_is_y (c : ascii) :
  lower_ascii c = "y"%char -> c = "y"%char \/ c = "Y"%char.
Proof.
  destruct c as [[] [] [] [] [] [] [] []]; cbv; intros H;
    first [discriminate H | left; reflexivity | right; reflexivity].
Qed.

Lemma lower_is_empty (s : string) : lower s = "" -> s = "".
Proof. destruct s; [reflexivity | cbn [lower]; discriminate]. Qed.

Lemma lower_is_y (s : string) : lower s = "y" <-> s = "y" \/ s = "Y".
Proof.
  split.
  - destruct s as [|c rest]; cbn [lower]; [discriminate|].
    intros H. injection H as Hc Hrest.
    apply lower_is_empty in Hrest. subst rest.
    destruct (lower_ascii_is_y c Hc) as [-> | ->]; [left | right]; reflexivity.
  - intros [-> | ->]; reflexivity.
Qed.

Lemma prefix_refl (s : string) : String.prefix s s = true.
Proof.
  induction s as [|c s IH]; cbn [String.prefix]; [reflexivity|].
  destruct (ascii_dec c c) as [_|H]; [exact IH | contradiction H; reflexivity].
Qed.

Lemma prefix_empty (s : string) : String.prefix "" s = true.
Proof. destruct s; reflexivity. Qed.

Lemma prefix_app (s t u : string) :
  String.prefix s t = true -> String.prefix s (t ++ u) = true.
Proof.
  revert t. induction s as [|c s IH]; intros t; [intros _; apply prefix_empty|].
  destruct t as [|c' t]; cbn [String.prefix append]; [discriminate|].
  destruct (ascii_dec c c'); [apply IH | discriminate].
Qed.

Lemma prefix_path_join (s p q : string) :
  String.prefix s p = true -> String.prefix s (path_join p q) = true.
Proof. intros H. unfold path_join. apply prefix_app. exact H. Qed.

Lemma replace_is_empty (old new s : string) :
  new <> "" -> replace old new s = "" -> s = "".
Proof.
  intros Hnew. unfold replace. destruct s as [|c rest]; [reflexivity|].
  cbn [replace_from].
  destruct (String.prefix old (String c rest)).
  - destruct new as [|c' new']; [contradiction Hnew; reflexivity|].
    cbn [append]. discriminate.
  - discriminate.
Qed.

(** ** Dicts *)

Lemma dict_find_dict_set {V : Type} (d : dict V) (k k' : string) (v : V) :
  dict_find (dict_set d k v) k'
  = if String.eqb k k' then Some v else dict_find d k'.
Proof.
  induction d as [|[k0 v0] d IH]; cbn [dict_set dict_find].
  - reflexivity.
  - destruct (String.eqb k0 k) eqn:E0; cbn [dict_find].
    + apply String.eqb_eq in E0. subst k0.
      destruct (String.eqb k k'); reflexivity.
    + rewrite IH. destruct (String.eqb k0 k') eqn:E1; [|reflexivity].
      apply String.eqb_eq in E1. subst k'.
      rewrite String.eqb_sym, E0. reflexivity.
Qed.

Lemma dict_find_app {V : Type} (d1 d2 : dict V) (k : string) :
  dict_find (d1 ++ d2)%list k
  = match dict_find d1 k with
    | Some v => Some v
    | None => dict_find d2 k
    end.
Proof.
  induction d1 as [|[k0 v0] d1 IH]; cbn [app dict_find]; [reflexivity|].
  destruct (String.eqb k0 k); [reflexivity | exact IH].
Qed.

(** The dict comprehension keeps, for each key, the last value listed. *)
Lemma dict_of_pairs_find (l : list (string * string)) (d : dict string) (k : string) :
  dict_find (fold_left (fun d '(k, v) => dict_set d k v) l d) k
  = match dict_find (rev l) k with
    | Some v => Some v
    | None => dict_find d k
    end.
Proof.
  revert d. induction l as [|[k0 v0] l IH]; intros d; cbn [fold_left rev].
  - reflexivity.
  - rewrite IH, dict_find_app, dict_find_dict_set. cbn [dict_find].
    destruct (dict_find (rev l) k); [reflexivity|].
    destruct (String.eqb k0 k); reflexivity.
Qed.

(** ** Runs *)

Section Runs.
Context {P : Platform}.

Lemma get_stack_status_run (stack_name : string) (p : pstate)
      (t : list (Call * result Response)) (out : list Out) (i : list string) (n : nat) :
  exists res,
    get_stack_status stack_name (tt, mkWorld p t out i n)
    = (res, (tt, mkWorld (snd (respond (DescribeStacks stack_name) p))
                   (t ++ [(DescribeStacks stack_name,
                           fst (respond (DescribeStacks stack_name) p))])
                   out i n)) /\
    match res with
    | Ok s => status_of (fst (respond (DescribeStacks stack_name) p)) = Some s
    | Raise e => is_ClientError e = false
    end.
Proof.
  unfold get_stack_status, field_stacks, first.
  unfold bind, try_except, except, call, ret, raise.
  cbv beta iota zeta delta [fst snd cloud trace stdout stdin now].
  destruct (respond (DescribeStacks stack_name) p) as [[r|e] p1];
    cbv beta iota zeta delta [fst snd cloud trace stdout stdin now].
  - destruct r as [| b | s | l | l | [|d l]];
      cbv beta iota zeta delta [fst snd cloud trace stdout stdin now];
      eexists; (split; [reflexivity|]); reflexivity.
  - unfold status_of. destruct (is_ClientError e) eqn:He;
      cbv beta iota zeta delta [fst snd cloud trace stdout stdin now];
      eexists; (split; [reflexivity|]); cbn; try rewrite He; reflexivity.
Qed.

Lemma deploy_at_prompt (config : Config) (w : World) :
  deploy config false (tt, w)
  = match stdin w with
    | [] => (Raise EOFError,
             (tt, mkWorld (cloud w) (trace w)
                    (stdout w ++ banner_lines config (now w)
                       ++ [Prompt (confirmation_prompt config)])
                    [] (now w)))
    | typed :: rest =>
        (if negb (String.eqb (lower typed) "y")
         then print_warning "Deployment cancelled"
         else deploy_phases config)
          (tt, mkWorld (cloud w) (trace w)
                 (stdout w ++ banner_lines config (now w)
                    ++ [Prompt (confirmation_prompt config)])
                 rest (now w))
    end.
Proof.
  destruct w as [p t out i n]. cbn [cloud trace stdout stdin now].
  unfold deploy, print_header, print. cbn [negb].
  autorewrite with run. rewrite run_bind_input.
  unfold banner_lines, confirmation_prompt.
  rewrite <- !app_assoc. cbn [app].
  destruct i; reflexivity.
Qed.

End Runs.

(** ** Calls in scope *)

Section DeployScope.
Context {P : Platform}.
Variable config : Config.

Hint Resolve prefix_refl prefix_path_join : respects.
Hint Extern 1 (respects (calls_within (deploy_scope _)) (call _)) =>
  apply calls_within_call; cbn [deploy_scope]; unfold startswith;
  cbn [String.prefix append];
  rewrite ?String.eqb_refl, ?prefix_empty, ?orb_true_r; cbn [orb] : respects.
Hint Extern 1 (String.prefix _ _ = true) =>
  unfold build_dir; repeat apply prefix_path_join; apply prefix_refl : respects.

Lemma deploy_calls_in_scope (skip_confirmation : bool) :
  respects (calls_within (deploy_scope config)) (deploy config skip_confirmation).
Proof.
  unfold deploy, deploy_phases, deploy_failed, deploy_build_and_upload,
    deploy_post_deployment, clean_build, build_lambda_package, build_glue_scripts,
    create_artifact_bucket, upload_directory, upload_artifact, deploy_stack,
    deploy_stack_failed, get_stack_outputs, _upload_glue_scripts_to_bucket,
    _upload_lambda_code_to_bucket, _print_summary, relative_to.
  auto 80 with respects.
Qed.

Lemma status_calls_in_scope :
  respects (calls_within (fun c => deploy_scope config c && is_describe_stacks c))
           (status config).
Proof.
  unfold status, get_stack_status. cbn [for_each].
  assert (Hm : deploy_scope config (DescribeStacks (main_stack_name config))
               && is_describe_stacks (DescribeStacks (main_stack_name config)) = true)
    by (cbn; rewrite String.eqb_refl; reflexivity).
  assert (Ha : deploy_scope config (DescribeStacks (appflow_stack_name config))
               && is_describe_stacks (DescribeStacks (appflow_stack_name config)) = true)
    by (cbn; rewrite String.eqb_refl, orb_true_r; reflexivity).
  auto 40 with respects.
Qed.

End DeployScope.

(** ** The properties *)

Section Properties.
Context {P : Platform}.

(** X16. Whatever the provider answers, the calls deploy_stack makes follow
    one protocol: it reads the template, and stops there when that fails;
    it describes the stack; when the description is answered it asks for an
    update, when it fails with a ClientError it asks for a creation with
    rollback on failure, with the same name, body, parameters and
    capabilities, and when it fails otherwise it asks for nothing more; when
    the create or the update is answered it waits once, on
    stack_update_complete or stack_create_complete accordingly, every 30
    seconds and at most 60 times. It makes no other call. *)
Theorem deploy_stack_follows_its_protocol :
  forall (stack_name template_path : string) (parameters : dict string)
         (capabilities : option (list string)) (w : World),
    exists calls,
      trace (snd (snd (deploy_stack stack_name template_path parameters capabilities
                                    (tt, w))))
      = (trace w ++ calls)%list /\
      deploy_stack_protocol stack_name template_path parameters capabilities calls.
Proof.
  intros stack_name template_path parameters capabilities [p t out i n].
  unfold deploy_stack, deploy_stack_failed, field_str, no_updates_text,
    print_info, print_error, print_success, print.
  unfold bind, try_except, except, emit, on_world, call, ret, raise.
  cbv beta iota zeta delta [fst snd cloud trace stdout stdin now].
  destruct (respond (ReadFile template_path) p) as [[r|e] p1];
    cbv beta iota zeta delta [fst snd cloud trace stdout stdin now].
  2: { eexists. split; [reflexivity|]. cbn. split; [reflexivity|]. intros b H; discriminate H. }
  destruct r as [| b | body | l | l | l];
    cbv beta iota zeta delta [fst snd cloud trace stdout stdin now];
    try (eexists; split; [reflexivity|]; cbn; split; [reflexivity|];
         intros b' H; discriminate H).
  destruct (respond (DescribeStacks stack_name) p1) as [[rd|ed] p2];
    cbv beta iota zeta delta [fst snd cloud trace stdout stdin now].
  - destruct (respond (UpdateStack stack_name body (cfn_parameters_of parameters)
                                   (capabilities_or_default capabilities)) p2)
      as [[ru|eu] p3];
      cbv beta iota zeta delta [fst snd cloud trace stdout stdin now].
    + destruct (respond (WaiterWait "stack_update_complete" stack_name 30 60) p3)
        as [[rw|ew] p4];
        cbv beta iota zeta delta [fst snd cloud trace stdout stdin now].
      * eexists. split; [rewrite <- !app_assoc; reflexivity|].
        cbn. repeat split. intros e H; discriminate H.
      * destruct (is_ClientError ew);
          [destruct (contains "No updates are to be performed" (exn_str ew))|];
          cbv beta iota zeta delta [fst snd cloud trace stdout stdin now];
          (eexists; split; [rewrite <- !app_assoc; reflexivity|];
           cbn; repeat split; intros e H; discriminate H).
    + destruct (is_ClientError eu);
        [destruct (contains "No updates are to be performed" (exn_str eu))|];
        cbv beta iota zeta delta [fst snd cloud trace stdout stdin now];
        (eexists; split; [rewrite <- !app_assoc; reflexivity|];
         cbn; repeat split; intros e H; discriminate H).
  - destruct (is_ClientError ed) eqn:Hed;
      cbv beta iota zeta delta [fst snd cloud trace stdout stdin now].
    + destruct (respond (CreateStack stack_name body (cfn_parameters_of parameters)
                                     (capabilities_or_default capabilities) "ROLLBACK") p2)
        as [[rc|ec] p3];
        cbv beta iota zeta delta [fst snd cloud trace stdout stdin now].
      * destruct (respond (WaiterWait "stack_create_complete" stack_name 30 60) p3)
          as [[rw|ew] p4];
          cbv beta iota zeta delta [fst snd cloud trace stdout stdin now].
        -- eexists. split; [rewrite <- !app_assoc; reflexivity|].
           cbn. repeat split. intros e H; injection H as <-; exact Hed.
        -- destruct (is_ClientError ew);
             [destruct (contains "No updates are to be performed" (exn_str ew))|];
             cbv beta iota zeta delta [fst snd cloud trace stdout stdin now];
             (eexists; split; [rewrite <- !app_assoc; reflexivity|];
              cbn; repeat split; intros e H; injection H as <-; exact Hed).
      * destruct (is_ClientError ec);
          [destruct (contains "No updates are to be performed" (exn_str ec))|];
          cbv beta iota zeta delta [fst snd cloud trace stdout stdin now];
          (eexists; split; [rewrite <- !app_assoc; reflexivity|];
           cbn; repeat split; intros e H; injection H as <-; exact Hed).
    + rewrite Hed.
      cbv beta iota zeta delta [fst snd cloud trace stdout stdin now].
      eexists. split; [rewrite <- !app_assoc; reflexivity|].
      cbn. repeat split. exists ed. split; [reflexivity | exact Hed].
Qed.

(** X19. status only describes: every call it makes is describe_stacks of
    the main or of the AppFlow stack. When it returns it has described the
    main stack and then the AppFlow stack, once each, and printed the header
    and one line per stack, made from the status the answer carries. It
    raises only what is not a ClientError. *)
Theorem status_describes_both_stacks_and_changes_nothing :
  forall (config : Config) (w : World),
    let res := status config (tt, w) in
    let main := DescribeStacks (main_stack_name config) in
    let appflow := DescribeStacks (appflow_stack_name config) in
    exists calls,
      trace (snd (snd res)) = (trace w ++ calls)%list /\
      (forall c r, In (c, r) calls -> c = main \/ c = appflow) /\
      (fst res = Ok tt ->
       exists r1 r2 s1 s2,
         calls = [(main, r1); (appflow, r2)] /\
         status_of r1 = Some s1 /\ status_of r2 = Some s2 /\
         stdout (snd (snd res))
         = (stdout w
              ++ [Line (nl ++ header_rule); Line (header_text "DEPLOYMENT STATUS");
                  Line (header_rule ++ nl)]
              ++ [Line (status_line (main_stack_name config) s1);
                  Line (status_line (appflow_stack_name config) s2)])%list) /\
      (forall e, fst res = Raise e -> is_ClientError e = false).
Proof.
  intros config [p t out i n]. cbv zeta.
  remember (status config (tt, mkWorld p t out i n)) as res eqn:Hrun.
  unfold status, print_header, print in Hrun. cbn [for_each] in Hrun.
  autorewrite with run in Hrun.
  destruct (get_stack_status_run (main_stack_name config) p t
              (((out ++ [Line (nl ++ header_rule)])
                  ++ [Line (header_text "DEPLOYMENT STATUS")])
                 ++ [Line (header_rule ++ nl)]) i n) as [res1 [Hrun1 Hres1]].
  unfold bind at 1 in Hrun. rewrite Hrun1 in Hrun.
  destruct (respond (DescribeStacks (main_stack_name config)) p) as [r1 p1].
  cbn [fst snd] in *.
  destruct res1 as [s1|e1].
  - autorewrite with run in Hrun.
    match type of Hrun with
    | context [bind (get_stack_status ?nm) _ (tt, mkWorld ?p' ?t' ?out' ?i' ?n')] =>
        destruct (get_stack_status_run nm p' t' out' i' n') as [res2 [Hrun2 Hres2]]
    end.
    unfold bind at 1 in Hrun. rewrite Hrun2 in Hrun.
    destruct (respond (DescribeStacks (appflow_stack_name config)) p1) as [r2 p2].
    cbn [fst snd] in *.
    destruct res2 as [s2|e2].
    + autorewrite with run in Hrun. unfold ret in Hrun. subst res.
      cbn [fst snd trace stdout].
      eexists. split; [rewrite <- !app_assoc; reflexivity|].
      split; [|split].
      * intros c r [H|[H|[]]]; injection H as <- _; [left|right]; reflexivity.
      * intros _. exists r1, r2, s1, s2.
        repeat split; try assumption.
        rewrite <- !app_assoc. reflexivity.
      * intros e He; discriminate He.
    + subst res. cbn [fst snd trace stdout].
      eexists. split; [rewrite <- !app_assoc; reflexivity|].
      split; [|split].
      * intros c r [H|[H|[]]]; injection H as <- _; [left|right]; reflexivity.
      * intros He; discriminate He.
      * intros e He; injection He as <-. exact Hres2.
  - subst res. cbn [fst snd trace stdout].
    eexists. split; [reflexivity|].
    split; [|split].
    + intros c r [H|[]]; injection H as <- _; left; reflexivity.
    + intros He; discriminate He.
    + intros e He; injection He as <-. exact Hres1.
Qed.

(** X17. get_stack_outputs makes one call, describe_stacks of the stack.
    When the answer carries a stack, it returns a dict that maps each output
    key to the value listed last for it, and prints nothing. When the answer
    carries no stack, or the call raises an Exception, it prints a warning
    and returns the empty dict. It raises only what is not an Exception. *)
Theorem get_stack_outputs_falls_back_to_empty :
  forall (stack_name : string) (w : World),
    let res := get_stack_outputs stack_name (tt, w) in
    let answer := fst (respond (DescribeStacks stack_name) (cloud w)) in
    trace (snd (snd res)) = (trace w ++ [(DescribeStacks stack_name, answer)])%list /\
    (forall e, fst res = Raise e -> is_Exception e = false) /\
    match answer with
    | Ok (RStacks (stack :: _)) =>
        stdout (snd (snd res)) = stdout w /\
        exists outputs,
          fst res = Ok outputs /\
          forall key, dict_find outputs key = dict_find (rev (Outputs stack)) key
    | Ok _ =>
        fst res = Ok [] /\
        exists e,
          stdout (snd (snd res))
          = (stdout w ++ [Line (warning_text ("Could not get stack outputs: "
                                              ++ exn_str e))])%list
    | Raise e =>
        is_Exception e = true ->
        fst res = Ok [] /\
        stdout (snd (snd res))
        = (stdout w ++ [Line (warning_text ("Could not get stack outputs: "
                                            ++ exn_str e))])%list
    end.
Proof.
  intros stack_name [p t out i n]. cbv zeta.
  unfold get_stack_outputs, field_stacks, first, print_warning, print.
  unfold bind, try_except, except, emit, on_world, call, ret, raise.
  cbv beta iota zeta delta [fst snd cloud trace stdout stdin now].
  destruct (respond (DescribeStacks stack_name) p) as [[r|e] p1];
    cbv beta iota zeta delta [fst snd cloud trace stdout stdin now].
  - destruct r as [| b | s | l | l | [|d l]];
      cbv beta iota zeta delta [fst snd cloud trace stdout stdin now];
      (split; [reflexivity|]); (split; [intros e He; discriminate He|]);
      try (split; [reflexivity|]; eexists; reflexivity).
    split; [reflexivity|]. eexists. split; [reflexivity|].
    intros key. rewrite dict_of_pairs_find.
    destruct (dict_find (rev (Outputs d)) key); reflexivity.
  - destruct (is_Exception e) eqn:He;
      cbv beta iota zeta delta [fst snd cloud trace stdout stdin now].
    + split; [reflexivity|]. split; [intros e' H; discriminate H|].
      intros _. split; reflexivity.
    + split; [reflexivity|]. split; [intros e' H; injection H as <-; exact He|].
      intros H; discriminate H.
Qed.

(** X18. create_artifact_bucket makes one call: create_bucket of the
    artifact bucket, with no location constraint in us-east-1 and the region
    as the constraint elsewhere. It returns after one line whether the
    bucket was created, is already owned by the caller, or could not be
    created for any other Exception; only what is not an Exception leaves
    it. *)
Theorem create_artifact_bucket_absorbs_every_exception :
  forall (config : Config) (w : World),
    let res := create_artifact_bucket config (tt, w) in
    let constraint :=
      if String.eqb (region config) "us-east-1" then None else Some (region config) in
    let create := CreateBucket (artifact_bucket config) constraint in
    let answer := fst (respond create (cloud w)) in
    trace (snd (snd res)) = (trace w ++ [(create, answer)])%list /\
    match answer with
    | Ok _ =>
        fst res = Ok tt /\
        stdout (snd (snd res))
        = (stdout w ++ [Line (success_text ("Created artifact bucket: "
                                            ++ artifact_bucket config))])%list
    | Raise e =>
        if is_code "BucketAlreadyOwnedByYou" e then
          fst res = Ok tt /\
          stdout (snd (snd res))
          = (stdout w ++ [Line (info_text ("Artifact bucket already exists: "
                                           ++ artifact_bucket config))])%list
        else if is_Exception e then
          fst res = Ok tt /\
          stdout (snd (snd res))
          = (stdout w ++ [Line (warning_text ("Could not create bucket: "
                                              ++ exn_str e))])%list
        else
          fst res = Raise e /\ stdout (snd (snd res)) = stdout w
    end.
Proof.
  intros config [p t out i n]. cbv zeta.
  unfold create_artifact_bucket, print_success, print_info, print_warning, print.
  unfold bind, try_except, orelse, except, emit, on_world, call, ret, raise.
  destruct (String.eqb (region config) "us-east-1").
  all: cbv beta iota zeta delta [fst snd cloud trace stdout stdin now].
  all: match goal with
       | |- context [respond ?c ?q] => destruct (respond c q) as [[r|e] p1]
       end.
  all: cbv beta iota zeta delta [fst snd cloud trace stdout stdin now].
  all: try (split; [reflexivity|]; split; reflexivity).
  all: destruct (is_code "BucketAlreadyOwnedByYou" e); [|destruct (is_Exception e)].
  all: cbv beta iota zeta delta [fst snd cloud trace stdout stdin now].
  all: split; [reflexivity|]; split; reflexivity.
Qed.

(** X20. Unless confirmation is skipped, deploy goes on only when the line
    typed at the prompt is y or Y: then it runs the phases from the state
    the prompt left. After any other line it prints "Deployment cancelled"
    and returns, having made no call. *)
Theorem deploy_proceeds_only_on_y :
  forall (config : Config) (w : World) (typed : string) (rest : list string),
    stdin w = typed :: rest ->
    let asked :=
      (stdout w ++ banner_lines config (now w)
         ++ [Prompt (confirmation_prompt config)])%list in
    (typed = "y" \/ typed = "Y" ->
     deploy config false (tt, w)
     = deploy_phases config (tt, mkWorld (cloud w) (trace w) asked rest (now w))) /\
    (typed <> "y" -> typed <> "Y" ->
     deploy config false (tt, w)
     = (Ok tt,
        (tt, mkWorld (cloud w) (trace w)
               (asked ++ [Line (warning_text "Deployment cancelled")])
               rest (now w)))).
Proof.
  intros config w typed rest Hin. cbv zeta.
  rewrite deploy_at_prompt, Hin.
  split.
  - intros Hy. apply lower_is_y in Hy. rewrite Hy. reflexivity.
  - intros H1 H2.
    destruct (String.eqb (lower typed) "y") eqn:E.
    + apply String.eqb_eq, lower_is_y in E. destruct E; contradiction.
    + reflexivity.
Qed.

(** X21. The two uploads after the stack deployment depend on the output
    ProcessedDataBucketName: when it is missing or empty, neither upload
    does anything at all; when it is there, the Lambda archive is uploaded,
    in one call, to the bucket named by replacing "processed" with
    "glue-scripts" in it, under the key lambda/rag_query_handler.zip. *)
Theorem post_deployment_uploads_need_the_processed_bucket :
  forall (config : Config) (outputs : dict string) (lambda_zip : string) (w : World),
    let processed := dict_get_default outputs "ProcessedDataBucketName" "" in
    (processed = "" ->
     _upload_glue_scripts_to_bucket config outputs (tt, w) = (Ok tt, (tt, w)) /\
     _upload_lambda_code_to_bucket outputs lambda_zip (tt, w) = (Ok tt, (tt, w))) /\
    (processed <> "" ->
     exists r,
       trace (snd (snd (_upload_lambda_code_to_bucket outputs lambda_zip (tt, w))))
       = (trace w
            ++ [(UploadFile lambda_zip
                            (bucket_name_of (replace "processed" "glue-scripts" processed))
                            "lambda/rag_query_handler.zip", r)])%list).
Proof.
  intros config outputs lambda_zip [p t out i n]. cbv zeta. split.
  - intros Hempty.
    unfold _upload_glue_scripts_to_bucket, _upload_lambda_code_to_bucket,
      scripts_bucket_of.
    rewrite Hempty. split; reflexivity.
  - intros Hne.
    unfold _upload_lambda_code_to_bucket, scripts_bucket_of.
    destruct (String.eqb (replace "processed" "glue-scripts"
                            (dict_get_default outputs "ProcessedDataBucketName" "")) "")
      eqn:E.
    + apply String.eqb_eq in E. apply replace_is_empty in E; [contradiction|discriminate].
    + cbn [negb]. unfold bind, call, print_success, print, emit, on_world.
      cbv beta iota zeta delta [fst snd cloud trace stdout stdin now].
      match goal with
      | |- context [respond ?c p] => destruct (respond c p) as [[r|e] p1]
      end;
        cbv beta iota zeta delta [fst snd cloud trace stdout stdin now];
        eexists; reflexivity.
Qed.

(** X22. Whatever the provider answers, every call a deployment makes is
    within its own configuration: stacks described, created, updated or
    waited on are the main or the AppFlow stack; the only bucket created is
    the artifact bucket; an upload goes to the artifact bucket, or under the
    key prefix scripts/, or to the key lambda/rag_query_handler.zip; the
    only tree removed is the build directory; directories made, packages
    installed, archives written and files copied are under the build
    directory; everything else only reads the file system. *)
Theorem deploy_stays_within_its_stacks_bucket_and_build_directory :
  forall (config : Config) (skip_confirmation : bool) (w : World),
    exists l,
      trace (snd (snd (deploy config skip_confirmation (tt, w)))) = (trace w ++ l)%list /\
      forall (c : Call) (r : result Response),
        In (c, r) l ->
        deploy_scope config c = true /\
        match c with
        | DescribeStacks n | CreateStack n _ _ _ _ | UpdateStack n _ _ _
        | WaiterWait _ n _ _ =>
            n = main_stack_name config \/ n = appflow_stack_name config
        | CreateBucket b _ => b = artifact_bucket config
        | UploadFile _ b k =>
            b = artifact_bucket config \/ String.prefix "scripts/" k = true
            \/ k = "lambda/rag_query_handler.zip"
        | Rmtree p => p = build_dir config
        | Mkdir p | PipInstall p _ | ZipOpen p | ZipClose p | ZipWrite p _ _ =>
            String.prefix (build_dir config) p = true
        | CopyFile _ dst => String.prefix (build_dir config) dst = true
        | PathExists _ | IsFile _ | Rglob _ | Glob _ _ | ReadFile _ => True
        | _ => False
        end.
Proof.
  intros config skip w.
  destruct (deploy_calls_in_scope config skip (tt, w)) as [l [T F]].
  exists l. split; [exact T|].
  intros c r Hin. rewrite forallb_forall in F. specialize (F _ Hin). cbn [fst] in F.
  split; [exact F|].
  destruct c; cbn [deploy_scope] in F; try discriminate F; try exact I; try exact F;
    try (apply String.eqb_eq; exact F);
    try (apply orb_true_iff in F; destruct F as [F|F]; apply String.eqb_eq in F;
         [left | right]; exact F).
  apply orb_true_iff in F. destruct F as [F|F].
  - apply orb_true_iff in F. destruct F as [F|F].
    + left. apply String.eqb_eq. exact F.
    + right. left. exact F.
  - right. right. apply String.eqb_eq. exact F.
Qed.

(** X23. main asks who is calling first, and raises at once when that fails
    or carries no account. Otherwise it builds the configuration of the
    environment, region and account, and every later call is within that
    configuration; with the action status, every later call is a
    describe_stacks; with an action other than deploy and status, it makes
    no further call and returns. *)
Theorem main_dispatches_on_the_action :
  forall (project_root : string) (args : Args) (w : World),
    let res := main project_root args (tt, w) in
    match fst (respond GetCallerIdentity (cloud w)) with
    | Ok (RStr account) =>
        exists (config : Config) (l : list (Call * result Response)),
          environment config = arg_environment args /\
          region config = arg_region args /\
          account_id config = account /\
          main_stack_name config
          = "housing-market-intel-" ++ arg_environment args ++ "-main" /\
          appflow_stack_name config
          = "housing-market-intel-" ++ arg_environment args ++ "-appflow" /\
          artifact_bucket config
          = "housing-market-intel-" ++ arg_environment args ++ "-artifacts-" ++ account /\
          build_dir config = project_root ++ "/build" /\
          trace (snd (snd res))
          = (trace w ++ (GetCallerIdentity, Ok (RStr account)) :: l)%list /\
          forallb (fun x => deploy_scope config (fst x)) l = true /\
          (arg_action args = "status" ->
           forallb (fun x => is_describe_stacks (fst x)) l = true) /\
          (arg_action args <> "deploy" -> arg_action args <> "status" ->
           l = [] /\ fst res = Ok tt)
    | Ok r =>
        fst res = Raise (KeyError "Account") /\
        trace (snd (snd res)) = (trace w ++ [(GetCallerIdentity, Ok r)])%list /\
        stdout (snd (snd res)) = stdout w
    | Raise e =>
        fst res = Raise e /\
        trace (snd (snd res)) = (trace w ++ [(GetCallerIdentity, Raise e)])%list /\
        stdout (snd (snd res)) = stdout w
    end.
Proof.
  intros project_root args [p t out i n]. cbv zeta.
  remember (main project_root args (tt, mkWorld p t out i n)) as res eqn:Hrun.
  unfold main, DeploymentConfig_init in Hrun.
  rewrite run_bind_assoc in Hrun.
  cbn [cloud fst].
  destruct (respond GetCallerIdentity p) as [[r|e] p1] eqn:Hresp; cbn [fst].
  - rewrite (run_bind_call_ok _ _ _ _ _ _ _ _ _ _ Hresp) in Hrun.
    destruct r as [| b | account | l | l | l];
      try (unfold field_str, bind, raise in Hrun; subst res; repeat split; reflexivity).
    unfold field_str in Hrun. autorewrite with run in Hrun.
    match type of Hrun with
    | context [deploy ?c _] => exists c
    end.
    destruct (String.eqb (arg_action args) "deploy") eqn:Ed.
    + match type of Hrun with
      | context [deploy ?c ?f ?s0] =>
          destruct (deploy_calls_in_scope c f s0) as [l [T F]]; exists l
      end.
      subst res.
      repeat (split; [reflexivity|]).
      split; [etransitivity; [exact T|]; cbn [snd trace]; rewrite <- app_assoc; reflexivity|].
      split; [exact F|].
      apply String.eqb_eq in Ed. split.
      * intros Hs. rewrite Hs in Ed. discriminate Ed.
      * intros Hd. contradiction.
    + destruct (String.eqb (arg_action args) "status") eqn:Es.
      * match type of Hrun with
        | context [status ?c ?s0] =>
            destruct (status_calls_in_scope c s0) as [l [T F]]; exists l
        end.
        subst res.
        repeat (split; [reflexivity|]).
        split; [etransitivity; [exact T|]; cbn [snd trace]; rewrite <- app_assoc;
                reflexivity|].
        rewrite forallb_forall in F.
        split; [|split].
        -- apply forallb_forall. intros x Hx. specialize (F x Hx).
           apply andb_true_iff in F. exact (proj1 F).
        -- intros _. apply forallb_forall. intros x Hx. specialize (F x Hx).
           apply andb_true_iff in F. exact (proj2 F).
        -- intros _ Hs. apply String.eqb_eq in Es. contradiction.
      * exists []. subst res. cbn [fst snd trace ret].
        repeat (split; [reflexivity|]).
        reflexivity.
  - rewrite (run_bind_call_raise _ _ _ _ _ _ _ _ _ _ Hresp) in Hrun.
    subst res. repeat split; reflexivity.
Qed.

End Properties.

(** ** Concrete runs *)

(** Typing "yes" cancels the deployment. *)
Lemma deploy_proceeds_only_on_y_witness :
  let w := Fake.session Fake.redeploy ["yes"] in
  stdin w = ["yes"] /\
  "yes" <> "y" /\ "yes" <> "Y" /\
  deploy Fake.dev_config false (tt, w)
  = (Ok tt,
     (tt, mkWorld (cloud w) (trace w)
            ((stdout w ++ banner_lines (P := Fake.scripted) Fake.dev_config (now w)
                ++ [Prompt (confirmation_prompt Fake.dev_config)])
               ++ [Line (warning_text "Deployment cancelled")])
            [] (now w))).
Proof.
  cbv zeta.
  assert (H1 : "yes" <> "y") by discriminate.
  assert (H2 : "yes" <> "Y") by discriminate.
  split; [reflexivity|]. split; [exact H1|]. split; [exact H2|].
  exact (proj2 (deploy_proceeds_only_on_y (P := Fake.scripted) Fake.dev_config
                  (Fake.session Fake.redeploy ["yes"]) "yes" [] eq_refl) H1 H2).
Defined.

End DeployProps.
